(** * Simple-LAS-viewer: LAS/LAZ decoding, projection and slicing

    A shallow embedding of the point-cloud pipeline of the viewer:
    - [LASParser.js]      (header reader, point record decoder, projector,
                           elevation colorizer),
    - [lazDecompressor.js] (compressed-stream decoder around laz-perf, file
                           kinds and [processFile]),
    - [lasParser.worker.js] (the reply of the parsing worker),
    - [useSlicer.js] and the slicer sliders of [ControlsPanel.jsx],
    - [LASViewer.jsx]     ([loadFile]: what it shows of a file).

    JavaScript numbers are IEEE-754 binary64 values.  Real-valued
    quantities (coordinates, colours) are Rocq's primitive [float]s, which
    are binary64 as well; [Math.cos] and [Math.sin] are parameters.
    Integer-valued quantities (header fields, byte offsets, loop counters)
    are [Z]: binary64 arithmetic is exact on integers up to [2^53], and a
    byte offset only passes the length of a buffer at the iteration where
    the loops stop.  The one place where the source builds an integer
    that need not fit the 53-bit significand, the 64-bit point count,
    rounds explicitly with [round53].  The one division of counts, the
    stride of the subsampling, takes the exact ceiling, which is what the
    binary64 division gives for declared counts below [2^53]
    ([stride_is_binary64]); [Num.ceil_quot] is its value in general.
    Progress callbacks carry no data of the result and are left out. *)

From Stdlib Require Import ZArith Floats Strings.Byte Ascii String Lia Bool.
From Stdlib Require Import DecimalString.
From stdpp Require Import base list gmap.

Set Default Proof Using "Type".
Local Open Scope Z_scope.

(** ** Exceptions and the result monad *)

Inductive exn : Type :=
| RangeError                 (* DataView access out of bounds *)
| Error (msg : string)       (* [throw new Error(msg)] *)
| EngineError (msg : string) (* whatever the laz-perf engine throws *)
| InvalidLength (len : nat)  (* [RangeError] of [new Uint8Array(buffer, 0, len)] *)
| SetOutOfBounds             (* [RangeError] of [typedArray.set(src, off)] *).

Inductive result (A : Type) : Type :=
| Ok (a : A)
| Throw (e : exn).
Arguments Ok {A} a.
Arguments Throw {A} e.

Definition rbind {A B} (m : result A) (k : A -> result B) : result B :=
  match m with
  | Ok a => k a
  | Throw e => Throw e
  end.

Notation "'let*' x ':=' m 'in' k" := (rbind m (fun x => k))
  (at level 10, x name, m at level 100, k at level 200).
Notation "'let*' ( x , y ) ':=' m 'in' k" := (rbind m (fun '(x, y) => k))
  (at level 10, x name, y name, m at level 100, k at level 200).

(** ** Numbers *)

Module Num.

(** Round a non-negative integer to the nearest binary64 value, ties to
    even: the value the Number [n] really holds.  Integers below [2^53]
    are exact. *)
Definition round53 (n : Z) : Z :=
  if n <? 2 ^ 53 then n
  else
    let e := Z.log2 n - 52 in
    let q := n / 2 ^ e in
    let r := n mod 2 ^ e in
    let half := 2 ^ (e - 1) in
    if (half <? r) || ((r =? half) && Z.odd q)
    then (q + 1) * 2 ^ e
    else q * 2 ^ e.

(** [a + b] and [a * b] on non-negative integer-valued Numbers. *)
Definition add (a b : Z) : Z := round53 (a + b).
Definition mul (a b : Z) : Z := round53 (a * b).

(** [Math.ceil(a / b)] for integers [a >= 0], [b > 0]: the ceiling of the
    quotient, which the binary64 division does not move across an integer
    for operands below [2^53]. *)
Definition ceil_div (a b : Z) : Z := (a + b - 1) / b.

(** The binary64 quotient [a / b] of two positive integer-valued Numbers:
    the significand [q] and the exponent [e] of the binary64 value
    [q * 2^e] nearest to the quotient (ties to even).  The exponent is
    chosen so that the quotient, scaled by [2^(-e)], has 53 bits before
    the binary point; the quotients of the counts the viewer divides are
    normal numbers. *)
Definition quot64 (a b : Z) : Z * Z :=
  let scaled (e : Z) := if e <? 0 then (a * 2 ^ (- e), b) else (a, b * 2 ^ e) in
  let e0 := Z.log2 a - Z.log2 b - 53 in
  let e := if 2 ^ 53 <=? fst (scaled e0) / snd (scaled e0) then e0 + 1 else e0 in
  let '(num, den) := scaled e in
  let q := num / den in
  let r := num mod den in
  if (den <? 2 * r) || ((2 * r =? den) && Z.odd q) then (q + 1, e) else (q, e).

(** [Math.ceil(a / b)] as JavaScript computes it: the ceiling of the
    binary64 quotient.  It is [ceil_div a b] for [b < a < 2^53]; above
    [2^53] the rounding of the quotient can take it to the integer
    below. *)
Definition ceil_quot (a b : Z) : Z :=
  let '(q, e) := quot64 a b in
  if 0 <=? e then q * 2 ^ e else ceil_div q (2 ^ (- e)).

(** The binary64 value nearest to an integer. *)
Definition to_float (z : Z) : float :=
  SF2Prim (binary_normalize prec emax z 0 false).

(** Decoding of the 64 bits of a binary64 value. *)
Definition float_of_bits (w : Z) : float :=
  let s := Z.testbit w 63 in
  let e := Z.land (Z.shiftr w 52) 2047 in
  let m := Z.land w (2 ^ 52 - 1) in
  if e =? 2047 then
    if m =? 0 then (if s then neg_infinity else infinity) else nan
  else if e =? 0 then
    match m with
    | Zpos p => SF2Prim (S754_finite s p (-1074))
    | _ => if s then PrimFloat.neg_zero else PrimFloat.zero
    end
  else SF2Prim (S754_finite s (Z.to_pos (m + 2 ^ 52)) (e - 1075)).

(** [Math.fround]: the value a [Float32Array] element holds after a
    store. *)
Definition fround (x : float) : float :=
  match Prim2SF x with
  | S754_finite s m e => SF2Prim (binary_round 24 128 s m e)
  | _ => x
  end.

Definition Math_max (a b : float) : float :=
  if is_nan a || is_nan b then nan
  else if (a <? b)%float then b
  else if (b <? a)%float then a
  else if get_sign a then b else a.

Definition Math_min (a b : float) : float :=
  if is_nan a || is_nan b then nan
  else if (a <? b)%float then a
  else if (b <? a)%float then b
  else if get_sign a then a else b.

(** [x || d] on Numbers: [d] when [x] is [0], [-0] or [NaN]. *)
Definition or_else (x d : float) : float :=
  if is_nan x || is_zero x then d else x.

Definition Math_PI : float := 0x1.921fb54442d18p+1%float.

(** The Number an integer of either sign becomes: binary64 rounding is
    symmetric about zero. *)
Definition round (n : Z) : Z :=
  if n <? 0 then - round53 (- n) else round53 n.

End Num.

(** ** DataView over an ArrayBuffer *)

Module DataView.

Abbreviation buffer := (list byte).

Definition byteLength (b : buffer) : Z := Z.of_nat (length b).

Definition byte_to_Z (x : byte) : Z := Z.of_N (Byte.to_N x).

Definition byte_of_Z (z : Z) : byte :=
  match Byte.of_N (Z.to_N (z mod 256)) with
  | Some x => x
  | None => x00
  end.

Definition getUint8 (b : buffer) (k : Z) : result Z :=
  if k <? 0 then Throw RangeError
  else match b !! Z.to_nat k with
       | Some x => Ok (byte_to_Z x)
       | None => Throw RangeError
       end.

(** Little-endian multi-byte reads (the source always passes [true]). *)
Definition getUint16 (b : buffer) (k : Z) : result Z :=
  let* b0 := getUint8 b k in
  let* b1 := getUint8 b (k + 1) in
  Ok (b0 + 256 * b1).

Definition getUint32 (b : buffer) (k : Z) : result Z :=
  let* lo := getUint16 b k in
  let* hi := getUint16 b (k + 2) in
  Ok (lo + 65536 * hi).

Definition getInt32 (b : buffer) (k : Z) : result Z :=
  let* u := getUint32 b k in
  Ok (if u <? 2 ^ 31 then u else u - 2 ^ 32).

Definition getFloat64 (b : buffer) (k : Z) : result float :=
  let* lo := getUint32 b k in
  let* hi := getUint32 b (k + 4) in
  Ok (Num.float_of_bits (lo + 2 ^ 32 * hi)).

End DataView.

Import DataView.

(** ** LASParser.js *)

Module LASParser.

Record color : Type := RGB { r : float; g : float; b : float }.

(** [elevationColor(t)] *)
Definition elevationColor (t : float) : color :=
  let t := Num.Math_max 0 (Num.Math_min 1 t) in
  if (t <? 0.25)%float then
    RGB 0 (t * 4) 1
  else if (t <? 0.5)%float then
    RGB 0 1 (1 - (t - 0.25) * 4)
  else if (t <? 0.75)%float then
    RGB ((t - 0.5) * 4) 1 0
  else
    RGB 1 (1 - (t - 0.75) * 4) 0.

(** The fields [parsePoints] adds to the header. *)
Record LASDerived : Type := {
  loadedPoints : Z;
  bounds_lon : float * float;
  bounds_lat : float * float;
  bounds_z : float * float;
  center_lon : float;
  center_lat : float;
  center_z : float;
  extentMeters_x : float;
  extentMeters_y : float;
  extentMeters_z : float;
}.

Record LASHeader : Type := {
  signature : string;
  versionMajor : Z;
  versionMinor : Z;
  headerSize : Z;
  offsetToPointData : Z;
  pointDataRecordFormat : Z;
  pointDataRecordLength : Z;
  numberOfPoints : Z;
  scaleX : float;
  scaleY : float;
  scaleZ : float;
  offsetX : float;
  offsetY : float;
  offsetZ : float;
}.

Record LASPoints : Type := {
  positions : list float;   (* Float32Array *)
  colors : list float;      (* Float32Array *)
}.

Record LASData : Type := {
  header : LASHeader;
  derived : LASDerived;
  points : LASPoints;
}.

(** [String.fromCharCode(b0, b1, b2, b3)] *)
Definition fromCharCode4 (b0 b1 b2 b3 : Z) : string :=
  String (ascii_of_byte (byte_of_Z b0))
    (String (ascii_of_byte (byte_of_Z b1))
       (String (ascii_of_byte (byte_of_Z b2))
          (String (ascii_of_byte (byte_of_Z b3)) EmptyString))).

Definition readSignature (view : buffer) : result string :=
  let* b0 := getUint8 view 0 in
  let* b1 := getUint8 view 1 in
  let* b2 := getUint8 view 2 in
  let* b3 := getUint8 view 3 in
  Ok (fromCharCode4 b0 b1 b2 b3).

(** [parseHeader()] *)
Definition parseHeader (view : buffer) : result LASHeader :=
  let* signature := readSignature view in
  if negb (String.eqb signature "LASF") then
    Throw (Error ("Invalid LAS file signature: " ++ signature))
  else
    let* versionMajor := getUint8 view 24 in
    let* versionMinor := getUint8 view 25 in
    let* headerSize := getUint16 view 94 in
    let* offsetToPointData := getUint32 view 96 in
    let* pointDataRecordFormat := getUint8 view 104 in
    let* pointDataRecordLength := getUint16 view 105 in
    let* legacyNumberOfPoints := getUint32 view 107 in
    let* scaleX := getFloat64 view 131 in
    let* scaleY := getFloat64 view 139 in
    let* scaleZ := getFloat64 view 147 in
    let* offsetX := getFloat64 view 155 in
    let* offsetY := getFloat64 view 163 in
    let* offsetZ := getFloat64 view 171 in
    let* numberOfPoints :=
      if (versionMajor >=? 1) && (versionMinor >=? 4) && (headerSize >=? 375) then
        let* low := getUint32 view 247 in
        let* high := getUint32 view 251 in
        let count64 := Num.add low (Num.mul high 4294967296) in
        Ok (if count64 >? 0 then count64 else legacyNumberOfPoints)
      else Ok legacyNumberOfPoints in
    Ok {| signature := signature;
          versionMajor := versionMajor;
          versionMinor := versionMinor;
          headerSize := headerSize;
          offsetToPointData := offsetToPointData;
          pointDataRecordFormat := pointDataRecordFormat;
          pointDataRecordLength := pointDataRecordLength;
          numberOfPoints := numberOfPoints;
          scaleX := scaleX; scaleY := scaleY; scaleZ := scaleZ;
          offsetX := offsetX; offsetY := offsetY; offsetZ := offsetZ |}.

(** The parser object: the buffer and the point budget.  The
    constructor stores [options.maxPoints || 2000000]; [isGeographic] is
    stored and never read, and [onProgress] only reports progress. *)
Record LASParser : Type := {
  buffer_of : buffer;
  maxPoints : Z;
}.

Definition new_LASParser (arrayBuffer : buffer) (options_maxPoints : option Z)
  : LASParser :=
  {| buffer_of := arrayBuffer;
     maxPoints := match options_maxPoints with
                  | Some m => if m =? 0 then 2000000 else m
                  | None => 2000000
                  end |}.

(** The [switch (format)] of [parsePoints]: [(hasRGB, rgbOffset)]. *)
Definition rgbLayout (format : Z) : bool * Z :=
  if format =? 2 then (true, 20)
  else if (format =? 3) || (format =? 5) then (true, 28)
  else if (format =? 7) || (format =? 8) || (format =? 10) then (true, 30)
  else (false, 0).

Record rawPoint : Type := { lon : float; lat : float; z : float; offset : Z }.

Record extrema : Type := {
  minLon : float; maxLon : float;
  minLat : float; maxLat : float;
  minZ : float; maxZ : float;
}.

Definition extrema0 : extrema :=
  {| minLon := infinity; maxLon := neg_infinity;
     minLat := infinity; maxLat := neg_infinity;
     minZ := infinity; maxZ := neg_infinity |}.

Definition track (e : extrema) (p : rawPoint) : extrema :=
  {| minLon := if (lon p <? minLon e)%float then lon p else minLon e;
     maxLon := if (maxLon e <? lon p)%float then lon p else maxLon e;
     minLat := if (lat p <? minLat e)%float then lat p else minLat e;
     maxLat := if (maxLat e <? lat p)%float then lat p else maxLat e;
     minZ := if (z p <? minZ e)%float then z p else minZ e;
     maxZ := if (maxZ e <? z p)%float then z p else maxZ e |}.

(** [step]: [Math.ceil(totalPoints / maxPoints)] above the budget, with
    the exact ceiling; this is the binary64 computation for every count
    below [2^53] ([Num.ceil_quot], its value in general, differs above). *)
Definition stride (totalPoints maxPoints : Z) : Z :=
  if totalPoints >? maxPoints then Num.ceil_div totalPoints maxPoints else 1.

Section parsePoints.

(** [Math.cos] is implementation-approximated. *)
Variable Math_cos : float -> float.

Variable this : LASParser.
Variable h : LASHeader.

Let view := buffer_of this.
Let totalPoints := numberOfPoints h.
Let step := stride totalPoints (maxPoints this).
Let recordLen := pointDataRecordLength h.

(** One record read: the body of the first [for] loop after the
    bounds check. *)
Definition readRecord (offset : Z) : result rawPoint :=
  let* rawX := getInt32 view offset in
  let* rawY := getInt32 view (offset + 4) in
  let* rawZ := getInt32 view (offset + 8) in
  let lon := (Num.to_float rawX * scaleX h + offsetX h)%float in
  let lat := (Num.to_float rawY * scaleY h + offsetY h)%float in
  let z := (Num.to_float rawZ * scaleZ h + offsetZ h)%float in
  Ok {| lon := lon; lat := lat; z := z; offset := offset |}.

(** [for (let i = 0; i < totalPoints; i += step)]: [fuel] bounds the
    number of iterations. *)
Fixpoint readLoop (fuel : nat) (i : Z) (rawPoints : list rawPoint) (e : extrema)
  : result (list rawPoint * extrema) :=
  match fuel with
  | O => Ok (rawPoints, e)
  | S fuel' =>
    if i <? totalPoints then
      let offset := offsetToPointData h + i * recordLen in
      if offset + 12 >? byteLength view then Ok (rawPoints, e)  (* break *)
      else
        let* pt := readRecord offset in
        readLoop fuel' (i + step) (rawPoints ++ [pt]) (track e pt)
    else Ok (rawPoints, e)
  end.

(** The colour of one retained point (second loop, lines 284-316). *)
Definition pointColor (hasRGB : bool) (rgbOffset : Z) (minZ zRange : float)
    (pt : rawPoint) : result color :=
  if hasRGB && (offset pt + rgbOffset + 6 <=? byteLength view) then
    let* red := getUint16 view (offset pt + rgbOffset) in
    let* green := getUint16 view (offset pt + rgbOffset + 2) in
    let* blue := getUint16 view (offset pt + rgbOffset + 4) in
    let c :=
      if (red >? 255) || (green >? 255) || (blue >? 255) then
        RGB (Num.to_float red / 65535) (Num.to_float green / 65535)
            (Num.to_float blue / 65535)
      else if (red >? 0) || (green >? 0) || (blue >? 0) then
        RGB (Num.to_float red / 255) (Num.to_float green / 255)
            (Num.to_float blue / 255)
      else RGB 0.5 0.5 0.5 in
    if (r c =? 0)%float && (g c =? 0)%float && (b c =? 0)%float then
      Ok (elevationColor ((z pt - minZ) / zRange))
    else Ok c
  else
    Ok (elevationColor ((z pt - minZ) / zRange)).

(** The East-North-Up position of one retained point. *)
Definition project (centerLon centerLat centerZ metersPerDegreeLon
    metersPerDegreeLat : float) (pt : rawPoint) : float * float * float :=
  (((lon pt - centerLon) * metersPerDegreeLon)%float,
   ((lat pt - centerLat) * metersPerDegreeLat)%float,
   (z pt - centerZ)%float).

(** [for (let i = 0; i < numPoints; i++)]: [pts] is [rawPoints] from
    index [i] on; stores go to [Float32Array]s. *)
Fixpoint projectLoop (proj : rawPoint -> float * float * float)
    (col : rawPoint -> result color)
    (pts : list rawPoint) (i : nat) (positions colors : list float)
  : result (list float * list float) :=
  match pts with
  | [] => Ok (positions, colors)
  | pt :: rest =>
    let idx := (i * 3)%nat in
    let '(xMeters, yMeters, zMeters) := proj pt in
    let positions := <[idx := Num.fround xMeters]> positions in
    let positions := <[(idx + 1)%nat := Num.fround yMeters]> positions in
    let positions := <[(idx + 2)%nat := Num.fround zMeters]> positions in
    let* c := col pt in
    let colors := <[idx := Num.fround (r c)]> colors in
    let colors := <[(idx + 1)%nat := Num.fround (g c)]> colors in
    let colors := <[(idx + 2)%nat := Num.fround (b c)]> colors in
    projectLoop proj col rest (S i) positions colors
  end.

(** [parsePoints()] *)
Definition parsePoints : result (LASDerived * LASPoints) :=
  let '(hasRGB, rgbOffset) := rgbLayout (pointDataRecordFormat h) in
  let* (rawPoints, e) := readLoop (Z.to_nat totalPoints) 0 [] extrema0 in
  let centerLon := ((minLon e + maxLon e) / 2)%float in
  let centerLat := ((minLat e + maxLat e) / 2)%float in
  let centerZ := ((minZ e + maxZ e) / 2)%float in
  let DEG_TO_RAD := (Num.Math_PI / 180)%float in
  let metersPerDegreeLat := 111320%float in
  let metersPerDegreeLon := (111320 * Math_cos (centerLat * DEG_TO_RAD))%float in
  let numPoints := length rawPoints in
  let positions := replicate (numPoints * 3) 0%float in
  let colors := replicate (numPoints * 3) 0%float in
  let zRange := Num.or_else (maxZ e - minZ e) 1 in
  let* (positions, colors) :=
    projectLoop
      (project centerLon centerLat centerZ metersPerDegreeLon metersPerDegreeLat)
      (pointColor hasRGB rgbOffset (minZ e) zRange)
      rawPoints 0 positions colors in
  let extentX := ((maxLon e - minLon e) * metersPerDegreeLon)%float in
  let extentY := ((maxLat e - minLat e) * metersPerDegreeLat)%float in
  let extentZ := (maxZ e - minZ e)%float in
  Ok ({| loadedPoints := Z.of_nat numPoints;
         bounds_lon := (minLon e, maxLon e);
         bounds_lat := (minLat e, maxLat e);
         bounds_z := (minZ e, maxZ e);
         center_lon := centerLon; center_lat := centerLat; center_z := centerZ;
         extentMeters_x := extentX; extentMeters_y := extentY;
         extentMeters_z := extentZ |},
      {| positions := positions; colors := colors |}).

End parsePoints.

(** [parse()] *)
Definition parse (Math_cos : float -> float) (this : LASParser) : result LASData :=
  let* h := parseHeader (buffer_of this) in
  let* (d, pts) := parsePoints Math_cos this h in
  Ok {| header := h; derived := d; points := pts |}.

(** [err.message]: the texts of the [RangeError]s are the engine's (here
    V8's). *)
Definition message (e : exn) : string :=
  match e with
  | RangeError => "Offset is outside the bounds of the DataView"
  | Error msg | EngineError msg => msg
  | InvalidLength len =>
    "Invalid typed array length: " ++ NilZero.string_of_uint (Nat.to_uint len)
  | SetOutOfBounds => "offset is out of bounds"
  end.

(** The object [validate()] returns; a property the source leaves out is
    [None]. *)
Record Validation : Type := {
  valid : bool;
  error : option string;
  pointCount : option Z;
  estimatedMemory : option Z;
}.

(** [validate()] *)
Definition validate (this : LASParser) : Validation :=
  let view := buffer_of this in
  let body : result Validation :=
    let* signature := readSignature view in
    if negb (String.eqb signature "LASF") then
      Ok {| valid := false;
            error := Some ("Invalid LAS file signature: " ++ signature)%string;
            pointCount := None; estimatedMemory := None |}
    else
      let* legacyNumberOfPoints := getUint32 view 107 in
      let* versionMajor := getUint8 view 24 in
      let* versionMinor := getUint8 view 25 in
      let* headerSize := getUint16 view 94 in
      let* numberOfPoints :=
        if (versionMajor >=? 1) && (versionMinor >=? 4) && (headerSize >=? 375) then
          let* low := getUint32 view 247 in
          let* high := getUint32 view 251 in
          let count64 := Num.add low (Num.mul high 4294967296) in
          Ok (if count64 >? 0 then count64 else legacyNumberOfPoints)
        else Ok legacyNumberOfPoints in
      let estimatedMemory :=
        Num.round (Z.min numberOfPoints (maxPoints this) * 24) in
      Ok {| valid := true; error := None;
            pointCount := Some numberOfPoints;
            estimatedMemory := Some estimatedMemory |} in
  match body with
  | Ok v => v
  | Throw err =>
    {| valid := false;
       error := Some ("Failed to read LAS header: " ++ message err)%string;
       pointCount := None; estimatedMemory := None |}
  end.

End LASParser.

(** ** lazDecompressor.js *)

Module LazDecompressor.

Import LASParser.

(** [readLazHeader(buffer)] *)
Definition readLazHeader (view : buffer) : result LASHeader :=
  let* signature := readSignature view in
  if negb (String.eqb signature "LASF") then
    Throw (Error "Invalid LAZ file signature")
  else
    let* versionMajor := getUint8 view 24 in
    let* versionMinor := getUint8 view 25 in
    let* headerSize := getUint16 view 94 in
    let* offsetToPointData := getUint32 view 96 in
    let* pointDataRecordFormat := getUint8 view 104 in
    let* pointDataRecordLength := getUint16 view 105 in
    let* legacyNumberOfPoints := getUint32 view 107 in
    let* scaleX := getFloat64 view 131 in
    let* scaleY := getFloat64 view 139 in
    let* scaleZ := getFloat64 view 147 in
    let* offsetX := getFloat64 view 155 in
    let* offsetY := getFloat64 view 163 in
    let* offsetZ := getFloat64 view 171 in
    let* numberOfPoints :=
      if (versionMajor >=? 1) && (versionMinor >=? 4) && (headerSize >=? 375) then
        let* low := getUint32 view 247 in
        let* high := getUint32 view 251 in
        let count64 := Num.add low (Num.mul high 4294967296) in
        Ok (if count64 >? 0 then count64 else legacyNumberOfPoints)
      else Ok legacyNumberOfPoints in
    Ok {| signature := signature;
          versionMajor := versionMajor;
          versionMinor := versionMinor;
          headerSize := headerSize;
          offsetToPointData := offsetToPointData;
          pointDataRecordFormat := pointDataRecordFormat;
          pointDataRecordLength := pointDataRecordLength;
          numberOfPoints := numberOfPoints;
          scaleX := scaleX; scaleY := scaleY; scaleZ := scaleZ;
          offsetX := offsetX; offsetY := offsetY; offsetZ := offsetZ |}.

(** The Emscripten heap [module.HEAPU8]. *)
Definition heap := Z -> byte.

(** [HEAPU8.set(data, ptr)] *)
Definition heap_set (hp : heap) (data : list byte) (ptr : Z) : heap :=
  fun a =>
    if (ptr <=? a) && (a <? ptr + Z.of_nat (length data))
    then default x00 (data !! Z.to_nat (a - ptr))
    else hp a.

(** [new Uint8Array(HEAPU8.buffer, ptr, len)] *)
Definition heap_view (hp : heap) (ptr : Z) (len : nat) : list byte :=
  map (fun k => hp (ptr + Z.of_nat k)) (seq 0 len).

(** The laz-perf engine, a black box: the state of a [LASZip] object and
    its methods.  [open] and [getPoint] may throw; [getPoint] writes the
    next record into the heap. *)
Record LazPerf : Type := {
  LASZip : Type;
  LASZip_new : LASZip;
  LASZip_open : LASZip -> heap -> Z -> Z -> result LASZip;
  LASZip_getCount : LASZip -> nat;
  LASZip_getPointLength : LASZip -> nat;
  LASZip_getPoint : LASZip -> heap -> Z -> result (LASZip * heap);
}.

(** [typedArray.set(src, off)]: throws when [src] does not fit. *)
Definition typed_set (dst : list byte) (src : list byte) (off : nat)
  : result (list byte) :=
  if (length dst <? off + length src)%nat then Throw SetOutOfBounds
  else Ok (take off dst ++ src ++ drop (off + length src) dst).

(** [new Uint8Array(buffer, 0, len)]: throws when [len] exceeds the
    buffer. *)
Definition subarray0 (b : list byte) (len : nat) : result (list byte) :=
  if (length b <? len)%nat then Throw (InvalidLength len) else Ok (take len b).

Section decompressLaz.

Variable module : LazPerf.

(** What a run of [decompressLaz] can touch: the heap with its live
    allocations ([_malloc]/[_free]), the live [LASZip] objects
    ([new]/[delete]), and the function's binding [let laszip]. *)
Record machine : Type := {
  HEAPU8 : heap;
  blocks : gmap Z nat;          (* live allocations: address to size *)
  brk : Z;                      (* next fresh address *)
  objects : gmap nat (LASZip module);
  nextObject : nat;
  laszip : option nat;          (* [let laszip;] *)
}.

Definition M (A : Type) : Type := machine -> result A * machine.

Definition mret {A} (a : A) : M A := fun m => (Ok a, m).
Definition mthrow {A} (e : exn) : M A := fun m => (Throw e, m).
Definition mbind {A B} (c : M A) (k : A -> M B) : M B :=
  fun m => match c m with
           | (Ok a, m') => k a m'
           | (Throw e, m') => (Throw e, m')
           end.
Definition lift {A} (x : result A) : M A := fun m => (x, m).

(** [try { body } catch (e) { handler(e) }] *)
Definition try_catch {A} (body : M A) (handler : exn -> M A) : M A :=
  fun m => match body m with
           | (Ok a, m') => (Ok a, m')
           | (Throw e, m') => handler e m'
           end.

(** [try { body } finally { fin }] *)
Definition try_finally {A} (body : M A) (fin : M unit) : M A :=
  fun m => let '(x, m') := body m in
           match fin m' with
           | (Ok _, m'') => (x, m'')
           | (Throw e, m'') => (Throw e, m'')
           end.

Notation "'let!' x ':=' c 'in' k" := (mbind c (fun x => k))
  (at level 10, x name, c at level 100, k at level 200).
Notation "c ';;' k" := (mbind c (fun _ => k))
  (at level 100, k at level 200, right associativity).

(** [module._malloc(size)] *)
Definition _malloc (size : nat) : M Z := fun m =>
  let ptr := brk m in
  (Ok ptr,
   {| HEAPU8 := HEAPU8 m; blocks := <[ptr := size]> (blocks m);
      brk := ptr + Z.of_nat (S size);
      objects := objects m; nextObject := nextObject m; laszip := laszip m |}).

(** [module._free(ptr)] *)
Definition _free (ptr : Z) : M unit := fun m =>
  (Ok tt,
   {| HEAPU8 := HEAPU8 m; blocks := delete ptr (blocks m); brk := brk m;
      objects := objects m; nextObject := nextObject m; laszip := laszip m |}).

(** [module.HEAPU8.set(data, ptr)] *)
Definition HEAPU8_set (data : list byte) (ptr : Z) : M unit := fun m =>
  (Ok tt,
   {| HEAPU8 := heap_set (HEAPU8 m) data ptr; blocks := blocks m; brk := brk m;
      objects := objects m; nextObject := nextObject m; laszip := laszip m |}).

(** [new module.LASZip()] *)
Definition new_LASZip : M nat := fun m =>
  let id := nextObject m in
  (Ok id,
   {| HEAPU8 := HEAPU8 m; blocks := blocks m; brk := brk m;
      objects := <[id := LASZip_new module]> (objects m);
      nextObject := S id; laszip := laszip m |}).

(** [laszip = value] *)
Definition assign_laszip (id : nat) : M unit := fun m =>
  (Ok tt,
   {| HEAPU8 := HEAPU8 m; blocks := blocks m; brk := brk m;
      objects := objects m; nextObject := nextObject m; laszip := Some id |}).

Definition read_laszip : M (option nat) := fun m => (Ok (laszip m), m).

(** [obj.delete()] *)
Definition delete_object (id : nat) : M unit := fun m =>
  (Ok tt,
   {| HEAPU8 := HEAPU8 m; blocks := blocks m; brk := brk m;
      objects := delete id (objects m); nextObject := nextObject m;
      laszip := laszip m |}).

(** Method calls on the object [id]. *)
Definition with_object {A} (id : nat) (f : LASZip module -> M A) : M A :=
  fun m => match objects m !! id with
           | Some o => f o m
           | None => (Throw (EngineError "deleted object"), m)
           end.

Definition update_object (id : nat) (o : LASZip module) (hp : heap) : M unit :=
  fun m =>
  (Ok tt,
   {| HEAPU8 := hp; blocks := blocks m; brk := brk m;
      objects := <[id := o]> (objects m); nextObject := nextObject m;
      laszip := laszip m |}).

Definition laszip_open (id : nat) (ptr len : Z) : M unit :=
  with_object id (fun o => fun m =>
    match LASZip_open module o (HEAPU8 m) ptr len with
    | Ok o' => update_object id o' (HEAPU8 m) m
    | Throw e => (Throw e, m)
    end).

Definition laszip_getCount (id : nat) : M nat :=
  with_object id (fun o => mret (LASZip_getCount module o)).

Definition laszip_getPointLength (id : nat) : M nat :=
  with_object id (fun o => mret (LASZip_getPointLength module o)).

Definition laszip_getPoint (id : nat) (ptr : Z) : M unit :=
  with_object id (fun o => fun m =>
    match LASZip_getPoint module o (HEAPU8 m) ptr with
    | Ok (o', hp') => update_object id o' hp' m
    | Throw e => (Throw e, m)
    end).

Definition read_heap (ptr : Z) (len : nat) : M (list byte) :=
  fun m => (Ok (heap_view (HEAPU8 m) ptr len), m).

(** [openError.message || 'Unknown error'] *)
Definition message_of (e : exn) : string :=
  match e with
  | Error msg | EngineError msg =>
    if String.eqb msg "" then "Unknown error" else msg
  | RangeError => "Offset is outside the bounds of the DataView"
  | InvalidLength _ | SetOutOfBounds => message e
  end.

(** [for (let i = 0; i < pointCount; i++)]: [n] iterations are left,
    [i] is the index of the next point. *)
Fixpoint pointLoop (id : nat) (pointPtr : Z) (pointLength offsetToPointData : nat)
    (n : nat) (i : nat) (outputView : list byte) : M (list byte) :=
  match n with
  | O => mret outputView
  | S n' =>
    laszip_getPoint id pointPtr ;;
    let! pointData := read_heap pointPtr pointLength in
    let! outputView :=
      lift (typed_set outputView pointData (offsetToPointData + i * pointLength)) in
    pointLoop id pointPtr pointLength offsetToPointData n' (S i) outputView
  end.

(** [decompressLaz(lazBuffer)] from line 127 on: [module] is the engine
    that [await initLazPerf()] of line 125 has resolved to.  When that
    promise rejects (the engine cannot be instantiated), the call rejects
    with its reason and nothing of what follows runs; the call from line
    125 on is [decompressLaz_async] below.  Line 133 of the
    source declares [const laszip = new module.LASZip()] and line 142
    declares [let laszip] again; the two are read here as two bindings,
    the first one creating an object nothing refers to afterwards. *)
Definition decompressLaz (lazBuffer : buffer) : M buffer :=
  let! header := lift (readLazHeader lazBuffer) in
  let offsetToPointData := Z.to_nat (offsetToPointData header) in
  let! _unused := new_LASZip in                         (* line 133 *)
  let fileData := lazBuffer in
  let! filePtr := _malloc (length fileData) in
  HEAPU8_set fileData filePtr ;;
  try_finally
    (let! id := new_LASZip in
     assign_laszip id ;;
     try_catch
       (laszip_open id filePtr (byteLength fileData))
       (fun openError =>
          mthrow (Error ("Failed to open LAZ file: " ++ message_of openError))) ;;
     let! pointCount := laszip_getCount id in
     let! pointLength := laszip_getPointLength id in
     let pointDataSize := (pointCount * pointLength)%nat in
     let totalSize := (offsetToPointData + pointDataSize)%nat in
     let outputView := replicate totalSize x00 in
     let! headerView := lift (subarray0 lazBuffer offsetToPointData) in
     let! outputView := lift (typed_set outputView headerView 0) in
     let! originalFormat := lift (getUint8 outputView 104) in
     let outputView :=
       <[104%nat := byte_of_Z (Z.land originalFormat 0x3F)]> outputView in
     let! pointPtr := _malloc pointLength in
     let! outputView :=
       pointLoop id pointPtr pointLength offsetToPointData pointCount 0 outputView in
     _free pointPtr ;;
     mret outputView)
    (let! l := read_laszip in
     match l with
     | Some id => delete_object id
     | None => mret tt
     end ;;
     _free filePtr).

Definition machine0 : machine :=
  {| HEAPU8 := fun _ => x00; blocks := ∅; brk := 8; objects := ∅;
     nextObject := 0; laszip := None |}.

End decompressLaz.

(** What [await initLazPerf()] (line 125, lines 15-28) comes to: the
    engine, instantiated by this call or cached by an earlier one, in the
    state it is in, or the rejection of [createLazPerf()], which the
    module keeps in [lazPerfInitializing]. *)
Inductive instantiation : Type :=
| resolved (module : LazPerf) (m : machine module)
| rejected (reason : exn).

(** What a call of [decompressLaz] comes to. *)
Inductive completion : Type :=
| not_run (reason : exn)     (* line 125 threw: nothing else has run *)
| ran (module : LazPerf) (res : result buffer) (m' : machine module).

(** [decompressLaz(lazBuffer)] from line 125 on. *)
Definition decompressLaz_async (init : instantiation) (lazBuffer : buffer)
  : completion :=
  match init with
  | rejected reason => not_run reason
  | resolved module m =>
    let '(res, m') := decompressLaz module lazBuffer m in ran module res m'
  end.

End LazDecompressor.

(** ** lazDecompressor.js: file kinds and [processFile] *)

Module FileKinds.

Import LASParser LazDecompressor.

(** [s.endsWith(suffix)] *)
Definition endsWith (s suffix : string) : bool :=
  (String.length suffix <=? String.length s)%nat &&
  String.eqb
    (substring (String.length s - String.length suffix) (String.length suffix) s)
    suffix.

(** [file.name] and the bytes [await file.arrayBuffer()] resolves to. *)
Record File : Type := { name : string; arrayBuffer : list byte }.

(** What [processFile] resolves to. *)
Record ProcessedFile : Type := {
  buffer : list byte;
  originalName : string;
  wasCompressed : bool;
}.

Section processFile.

(** [String.prototype.toLowerCase] is the host's case mapping. *)
Variable toLowerCase : string -> string.

(** The engine [initLazPerf] has resolved to, as in [decompressLaz]. *)
Variable module : LazPerf.

(** [isLazFile(filename)] *)
Definition isLazFile (filename : string) : bool :=
  endsWith (toLowerCase filename) ".laz".

(** [isLasFile(filename)] *)
Definition isLasFile (filename : string) : bool :=
  endsWith (toLowerCase filename) ".las".

(** [isSupportedFile(filename)] *)
Definition isSupportedFile (filename : string) : bool :=
  let lower := toLowerCase filename in
  endsWith lower ".las" || endsWith lower ".laz".

(** [processFile(file)] *)
Definition processFile (file : File) : M module ProcessedFile :=
  let buffer := arrayBuffer file in
  let filename := name file in
  if isLazFile filename then
    mbind module (decompressLaz module buffer) (fun decompressed =>
    mret module {| buffer := decompressed; originalName := filename;
                   wasCompressed := true |})
  else
    mret module {| buffer := buffer; originalName := filename;
                   wasCompressed := false |}.

End processFile.

End FileKinds.

(** ** lasParser.worker.js *)

Module Worker.

Import LASParser.

(** The message the worker posts last; [progress] messages carry no data
    of the result and are left out. *)
Inductive message : Type :=
| complete (header : LASHeader) (derived : LASDerived) (positions colors : list float)
| error (text : option string).


End Worker.

(** ** useSlicer.js and the slicer sliders of ControlsPanel.jsx *)

Module Slicer.

(** Percentages, set from [parseInt] of a slider value. *)
Record SliceRange : Type := { min : Z; max : Z }.

Record SliceBounds : Type := { bmin : float; bmax : float }.

Record SlicerState : Type := {
  enabled : bool;
  x : SliceRange;
  y : SliceRange;
  z : SliceRange;
  boundsX : SliceBounds;
  boundsY : SliceBounds;
  boundsZ : SliceBounds;
}.

Definition initialState : SlicerState :=
  {| enabled := false;
     x := {| min := 0; max := 100 |};
     y := {| min := 0; max := 100 |};
     z := {| min := 0; max := 100 |};
     boundsX := {| bmin := 0; bmax := 100 |};
     boundsY := {| bmin := 0; bmax := 100 |};
     boundsZ := {| bmin := 0; bmax := 100 |} |}.

Inductive action : Type :=
| SET_ENABLED (payload : bool)
| SET_X (payload : SliceRange)
| SET_Y (payload : SliceRange)
| SET_Z (payload : SliceRange)
| SET_BOUNDS (px py pz : SliceBounds)
| RESET_RANGES
| RESET_ALL
| INITIALIZE (px py pz : SliceBounds)
| OTHER.

(** [slicerReducer(state, action)] *)
Definition slicerReducer (state : SlicerState) (a : action) : SlicerState :=
  match a with
  | SET_ENABLED payload =>
    {| enabled := payload; x := x state; y := y state; z := z state;
       boundsX := boundsX state; boundsY := boundsY state; boundsZ := boundsZ state |}
  | SET_X payload =>
    {| enabled := enabled state; x := payload; y := y state; z := z state;
       boundsX := boundsX state; boundsY := boundsY state; boundsZ := boundsZ state |}
  | SET_Y payload =>
    {| enabled := enabled state; x := x state; y := payload; z := z state;
       boundsX := boundsX state; boundsY := boundsY state; boundsZ := boundsZ state |}
  | SET_Z payload =>
    {| enabled := enabled state; x := x state; y := y state; z := payload;
       boundsX := boundsX state; boundsY := boundsY state; boundsZ := boundsZ state |}
  | SET_BOUNDS px py pz =>
    {| enabled := enabled state; x := x state; y := y state; z := z state;
       boundsX := px; boundsY := py; boundsZ := pz |}
  | RESET_RANGES =>
    {| enabled := enabled state;
       x := {| min := 0; max := 100 |};
       y := {| min := 0; max := 100 |};
       z := {| min := 0; max := 100 |};
       boundsX := boundsX state; boundsY := boundsY state; boundsZ := boundsZ state |}
  | RESET_ALL =>
    {| enabled := enabled initialState;
       x := x initialState; y := y initialState; z := z initialState;
       boundsX := boundsX state; boundsY := boundsY state; boundsZ := boundsZ state |}
  | INITIALIZE px py pz =>
    {| enabled := enabled initialState;
       x := x initialState; y := y initialState; z := z initialState;
       boundsX := px; boundsY := py; boundsZ := pz |}
  | OTHER => state
  end.

(** The [onChange] handlers of the two sliders of one axis
    (ControlsPanel.jsx, lines 194-207): [slice] is the range the panel
    was rendered with, [v] is [parseInt(e.target.value)]. *)
Definition onChangeMin (slice : SliceRange) (v : Z) : SliceRange :=
  {| min := Z.min v (max slice - 1); max := max slice |}.

Definition onChangeMax (slice : SliceRange) (v : Z) : SliceRange :=
  {| min := min slice; max := Z.max v (min slice + 1) |}.

Inductive axis : Type := AxisX | AxisY | AxisZ.

(** What the application does to the slice state: the slider handlers of
    [SlicerControls] wired to [setX]/[setY]/[setZ], the ON/OFF toggle,
    the Reset button ([resetRanges]), [initialize] after a load and
    [updateBoundsForRotation]. *)
Inductive update : Type :=
| MinSlider (a : axis) (v : Z)
| MaxSlider (a : axis) (v : Z)
| Toggle
| ResetButton
| Initialize (px py pz : SliceBounds)
| UpdateBounds (px py pz : SliceBounds).

Definition range_of (s : SlicerState) (a : axis) : SliceRange :=
  match a with AxisX => x s | AxisY => y s | AxisZ => z s end.

Definition set_axis (a : axis) (rg : SliceRange) : action :=
  match a with AxisX => SET_X rg | AxisY => SET_Y rg | AxisZ => SET_Z rg end.

(** One update; [rendered] is the state the panel was last rendered
    with, from which the handlers take [sliceX], [sliceY], [sliceZ]. *)
Definition dispatch_update (rendered state : SlicerState) (u : update) : SlicerState :=
  match u with
  | MinSlider a v => slicerReducer state (set_axis a (onChangeMin (range_of rendered a) v))
  | MaxSlider a v => slicerReducer state (set_axis a (onChangeMax (range_of rendered a) v))
  | Toggle => slicerReducer state (SET_ENABLED (negb (enabled rendered)))
  | ResetButton => slicerReducer state RESET_RANGES
  | Initialize px py pz => slicerReducer state (INITIALIZE px py pz)
  | UpdateBounds px py pz => slicerReducer state (SET_BOUNDS px py pz)
  end.

(** Updates applied one after the other, the panel re-rendered in
    between. *)
Fixpoint run (state : SlicerState) (us : list update) : SlicerState :=
  match us with
  | [] => state
  | u :: rest => run (dispatch_update state state u) rest
  end.

(** *** applySlice *)

Record Color : Type := { cr : float; cg : float; cb : float }.

(** [pointColor]: ['original'] or a colour given to [THREE.Color]. *)
Inductive PointColor : Type :=
| original
| solid (c : Color).

(** The attributes of [points.geometry]. *)
Record BufferGeometry : Type := {
  position : option (list float);
  color : option (list float);
}.

(** [threeRef.current]; [originalColors] is stored together with
    [originalPositions]. *)
Record ThreeRef : Type := {
  points : option BufferGeometry;
  originalPositions : option (list float);
  originalColors : list float;
}.

(** [array[i]] on a typed array or an array that is then copied into
    one: a missing element reads as [NaN]. *)
Definition at_ (a : list float) (i : nat) : float := default nan (a !! i).

(** The number of [i] with [i < length / 3]. *)
Definition iterations (len : nat) : nat := (len + 2) / 3.

Definition worldBound (b : SliceBounds) (pct : Z) : float :=
  (bmin b + (Num.to_float pct / 100) * (bmax b - bmin b))%float.

Section applySlice.

Variables Math_cos Math_sin : float -> float.

Variable state : SlicerState.
Variable pointColor : PointColor.
Variable rotationZ : float.

(** The loop of the restore branch that fills [newColors]. *)
Fixpoint fillSolid (c : Color) (n : nat) (i : nat) (newColors : list float)
  : list float :=
  match n with
  | O => newColors
  | S n' =>
    let newColors := <[(i * 3)%nat := Num.fround (cr c)]> newColors in
    let newColors := <[(i * 3 + 1)%nat := Num.fround (cg c)]> newColors in
    let newColors := <[(i * 3 + 2)%nat := Num.fround (cb c)]> newColors in
    fillSolid c n' (S i) newColors
  end.

(** The filter loop: [n] iterations are left, [i] is the next point. *)
Fixpoint filterLoop (originalPositions originalColors : list float)
    (xMin xMax yMin yMax zMin zMax cosR sinR : float)
    (n : nat) (i : nat) (filteredPositions filteredColors : list float)
  : list float * list float :=
  match n with
  | O => (filteredPositions, filteredColors)
  | S n' =>
    let localX := at_ originalPositions (i * 3) in
    let localY := at_ originalPositions (i * 3 + 1) in
    let localZ := at_ originalPositions (i * 3 + 2) in
    let worldX := (localX * cosR - localY * sinR)%float in
    let worldY := (localX * sinR + localY * cosR)%float in
    let worldZ := localZ in
    if (xMin <=? worldX)%float && (worldX <=? xMax)%float &&
       (yMin <=? worldY)%float && (worldY <=? yMax)%float &&
       (zMin <=? worldZ)%float && (worldZ <=? zMax)%float
    then
      let filteredPositions := filteredPositions ++ [localX; localY; localZ] in
      let filteredColors :=
        match pointColor with
        | solid c => filteredColors ++ [cr c; cg c; cb c]
        | original =>
          filteredColors ++ [at_ originalColors (i * 3);
                             at_ originalColors (i * 3 + 1);
                             at_ originalColors (i * 3 + 2)]
        end in
      filterLoop originalPositions originalColors xMin xMax yMin yMax zMin zMax
        cosR sinR n' (S i) filteredPositions filteredColors
    else
      filterLoop originalPositions originalColors xMin xMax yMin yMax zMin zMax
        cosR sinR n' (S i) filteredPositions filteredColors
  end.

(** [applySlice()]: the geometry after the call. *)
Definition applySlice (current : ThreeRef) : ThreeRef :=
  match points current, originalPositions current with
  | Some geometry, Some originalPositions =>
    let originalColors := originalColors current in
    if negb (enabled state) then
      let currentLen := match position geometry with
                        | Some a => length a
                        | None => 0%nat
                        end in
      (* [currentPosCount !== originalCount], both being lengths over 3 *)
      if negb (currentLen =? length originalPositions)%nat then
        let newPosition := originalPositions in   (* a copy *)
        let newColor :=
          match pointColor with
          | original => originalColors            (* a copy *)
          | solid c =>
            fillSolid c (iterations (length originalPositions)) 0
              (replicate (length originalPositions) 0%float)
          end in
        {| points := Some {| position := Some newPosition; color := Some newColor |};
           originalPositions := Some originalPositions;
           originalColors := originalColors |}
      else current
    else
      let xMin := worldBound (boundsX state) (min (x state)) in
      let xMax := worldBound (boundsX state) (max (x state)) in
      let yMin := worldBound (boundsY state) (min (y state)) in
      let yMax := worldBound (boundsY state) (max (y state)) in
      let zMin := worldBound (boundsZ state) (min (z state)) in
      let zMax := worldBound (boundsZ state) (max (z state)) in
      let rotRad := (rotationZ * Num.Math_PI / 180)%float in
      let cosR := Math_cos rotRad in
      let sinR := Math_sin rotRad in
      let '(filteredPositions, filteredColors) :=
        filterLoop originalPositions originalColors xMin xMax yMin yMax zMin zMax
          cosR sinR (iterations (length originalPositions)) 0 [] [] in
      {| points := Some {| position := Some (map Num.fround filteredPositions);
                           color := Some (map Num.fround filteredColors) |};
         originalPositions := Some originalPositions;
         originalColors := originalColors |}
  | _, _ => current
  end.

End applySlice.

(** *** updateBoundsForRotation *)

(** [if (w < min) min = w; if (w > max) max = w] on the two bounds of one
    axis. *)
Definition widen (b : SliceBounds) (w : float) : SliceBounds :=
  {| bmin := if (w <? bmin b)%float then w else bmin b;
     bmax := if (bmax b <? w)%float then w else bmax b |}.

(** [for (let i = 0; i < positions.length; i += 3)]: [n] iterations are
    left, [i] is the next point; [bX], [bY], [bZ] hold [minX]/[maxX],
    [minY]/[maxY] and [minZ]/[maxZ]. *)
Fixpoint boundsLoop (positions : list float) (cosR sinR : float) (n i : nat)
    (bX bY bZ : SliceBounds) : SliceBounds * SliceBounds * SliceBounds :=
  match n with
  | O => (bX, bY, bZ)
  | S n' =>
    let localX := at_ positions (i * 3) in
    let localY := at_ positions (i * 3 + 1) in
    let localZ := at_ positions (i * 3 + 2) in
    let worldX := (localX * cosR - localY * sinR)%float in
    let worldY := (localX * sinR + localY * cosR)%float in
    let worldZ := localZ in
    boundsLoop positions cosR sinR n' (S i)
      (widen bX worldX) (widen bY worldY) (widen bZ worldZ)
  end.

Section updateBoundsForRotation.

Variables Math_cos Math_sin : float -> float.

(** [updateBoundsForRotation(positions, rotDegrees)]: the action it
    dispatches, if any. *)
Definition updateBoundsForRotation (positions : option (list float))
    (rotDegrees : float) : option action :=
  match positions with
  | None => None
  | Some positions =>
    if (length positions =? 0)%nat then None
    else
      let rotRad := (rotDegrees * Num.Math_PI / 180)%float in
      let cosR := Math_cos rotRad in
      let sinR := Math_sin rotRad in
      let unbounded := {| bmin := infinity; bmax := neg_infinity |} in
      let '(bX, bY, bZ) :=
        boundsLoop positions cosR sinR (iterations (length positions)) 0
          unbounded unbounded unbounded in
      Some (SET_BOUNDS bX bY bZ)
  end.

End updateBoundsForRotation.

End Slicer.

(** ** LASViewer.jsx: loading a file *)

Module Viewer.

Import LASParser LazDecompressor.

(** What a call of [loadFile] leaves to see.  [shown] carries the parsed
    data, [threeRef.current] as the slicer reads it (the new [points]
    with their geometry, [originalPositions], [originalColors]) and the
    action of [slicer.initialize]. *)
Inductive outcome : Type :=
| unsupported              (* [setError('Unsupported file format. ...')] *)
| declined                 (* the size prompt was answered with Cancel *)
| failed (text : string)   (* [setError(err.message)] *)
| shown (data : LASData) (current : Slicer.ThreeRef) (init : Slicer.action).

(** [for (let i = 0; i < positions.length; i += 3)] of the bounds for the
    slicer: [n] iterations are left, [i] is the next point. *)
Fixpoint dataBoundsLoop (positions : list float) (n i : nat)
    (bX bY bZ : Slicer.SliceBounds)
  : Slicer.SliceBounds * Slicer.SliceBounds * Slicer.SliceBounds :=
  match n with
  | O => (bX, bY, bZ)
  | S n' =>
    dataBoundsLoop positions n' (S i)
      (Slicer.widen bX (Slicer.at_ positions (i * 3)))
      (Slicer.widen bY (Slicer.at_ positions (i * 3 + 1)))
      (Slicer.widen bZ (Slicer.at_ positions (i * 3 + 2)))
  end.

Section loadFile.

Variable toLowerCase : string -> string.
Variable module : LazPerf.
Variable Math_cos : float -> float.

(** The answer to [window.confirm], asked for a file over 100 MB. *)
Variable confirmLoad : bool.

(** [loadFile(file)], the scene being set up; [file.size] is the number
    of bytes of the file. *)
Definition loadFile (file : FileKinds.File) (m : machine module)
  : outcome * machine module :=
  if negb (FileKinds.isSupportedFile toLowerCase (FileKinds.name file)) then
    (unsupported, m)
  else if (100 * 1024 * 1024 <? byteLength (FileKinds.arrayBuffer file))
          && negb confirmLoad then
    (declined, m)
  else
    let isLaz := FileKinds.isLazFile toLowerCase (FileKinds.name file) in
    let '(read, m) :=
      if isLaz then
        mbind module (FileKinds.processFile toLowerCase module file)
          (fun result => mret module (FileKinds.buffer result)) m
      else (Ok (FileKinds.arrayBuffer file), m) in
    match read with
    | Throw err => (failed (message err), m)
    | Ok buffer =>
      let parser := new_LASParser buffer None in
      let validation := validate parser in
      if negb (valid validation) then
        (* [throw new Error(validation.error)] *)
        (failed (default EmptyString (error validation)), m)
      else
        match parse Math_cos parser with
        | Throw err => (failed (message err), m)
        | Ok data =>
          let geometry :=
            {| Slicer.position := Some (positions (points data));
               Slicer.color := Some (colors (points data)) |} in
          let positions := positions (points data) in
          let unbounded := {| Slicer.bmin := infinity;
                              Slicer.bmax := neg_infinity |} in
          let '(bX, bY, bZ) :=
            dataBoundsLoop positions (Slicer.iterations (length positions)) 0
              unbounded unbounded unbounded in
          (shown data
             {| Slicer.points := Some geometry;
                Slicer.originalPositions := Some positions;       (* a copy *)
                Slicer.originalColors := colors (points data) |}  (* a copy *)
             (Slicer.INITIALIZE bX bY bZ), m)
        end
    end.

End loadFile.

End Viewer.

(** ** Sample files *)

Module Sample.

Import LASParser LazDecompressor.

Definition le (n : nat) (v : Z) : list byte :=
  map (fun k => byte_of_Z (v / 256 ^ Z.of_nat k)) (seq 0 n).

Definition zeros (n : nat) : list byte := replicate n x00.

(** A LAS header of [hsize] bytes; the scales are [scale] (as binary64
    bits) on the three axes and the offsets are [0]. *)
Definition lasHeader (major minor hsize offData fmt recLen legacy scale low high : Z)
  : list byte :=
  take (Z.to_nat hsize)
    ([x4c; x41; x53; x46] ++ zeros 20 ++ [byte_of_Z major; byte_of_Z minor]
     ++ zeros 68 ++ le 2 hsize ++ le 4 offData ++ zeros 4 ++ [byte_of_Z fmt]
     ++ le 2 recLen ++ le 4 legacy ++ zeros 20
     ++ le 8 scale ++ le 8 scale ++ le 8 scale ++ zeros 24
     ++ zeros 68 ++ le 4 low ++ le 4 high ++ zeros (Z.to_nat hsize - 255)).

Definition one_bits : Z := 0x3FF0000000000000.

(** A point record of format 2 (26 bytes): coordinates, 8 bytes of
    attributes, three colour channels. *)
Definition record2 (x y z red green blue : Z) : list byte :=
  le 4 x ++ le 4 y ++ le 4 z ++ zeros 8 ++ le 2 red ++ le 2 green ++ le 2 blue.

(** LAS 1.2, 227-byte header, format 2, [n] points declared, unit
    scales. *)
Definition header12 (n : Z) : list byte :=
  lasHeader 1 2 227 227 2 26 n one_bits 0 0.

(** What [parseHeader] reads from [header12 n]. *)
Definition parsed12 (n : Z) : LASHeader :=
  {| signature := "LASF"; versionMajor := 1; versionMinor := 2;
     headerSize := 227; offsetToPointData := 227;
     pointDataRecordFormat := 2; pointDataRecordLength := 26;
     numberOfPoints := n;
     scaleX := 1; scaleY := 1; scaleZ := 1;
     offsetX := 0; offsetY := 0; offsetZ := 0 |}.

(** A LAS 1.4 header declaring [2^53 + 1] points in the extended field
    (low word 1, high word [2^21]) and 7 in the legacy field. *)
Definition header14_big : buffer :=
  lasHeader 1 4 375 375 6 30 7 one_bits 1 (2 ^ 21).

(** A LAS 1.4 header declaring 5 points in the extended field and 7 in
    the legacy field. *)
Definition header14_small : buffer :=
  lasHeader 1 4 375 375 6 30 7 one_bits 5 0.

(** Two points at elevations 0 and 10 whose colour channels are all
    zero. *)
Definition black_cloud : buffer :=
  header12 2 ++ record2 0 0 0 0 0 0 ++ record2 0 0 10 0 0 0.

(** Three points on the equator at elevations 0, 0 and 3. *)
Definition three_heights : buffer :=
  header12 3 ++ record2 0 0 0 9 9 9 ++ record2 0 0 0 9 9 9 ++ record2 0 0 3 9 9 9.

(** Five complete records. *)
Definition five_points : buffer :=
  header12 5 ++ record2 0 0 0 1 1 1 ++ record2 1 1 1 1 1 1 ++ record2 2 2 2 1 1 1
  ++ record2 3 3 3 1 1 1 ++ record2 4 4 4 1 1 1.


(** Three points declared, the file cut 5 bytes into the third
    record. *)
Definition cut_after_two : buffer :=
  header12 3 ++ record2 0 0 0 255 0 0 ++ record2 2 4 6 0 255 0
  ++ take 5 (record2 7 8 9 1 1 1).

(** One point declared, the file cut before its colour block. *)
Definition cut_color : buffer :=
  header12 1 ++ take 20 (record2 1 2 3 1 1 1).

(** One point whose channels mix the two depths: red 300, green 10,
    blue 0. *)
Definition mixed_depth : buffer :=
  header12 1 ++ record2 0 0 0 300 10 0.

(** A stand-in for [Math.cos] on clouds at latitude 0. *)
Definition cos_at_equator : float -> float := fun _ => 1%float.

(** A compressed container: the header of a format-2 file with the
    compression bit 7 set in the format byte, and some payload. *)
Definition laz_file : buffer :=
  lasHeader 1 2 227 227 130 26 2 one_bits 0 0 ++ [x01; x02; x03].

Definition laz_records : list (list byte) :=
  [record2 1 2 3 4 5 6; record2 7 8 9 10 11 12].

(** An engine that stages [recs], one record per [getPoint]. *)
Definition engine (recs : list (list byte)) (len : nat) : LazPerf :=
  {| LASZip := nat; LASZip_new := 0%nat;
     LASZip_open := fun o _ _ _ => Ok o;
     LASZip_getCount := fun _ => length recs;
     LASZip_getPointLength := fun _ => len;
     LASZip_getPoint := fun o hp ptr =>
       match recs !! o with
       | Some rc => Ok (S o, heap_set hp rc ptr)
       | None => Throw (EngineError "chunk table is corrupt")
       end |}.

(** An engine that opens the file, announces two points and fails on the
    second one. *)
Definition failing_engine : LazPerf :=
  {| LASZip := nat; LASZip_new := 0%nat;
     LASZip_open := fun o _ _ _ => Ok o;
     LASZip_getCount := fun _ => 2%nat;
     LASZip_getPointLength := fun _ => 26%nat;
     LASZip_getPoint := fun o hp ptr =>
       match o with
       | O => Ok (S o, heap_set hp (record2 1 2 3 4 5 6) ptr)
       | S _ => Throw (EngineError "chunk table is corrupt")
       end |}.

(** An engine that refuses every file, without a message. *)
Definition refusing_engine : LazPerf :=
  {| LASZip := nat; LASZip_new := 0%nat;
     LASZip_open := fun _ _ _ _ => Throw (EngineError EmptyString);
     LASZip_getCount := fun _ => 0%nat;
     LASZip_getPointLength := fun _ => 0%nat;
     LASZip_getPoint := fun o hp _ => Ok (o, hp) |}.

End Sample.

(** * Vocabulary of the properties *)

Import LASParser LazDecompressor.

(** [Math.ceil] of a finite binary64 value, as an integer. *)
Definition ceiling_of_float (x : float) : option Z :=
  match Prim2SF x with
  | S754_zero _ => Some 0
  | S754_finite s m e =>
    if 0 <=? e then Some ((if s then -1 else 1) * (Zpos m * 2 ^ e))
    else if s then Some (- (Zpos m / 2 ^ (- e)))
    else Some (Num.ceil_div (Zpos m) (2 ^ (- e)))
  | _ => None
  end.

(** [Num.quot64] and [Num.ceil_quot] give the quotient and the ceiling
    that binary64 arithmetic gives on [a] and [b]. *)
Definition quot64_agrees (a b : Z) : bool :=
  (Num.to_float a / Num.to_float b
   =? SF2Prim (binary_normalize prec emax (fst (Num.quot64 a b))
                 (snd (Num.quot64 a b)) false))%float
  && match ceiling_of_float (Num.to_float a / Num.to_float b)%float with
     | Some c => c =? Num.ceil_quot a b
     | None => false
     end.

(** The [n] integers [lo], [lo + step], ... *)
Definition progression (lo step : Z) (n : nat) : list Z :=
  map (fun k => lo + step * Z.of_nat k) (seq 0 n).

(** The integer a binary64 value holds, if it is finite. *)
Definition integer_of_float (x : float) : option Z :=
  match Prim2SF x with
  | S754_zero _ => Some 0
  | S754_finite s m e =>
    let v := if 0 <=? e then Zpos m * 2 ^ e else Zpos m / 2 ^ (- e) in
    Some (if s then - v else v)
  | _ => None
  end.

(** The condition under which the extended count is consulted. *)
Definition extended_header (h : LASHeader) : Prop :=
  1 <= versionMajor h /\ 4 <= versionMinor h /\ 375 <= headerSize h.

(** The point records [parsePoints] retains (its [rawPoints]) and the
    extrema it tracks over them. *)
Definition retained (this : LASParser) (h : LASHeader) : list rawPoint :=
  match readLoop this h (Z.to_nat (numberOfPoints h)) 0 [] extrema0 with
  | Ok (pts, _) => pts
  | Throw _ => []
  end.

Definition tracked (this : LASParser) (h : LASHeader) : extrema :=
  fold_left track (retained this h) extrema0.

(** The normalized elevation of a point, as the second loop computes it. *)
Definition normalizedElevation (e : extrema) (pt : rawPoint) : float :=
  ((z pt - minZ e) / Num.or_else (maxZ e - minZ e) 1)%float.

(** The centroid (per-axis mean) of a flat position buffer, in binary64. *)
Fixpoint axis_sums (positions : list float) : float * float * float :=
  match positions with
  | px :: py :: pz :: rest =>
    let '(sx, sy, sz) := axis_sums rest in ((px + sx)%float, (py + sy)%float, (pz + sz)%float)
  | _ => (0%float, 0%float, 0%float)
  end.

Definition centroid (positions : list float) : float * float * float :=
  let n := Num.to_float (Z.of_nat (length positions) / 3) in
  let '(sx, sy, sz) := axis_sums positions in
  ((sx / n)%float, (sy / n)%float, (sz / n)%float).

(** The records the engine stages: [n] successive [getPoint(ptr)] calls from
    the engine state [o] and heap [hp], each followed by a read of [len]
    heap bytes at [ptr]. *)
Fixpoint stagedRecords (module : LazPerf) (o : LASZip module) (hp : heap)
    (ptr : Z) (len n : nat) : result (list (list byte)) :=
  match n with
  | O => Ok []
  | S n' =>
    let* (o', hp') := LASZip_getPoint module o hp ptr in
    let* rest := stagedRecords module o' hp' ptr len n' in
    Ok (heap_view hp' ptr len :: rest)
  end.

(** Addresses from [brk] on are not allocated and object handles from
    [nextObject] on are not in use: what [_malloc] and [new LASZip]
    maintain. *)
Definition machine_fresh {module : LazPerf} (m : machine module) : Prop :=
  (forall a : Z, brk module m <= a -> blocks module m !! a = None) /\
  (forall k : nat, (nextObject module m <= k)%nat -> objects module m !! k = None).

(** The engine throws in [getPoint] while [decompressLaz] stages the
    records: the header is readable, the engine opens the file copy to
    the object [o1], the header fits the container, the output holds
    byte 104, and staging the records throws [e]. *)
Definition staging_throws {module : LazPerf} (lazBuffer : buffer)
    (m : machine module) (o1 : LASZip module) (e : exn) : Prop :=
  let filePtr := brk module m in
  let hp := heap_set (HEAPU8 module m) lazBuffer filePtr in
  let pointPtr := filePtr + Z.of_nat (S (length lazBuffer)) in
  exists h : LASHeader,
    readLazHeader lazBuffer = Ok h /\
    LASZip_open module (LASZip_new module) hp filePtr (byteLength lazBuffer) = Ok o1 /\
    (Z.to_nat (offsetToPointData h) <= length lazBuffer)%nat /\
    (104 < Z.to_nat (offsetToPointData h)
           + LASZip_getCount module o1 * LASZip_getPointLength module o1)%nat /\
    stagedRecords module o1 hp pointPtr (LASZip_getPointLength module o1)
      (LASZip_getCount module o1) = Throw e.

(** The header of a decompressed file: that of the container, the two
    compression bits cleared from the point format. *)
Definition decompressedHeader (h : LASHeader) : LASHeader :=
  {| signature := signature h;
     versionMajor := versionMajor h;
     versionMinor := versionMinor h;
     headerSize := headerSize h;
     offsetToPointData := offsetToPointData h;
     pointDataRecordFormat := Z.land (pointDataRecordFormat h) 0x3F;
     pointDataRecordLength := pointDataRecordLength h;
     numberOfPoints := numberOfPoints h;
     scaleX := scaleX h; scaleY := scaleY h; scaleZ := scaleZ h;
     offsetX := offsetX h; offsetY := offsetY h; offsetZ := offsetZ h |}.

(** [originalFormat & 0x3F] on the byte [x]. *)
Definition clearCompression (x : byte) : byte :=
  byte_of_Z (Z.land (byte_to_Z x) 0x3F).

(** The running minimum and maximum the loops keep with
    [if (x < min) min = x] and [if (x > max) max = x]. *)
Definition running_min (xs : list float) (m0 : float) : float :=
  fold_left (fun m x => if (x <? m)%float then x else m) xs m0.

Definition running_max (xs : list float) (m0 : float) : float :=
  fold_left (fun m x => if (m <? x)%float then x else m) xs m0.

(** [v / d] is not zero for the [n] integers [v] from [i] on. *)
Fixpoint quotients_nonzero (d : float) (n : nat) (i : Z) : bool :=
  match n with
  | O => true
  | S n' => negb (Num.to_float i / d =? 0)%float && quotients_nonzero d n' (i + 1)
  end.

Section SliceVocabulary.

Import Slicer.

(** The position and colour attributes of the geometry hold the same number
    of entries, hence of points. *)
Definition geometry_parallel (current : ThreeRef) : Prop :=
  match points current with
  | Some geometry =>
    match position geometry, color geometry with
    | Some p, Some c => length p = length c
    | None, None => True
    | _, _ => False
    end
  | None => True
  end.

Definition originals_parallel (current : ThreeRef) : Prop :=
  match originalPositions current with
  | Some p => length p = length (originalColors current)
  | None => True
  end.

Definition range_ok (rg : SliceRange) : Prop := min rg < max rg.

Definition ranges_ok (s : SlicerState) : Prop :=
  range_ok (x s) /\ range_ok (y s) /\ range_ok (z s).

(** The three entries of point [i] of a flat array. *)
Definition pointAt (a : list float) (i : nat) : list float :=
  [at_ a (i * 3); at_ a (i * 3 + 1); at_ a (i * 3 + 2)].

(** The world coordinates of point [i] under a rotation about the vertical
    axis, as both loops of the slicer compute them. *)
Definition worldX (a : list float) (cosR sinR : float) (i : nat) : float :=
  (at_ a (i * 3) * cosR - at_ a (i * 3 + 1) * sinR)%float.

Definition worldY (a : list float) (cosR sinR : float) (i : nat) : float :=
  (at_ a (i * 3) * sinR + at_ a (i * 3 + 1) * cosR)%float.

Definition worldZ (a : list float) (i : nat) : float := at_ a (i * 3 + 2).

(** The test of the filter loop on point [i]. *)
Definition inSlice (a : list float)
    (xMin xMax yMin yMax zMin zMax cosR sinR : float) (i : nat) : bool :=
  (xMin <=? worldX a cosR sinR i)%float && (worldX a cosR sinR i <=? xMax)%float &&
  (yMin <=? worldY a cosR sinR i)%float && (worldY a cosR sinR i <=? yMax)%float &&
  (zMin <=? worldZ a i)%float && (worldZ a i <=? zMax)%float.

(** The three colour entries the filter pushes for point [i]. *)
Definition sliceColor (pointColor : PointColor) (originalColors : list float)
    (i : nat) : list float :=
  match pointColor with
  | solid c => [cr c; cg c; cb c]
  | original => pointAt originalColors i
  end.

(** The content of a [Float32Array]: every entry is a float32 value. *)
Definition float32_array (a : list float) : Prop :=
  Forall (fun v => Num.fround v = v) a.

End SliceVocabulary.

(** * Properties *)

(** ** The result monad and the DataView reads *)

Lemma rbind_Ok {A B} (m : result A) (k : A -> result B) (y : B) :
  rbind m k = Ok y -> exists a, m = Ok a /\ k a = Ok y.
Proof. destruct m as [a|e]; simpl; [eauto | discriminate]. Qed.

Ltac inv_bind H :=
  let a := fresh "v" in
  let Ha := fresh "Hv" in
  apply rbind_Ok in H; destruct H as (a & Ha & H).

Lemma byte_to_Z_range (x : byte) : 0 <= byte_to_Z x < 256.
Proof. destruct x; vm_compute; split; congruence. Qed.

Lemma getUint8_inv (view : buffer) (k v : Z) :
  getUint8 view k = Ok v -> 0 <= k < byteLength view /\ 0 <= v < 256.
Proof.
  unfold getUint8, byteLength. destruct (Z.ltb_spec k 0); [discriminate|].
  destruct (view !! Z.to_nat k) as [x|] eqn:E; [|discriminate].
  intros [= <-]. apply lookup_lt_Some in E.
  split; [lia | apply byte_to_Z_range].
Qed.

Lemma getUint8_ok (view : buffer) (k : Z) :
  0 <= k < byteLength view ->
  exists x, view !! Z.to_nat k = Some x /\ getUint8 view k = Ok (byte_to_Z x).
Proof.
  unfold getUint8, byteLength. intros Hk.
  destruct (Z.ltb_spec k 0); [lia|].
  destruct (lookup_lt_is_Some_2 view (Z.to_nat k)) as [x Hx]; [lia|].
  exists x. by rewrite Hx.
Qed.

Lemma getUint16_inv (view : buffer) (k v : Z) :
  getUint16 view k = Ok v -> 0 <= k /\ k + 2 <= byteLength view /\ 0 <= v < 65536.
Proof.
  unfold getUint16. intros H. inv_bind H. inv_bind H. injection H as <-.
  apply getUint8_inv in Hv, Hv0. lia.
Qed.

Lemma getUint16_ok (view : buffer) (k : Z) :
  0 <= k -> k + 2 <= byteLength view -> exists v, getUint16 view k = Ok v.
Proof.
  intros H0 H1. unfold getUint16.
  destruct (getUint8_ok view k) as (x0 & _ & ->); [lia|].
  destruct (getUint8_ok view (k + 1)) as (x1 & _ & ->); [lia|].
  simpl. eauto.
Qed.

Lemma getUint32_inv (view : buffer) (k v : Z) :
  getUint32 view k = Ok v -> 0 <= k /\ k + 4 <= byteLength view /\ 0 <= v < 2 ^ 32.
Proof.
  unfold getUint32. intros H. inv_bind H. inv_bind H. injection H as <-.
  apply getUint16_inv in Hv, Hv0. lia.
Qed.

Lemma getUint32_ok (view : buffer) (k : Z) :
  0 <= k -> k + 4 <= byteLength view -> exists v, getUint32 view k = Ok v.
Proof.
  intros H0 H1. unfold getUint32.
  destruct (getUint16_ok view k) as (lo & ->); [lia..|].
  destruct (getUint16_ok view (k + 2)) as (hi & ->); [lia..|].
  simpl. eauto.
Qed.

Lemma getInt32_ok (view : buffer) (k : Z) :
  0 <= k -> k + 4 <= byteLength view -> exists v, getInt32 view k = Ok v.
Proof.
  intros H0 H1. unfold getInt32.
  destruct (getUint32_ok view k) as (u & ->); [lia..|]. simpl. eauto.
Qed.

(** ** Rounding of integers to binary64 *)

(** [round53] against the rounding of the standard library's binary64
    ([binary_normalize] with precision 53), on integers around the places
    where rounding starts, on ties and at the top of the 64-bit range. *)
Example round53_is_binary64_rounding :
  Forall (fun n => integer_of_float (Num.to_float n) = Some (Num.round53 n))
    [0; 1; 2 ^ 53 - 1; 2 ^ 53; 2 ^ 53 + 1; 2 ^ 53 + 2; 2 ^ 53 + 3;
     2 ^ 54 + 2; 2 ^ 54 + 3; 2 ^ 54 + 6; 2 ^ 60 + 2 ^ 7; 2 ^ 60 + 2 ^ 7 + 1;
     2 ^ 60 + 3 * 2 ^ 7; 2 ^ 63 + 2 ^ 10; 2 ^ 64 - 2 ^ 10; 2 ^ 64 - 2 ^ 10 - 1;
     2 ^ 64 - 1; 12345678901234567890].
Proof. repeat constructor; vm_compute; reflexivity. Qed.

Lemma round53_small (n : Z) : n < 2 ^ 53 -> Num.round53 n = n.
Proof.
  intros H. unfold Num.round53. destruct (Z.ltb_spec n (2 ^ 53)); [done | lia].
Qed.

(** A multiple of [2^32] with a 32-bit factor has at most 32 significant
    bits: the product [high * 0x100000000] is exact. *)
Lemma round53_shifted (high : Z) :
  0 <= high < 2 ^ 32 -> Num.round53 (high * 4294967296) = high * 4294967296.
Proof.
  intros Hh. unfold Num.round53.
  destruct (Z.ltb_spec (high * 4294967296) (2 ^ 53)) as [|Hbig]; [done|].
  set (n := high * 4294967296) in *.
  assert (Hlog : 53 <= Z.log2 n < 64).
  { split; [apply Z.log2_le_pow2; lia | apply Z.log2_lt_pow2; lia]. }
  set (e := Z.log2 n - 52).
  assert (He : 1 <= e <= 11) by lia.
  assert (Hdiv : n = (high * 2 ^ (32 - e)) * 2 ^ e).
  { unfold n. rewrite <- Z.mul_assoc, <- Z.pow_add_r by lia.
    replace (32 - e + e) with 32 by lia. reflexivity. }
  assert (Hpos : 0 < 2 ^ e) by (apply Z.pow_pos_nonneg; lia).
  assert (Hr : n mod 2 ^ e = 0) by (rewrite Hdiv; apply Z_mod_mult).
  assert (Hq : n / 2 ^ e * 2 ^ e = n).
  { rewrite Hdiv at 1. rewrite Z_div_mult by lia. lia. }
  rewrite Hr.
  assert (Hhalf : 0 < 2 ^ (e - 1)) by (apply Z.pow_pos_nonneg; lia).
  destruct (Z.ltb_spec (2 ^ (e - 1)) 0); [lia|].
  destruct (Z.eqb_spec 0 (2 ^ (e - 1))); [lia|].
  simpl. exact Hq.
Qed.

Lemma round53_2p53 : Num.round53 (2 ^ 53) = 2 ^ 53.
Proof. reflexivity. Qed.

Lemma round53_exact (n : Z) : n <= 2 ^ 53 -> Num.round53 n = n.
Proof.
  intros H. destruct (Z.eq_dec n (2 ^ 53)) as [->|]; [apply round53_2p53|].
  apply round53_small. lia.
Qed.

Lemma round53_pos (n : Z) : 0 < n -> 0 < Num.round53 n.
Proof.
  intros Hn. unfold Num.round53.
  destruct (Z.ltb_spec n (2 ^ 53)) as [|Hbig]; [done|].
  assert (Hlog : 53 <= Z.log2 n) by (apply Z.log2_le_pow2; lia).
  set (e := Z.log2 n - 52).
  assert (Hpos : 0 < 2 ^ e) by (apply Z.pow_pos_nonneg; lia).
  assert (Hq : 0 < n / 2 ^ e).
  { apply Z.div_str_pos. split; [lia|].
    transitivity (2 ^ Z.log2 n).
    - apply Z.pow_le_mono_r; lia.
    - apply Z.log2_spec. lia. }
  destruct (_ || _); nia.
Qed.

(** ** Header reader *)


Lemma extended_test (h : LASHeader) :
  (versionMajor h >=? 1) && (versionMinor h >=? 4) && (headerSize h >=? 375) = true
  <-> extended_header h.
Proof. unfold extended_header. rewrite !andb_true_iff, !Z.geb_le. tauto. Qed.

(** The Number [low + high * 0x100000000]. *)
Lemma count64_value (low high : Z) :
  0 <= low < 2 ^ 32 -> 0 <= high < 2 ^ 32 ->
  Num.add low (Num.mul high 4294967296) = Num.round53 (low + high * 2 ^ 32).
Proof.
  intros Hl Hh. unfold Num.add, Num.mul. rewrite round53_shifted by done.
  reflexivity.
Qed.

Lemma count64_test (low high : Z) :
  0 <= low < 2 ^ 32 -> 0 <= high < 2 ^ 32 ->
  (Num.round53 (low + high * 2 ^ 32) >? 0) = negb (low + high * 2 ^ 32 =? 0).
Proof.
  intros Hl Hh.
  destruct (Z.eqb_spec (low + high * 2 ^ 32) 0) as [->|Hne]; [reflexivity|].
  simpl. apply Z.gtb_lt. apply round53_pos. lia.
Qed.

(** What a successful [parseHeader] has read. *)
Lemma parseHeader_inv (view : buffer) (h : LASHeader) :
  parseHeader view = Ok h ->
  signature h = "LASF"%string /\
  getUint8 view 24 = Ok (versionMajor h) /\
  getUint8 view 25 = Ok (versionMinor h) /\
  getUint16 view 94 = Ok (headerSize h) /\
  getUint32 view 96 = Ok (offsetToPointData h) /\
  getUint8 view 104 = Ok (pointDataRecordFormat h) /\
  getUint16 view 105 = Ok (pointDataRecordLength h) /\
  exists legacy, getUint32 view 107 = Ok legacy /\
    if (versionMajor h >=? 1) && (versionMinor h >=? 4) && (headerSize h >=? 375)
    then exists low high,
         getUint32 view 247 = Ok low /\ getUint32 view 251 = Ok high /\
         numberOfPoints h =
           let count64 := Num.add low (Num.mul high 4294967296) in
           if count64 >? 0 then count64 else legacy
    else numberOfPoints h = legacy.
Proof.
  unfold parseHeader. intros H. inv_bind H.
  destruct (String.eqb_spec v "LASF") as [->|]; [simpl in H | discriminate].
  do 13 inv_bind H.
  inv_bind H. injection H as <-. simpl.
  repeat (split; [done|]). exists v5. split; [done|].
  destruct (_ && _).
  - inv_bind Hv13. inv_bind Hv13. injection Hv13 as <-. eauto.
  - by injection Hv13 as <-.
Qed.

Lemma parseHeader_readLazHeader (view : buffer) (h : LASHeader) :
  parseHeader view = Ok h <-> LazDecompressor.readLazHeader view = Ok h.
Proof.
  unfold parseHeader, LazDecompressor.readLazHeader.
  destruct (readSignature view) as [s|e]; simpl; [|done].
  destruct (String.eqb s "LASF"); simpl; [done|].
  split; discriminate.
Qed.

(** C1 (as amended): when the version fields satisfy major >= 1 and
    minor >= 4, the header length is at least 375 and the extended count
    [low + high * 2^32] (uint32 at 247 and 251) is nonzero, the parsed point
    count is that sum as a JavaScript Number, that is rounded to binary64,
    hence the sum itself whenever it is at most [2^53]; in every other case
    it is the legacy uint32 at 107.  [readLazHeader] returns the same
    header, so it resolves the count by the same rule. *)
Theorem point_count_resolution (view : buffer) (h : LASHeader) :
  parseHeader view = Ok h ->
  LazDecompressor.readLazHeader view = Ok h /\
  exists legacy, getUint32 view 107 = Ok legacy /\
    (extended_header h ->
       exists low high,
         getUint32 view 247 = Ok low /\ getUint32 view 251 = Ok high /\
         (low + high * 2 ^ 32 <> 0 ->
            numberOfPoints h = Num.round53 (low + high * 2 ^ 32) /\
            (low + high * 2 ^ 32 <= 2 ^ 53 -> numberOfPoints h = low + high * 2 ^ 32)) /\
         (low + high * 2 ^ 32 = 0 -> numberOfPoints h = legacy)) /\
    (~ extended_header h -> numberOfPoints h = legacy).
Proof.
  intros H. split; [by apply parseHeader_readLazHeader|].
  apply parseHeader_inv in H.
  destruct H as (_ & _ & _ & _ & _ & _ & _ & legacy & Hleg & H).
  exists legacy. split; [done|].
  destruct (_ && _) eqn:E.
  - apply extended_test in E. split; [|tauto]. intros _.
    destruct H as (low & high & Hlow & Hhigh & H).
    exists low, high. split; [done|]. split; [done|].
    pose proof (getUint32_inv _ _ _ Hlow) as (_ & _ & Hl).
    pose proof (getUint32_inv _ _ _ Hhigh) as (_ & _ & Hh).
    cbv zeta in H. rewrite count64_value, count64_test in H by done.
    split.
    + intros Hne. apply Z.eqb_neq in Hne. rewrite Hne in H. simpl in H.
      split; [done|]. intros Hle. by rewrite H, round53_exact.
    + intros Hz. apply Z.eqb_eq in Hz. by rewrite Hz in H.
  - split; [|done]. intros He. apply extended_test in He. congruence.
Qed.

Lemma point_count_resolution_witness :
  exists h, parseHeader Sample.header14_small = Ok h /\
    LazDecompressor.readLazHeader Sample.header14_small = Ok h /\
    numberOfPoints h = 5.
Proof.
  eexists. split; [vm_compute; reflexivity|].
  destruct (point_count_resolution Sample.header14_small
              {| signature := "LASF"; versionMajor := 1; versionMinor := 4;
                 headerSize := 375; offsetToPointData := 375;
                 pointDataRecordFormat := 6; pointDataRecordLength := 30;
                 numberOfPoints := 5;
                 scaleX := 1; scaleY := 1; scaleZ := 1;
                 offsetX := 0; offsetY := 0; offsetZ := 0 |})
    as (Hlaz & _); [vm_compute; reflexivity|].
  split; [exact Hlaz | reflexivity].
Defined.

(** The binary64 arithmetic of the source on the words of [Sample.header14_big],
    run on primitive floats: the sum is [2^53], and [2^53 + 1] is not a
    binary64 value. *)
Example count64_in_binary64 :
  (Num.to_float 1 + Num.to_float 2097152 * 0x100000000)%float
  = Num.to_float (Num.add 1 (Num.mul 2097152 4294967296))
  /\ Num.to_float (2 ^ 53 + 1) = Num.to_float (2 ^ 53).
Proof. split; vm_compute; reflexivity. Qed.

(** C1 (as stated) fails: for a 1.4 header of length 375 whose extended
    count is [2^53 + 1], the parsed point count is [2^53], not the value of
    the 64-bit field. *)
Lemma point_count_not_the_field :
  exists h low high,
    parseHeader Sample.header14_big = Ok h /\
    extended_header h /\
    getUint32 Sample.header14_big 247 = Ok low /\
    getUint32 Sample.header14_big 251 = Ok high /\
    low + high * 2 ^ 32 = 9007199254740993 /\
    numberOfPoints h = 9007199254740992 /\
    numberOfPoints h <> low + high * 2 ^ 32.
Proof.
  eexists. exists 1, 2097152.
  split; [vm_compute; reflexivity|].
  split; [unfold extended_header; simpl; lia|].
  repeat (split; [vm_compute; reflexivity|]).
  simpl. lia.
Qed.

(** ** Point record decoder *)

Lemma ceil_div_spec (a b : Z) :
  0 < b -> b * (Num.ceil_div a b - 1) < a <= b * Num.ceil_div a b.
Proof.
  intros Hb. unfold Num.ceil_div.
  pose proof (Z.div_mod (a + b - 1) b ltac:(lia)) as Hdm.
  pose proof (Z.mod_pos_bound (a + b - 1) b Hb) as Hm.
  lia.
Qed.

(** [ceil_div] against [Math.ceil] of the binary64 quotient. *)
Example ceil_div_is_binary64_ceiling :
  Forall (fun '(a, b) =>
            ceiling_of_float (Num.to_float a / Num.to_float b)%float
            = Some (Num.ceil_div a b))
    [(0, 5); (1, 1); (5, 2); (6, 3); (7, 3); (2000001, 2000000);
     (4294967295, 2000000); (4294967295, 4294967294); (10 ^ 15, 7);
     (2 ^ 53 - 1, 3); (2 ^ 53 - 1, 2 ^ 53 - 2); (2 ^ 52 + 1, 2 ^ 52);
     (2 ^ 53 - 1, 2 ^ 26 + 1)].
Proof. repeat constructor; vm_compute; reflexivity. Qed.

Lemma ceil_div_unique (a b c : Z) :
  0 < b -> b * (c - 1) < a <= b * c -> Num.ceil_div a b = c.
Proof.
  intros Hb H. pose proof (ceil_div_spec a b Hb). nia.
Qed.

(** [quot64] against the division of binary64, on quotients that are
    exact, inexact, ties, below 1 and above [2^53]. *)
Example quot64_is_binary64_division :
  Forall (fun '(a, b) =>
            (Prim2SF (Num.to_float a / Num.to_float b)%float
             = binary_normalize prec emax (fst (Num.quot64 a b))
                 (snd (Num.quot64 a b)) false) /\
            (ceiling_of_float (Num.to_float a / Num.to_float b)%float
             = Some (Num.ceil_quot a b)))
    [(1, 1); (5, 2); (6, 3); (7, 3); (1, 3); (2, 3); (1, 10);
     (2000001, 2000000); (4294967295, 2000000); (4294967295, 4294967294);
     (10 ^ 15, 7); (2 ^ 53 - 1, 3); (2 ^ 53 - 1, 2 ^ 53 - 2);
     (2 ^ 52 + 1, 2 ^ 52); (2 ^ 53 - 1, 2 ^ 26 + 1); (2 ^ 53, 3);
     (2 ^ 53 + 2, 2 ^ 53); (9007199254740994, 7); (2 ^ 63, 2 ^ 53 - 1);
     (2 ^ 64 - 2048, 3); (2 ^ 64 - 2048, 2000000); (2 ^ 64 - 2048, 1);
     (8796093022222000128, 2000000); (3 * 2 ^ 52 + 4, 2 ^ 52 + 1)].
Proof. repeat constructor; vm_compute; reflexivity. Qed.

(** The same on ranges of operands: small ones, counts around [2^32],
    [2^53] and [2^63] (binary64 values all) against budgets around the
    default. *)
Example quot64_on_ranges :
  forallb (fun a => forallb (quot64_agrees a) (progression 1 1 40))
    (progression 1 1 40) = true /\
  forallb (fun a => forallb (quot64_agrees a) (progression 1999990 1 20))
    (progression (2 ^ 32 - 10) 1 20) = true /\
  forallb (fun a => forallb (quot64_agrees a) (progression 1999990 1 20))
    (progression (2 ^ 53 - 10) 1 10 ++ progression (2 ^ 53) 2 10) = true /\
  forallb (fun a => forallb (quot64_agrees a) (progression 1999990 1 20))
    (progression (2 ^ 63) 2048 20) = true.
Proof. split; [|split; [|split]]; vm_compute; reflexivity. Qed.

(** Above [2^53] the ceiling of the binary64 quotient can be the integer
    below the exact ceiling; a stride one short visits one index more
    than the budget. *)
Example ceil_quot_above_2p53 :
  Num.ceil_quot 8796093022222000128 2000000 = 4398046511111 /\
  Num.ceil_div 8796093022222000128 2000000 = 4398046511112 /\
  Num.ceil_quot (3 * 2 ^ 52 + 4) (2 ^ 52 + 1) = 3 /\
  Num.ceil_div (3 * 2 ^ 52 + 4) (2 ^ 52 + 1) = 4 /\
  Num.ceil_div 8796093022222000128 4398046511111 = 2000001.
Proof. repeat split; vm_compute; reflexivity. Qed.

(** The quotient [a * 2^k / b], rounded to nearest with at least 53 bits,
    has the ceiling of [a / b] when [b < a < 2^53]: it cannot reach the
    integer below. *)
Lemma ceil_rounded (a b k q0 : Z) :
  0 < b -> b < a -> a < 2 ^ 53 -> 0 <= k ->
  q0 = (a * 2 ^ k) / b -> 2 ^ 52 <= q0 ->
  let r := (a * 2 ^ k) mod b in
  let q := if (b <? 2 * r) || ((2 * r =? b) && Z.odd q0) then q0 + 1 else q0 in
  Num.ceil_div q (2 ^ k) = Num.ceil_div a b.
Proof.
  intros Hb Hab Ha Hk Hq0 Hnorm r q.
  assert (Hp : 0 < 2 ^ k) by (apply Z.pow_pos_nonneg; lia).
  apply ceil_div_unique; [done|].
  pose proof (ceil_div_spec a b Hb) as Hc.
  set (c := Num.ceil_div a b) in *.
  pose proof (Z.div_mod (a * 2 ^ k) b ltac:(lia)) as Hdm.
  pose proof (Z.mod_pos_bound (a * 2 ^ k) b Hb) as Hr.
  fold r in Hdm, Hr. rewrite <- Hq0 in Hdm.
  assert (Hq : q0 <= q <= q0 + 1) by (subst q; destruct (_ || _); lia).
  assert (Hup : q0 <= 2 ^ k * c) by nia.
  assert (Hlow : 2 ^ k * (c - 1) <= q0) by nia.
  split.
  - destruct (Z.eq_dec q0 (2 ^ k * (c - 1))) as [Heq|]; [|lia].
    subst q.
    destruct (Z.ltb_spec b (2 * r)); [simpl; lia|].
    exfalso.
    assert (2 * 2 ^ k <= b) by nia.
    assert (1 <= c - 1) by nia.
    nia.
  - destruct (Z.eq_dec q0 (2 ^ k * c)) as [Heq|]; [|lia].
    assert (r = 0) by nia.
    subst q. replace (b <? 2 * r) with false by (symmetry; apply Z.ltb_ge; lia).
    replace (2 * r =? b) with false by (symmetry; apply Z.eqb_neq; lia).
    simpl. lia.
Qed.

(** Below [2^53] the ceiling of the binary64 quotient is the exact
    ceiling. *)
Lemma ceil_quot_exact (a b : Z) :
  0 < b -> b < a -> a < 2 ^ 53 -> Num.ceil_quot a b = Num.ceil_div a b.
Proof.
  intros Hb Hab Ha.
  pose proof (Z.log2_spec a ltac:(lia)) as Hla.
  pose proof (Z.log2_spec b Hb) as Hlb.
  pose proof (Z.log2_nonneg b) as Hlb0.
  assert (Hle : Z.log2 b <= Z.log2 a) by (apply Z.log2_le_mono; lia).
  assert (Hla52 : Z.log2 a < 53) by (apply Z.log2_lt_pow2; lia).
  set (la := Z.log2 a) in *. set (lb := Z.log2 b) in *.
  unfold Num.ceil_quot, Num.quot64. fold la lb. cbv zeta.
  set (d := la - lb).
  assert (Hd : 0 <= d <= 52) by lia.
  replace (d - 53 <? 0) with true by (symmetry; apply Z.ltb_lt; lia).
  cbn [fst snd].
  replace (- (d - 53)) with (53 - d) by lia.
  assert (Hpow : 2 ^ (53 - d) = 2 * 2 ^ (52 - d)).
  { replace (53 - d) with (Z.succ (52 - d)) by lia. apply Z.pow_succ_r. lia. }
  assert (Hp52 : 0 < 2 ^ (52 - d)) by (apply Z.pow_pos_nonneg; lia).
  assert (Hbig : 2 ^ 52 * b < a * 2 ^ (53 - d)).
  { assert (2 ^ la * 2 ^ (53 - d) = 2 ^ 52 * 2 ^ Z.succ lb).
    { rewrite <- !Z.pow_add_r by lia. f_equal. lia. }
    nia. }
  destruct (Z.leb_spec (2 ^ 53) (a * 2 ^ (53 - d) / b)) as [Hhi | Hlo].
  - replace (d - 53 + 1) with (d - 52) by lia.
    assert (Hnum : 2 ^ 53 * b <= a * 2 ^ (53 - d)).
    { pose proof (Z.div_mod (a * 2 ^ (53 - d)) b ltac:(lia)).
      pose proof (Z.mod_pos_bound (a * 2 ^ (53 - d)) b Hb). nia. }
    destruct (Z.ltb_spec (d - 52) 0) as [Hneg | Hzero].
    + replace (- (d - 52)) with (52 - d) by lia.
      assert (Hq0 : 2 ^ 52 <= a * 2 ^ (52 - d) / b).
      { apply Z.div_le_lower_bound; [lia|].
        rewrite Hpow in Hnum. change (2 ^ 53) with (2 * 2 ^ 52) in Hnum.
        replace (a * (2 * 2 ^ (52 - d))) with (2 * (a * 2 ^ (52 - d))) in Hnum by ring.
        clear -Hnum. set (X := a * 2 ^ (52 - d)) in *.
        change (2 ^ 52) with 4503599627370496 in *. lia. }
      pose proof (ceil_rounded a b (52 - d) _ Hb Hab Ha ltac:(lia) eq_refl Hq0) as Hc.
      cbv zeta in Hc.
      revert Hc. destruct (_ || _); intros Hc;
        (replace (0 <=? d - 52) with false by (symmetry; apply Z.leb_gt; lia));
        replace (- (d - 52)) with (52 - d) by lia; exact Hc.
    + assert (d = 52) by lia. assert (lb = 0) by lia. assert (b = 1).
      { replace lb with 0 in Hlb by lia. change (2 ^ Z.succ 0) with 2 in Hlb.
        change (2 ^ 0) with 1 in Hlb. lia. }
      subst b. replace (d - 52) with 0 by lia.
      change (1 * 2 ^ 0) with 1. rewrite Z.div_1_r, Z.mod_1_r.
      unfold Num.ceil_div. replace (a + 1 - 1) with a by lia.
      rewrite Z.div_1_r.
      change ((1 <? 2 * 0) || (2 * 0 =? 1) && Z.odd a) with false.
      cbv beta iota. change (0 <=? 0) with true. cbv iota.
      change (2 ^ 0) with 1. lia.
  - assert (Hq0 : 2 ^ 52 <= a * 2 ^ (53 - d) / b).
    { apply Z.div_le_lower_bound; lia. }
    pose proof (ceil_rounded a b (53 - d) _ Hb Hab Ha ltac:(lia) eq_refl Hq0) as Hc.
    cbv zeta in Hc.
    replace (d - 53 <? 0) with true by (symmetry; apply Z.ltb_lt; lia).
    cbv beta iota. replace (- (d - 53)) with (53 - d) by lia.
    revert Hc. destruct (_ || _); intros Hc;
      (replace (0 <=? d - 53) with false by (symmetry; apply Z.leb_gt; lia));
      replace (- (d - 53)) with (53 - d) by lia; exact Hc.
Qed.

(** For a declared count below [2^53] the stride is the one the code
    computes in binary64. *)
Lemma stride_is_binary64 (totalPoints maxPoints : Z) :
  0 < maxPoints -> totalPoints < 2 ^ 53 ->
  stride totalPoints maxPoints
  = if totalPoints >? maxPoints then Num.ceil_quot totalPoints maxPoints else 1.
Proof.
  intros Hm Hn. unfold stride.
  destruct (Z.gtb_spec totalPoints maxPoints); [|done].
  symmetry. apply ceil_quot_exact; lia.
Qed.

Lemma stride_pos (totalPoints maxPoints : Z) :
  0 < maxPoints -> 1 <= stride totalPoints maxPoints.
Proof.
  intros Hm. unfold stride. destruct (Z.gtb_spec totalPoints maxPoints); [|lia].
  pose proof (ceil_div_spec totalPoints maxPoints Hm). nia.
Qed.

Lemma rgbLayout_offset (format : Z) : 0 <= snd (rgbLayout format).
Proof. unfold rgbLayout. repeat (destruct (_ : bool); simpl; try lia). Qed.

Lemma parseHeader_wf (view : buffer) (h : LASHeader) :
  parseHeader view = Ok h ->
  0 <= offsetToPointData h /\ 0 <= pointDataRecordLength h.
Proof.
  intros H. apply parseHeader_inv in H.
  destruct H as (_ & _ & _ & _ & Ho & _ & Hr & _).
  apply getUint32_inv in Ho. apply getUint16_inv in Hr. lia.
Qed.

Section PointRecords.

Variable this : LASParser.
Variable h : LASHeader.

Local Abbreviation view := (buffer_of this).
Local Abbreviation N := (numberOfPoints h).
Local Abbreviation step := (stride (numberOfPoints h) (maxPoints this)).
Local Abbreviation off := (offsetToPointData h).
Local Abbreviation recLen := (pointDataRecordLength h).

Hypothesis Hoff : 0 <= off.
Hypothesis Hrec : 0 <= recLen.
Hypothesis Hmax : 0 < maxPoints this.

Lemma readRecord_ok (o : Z) :
  0 <= o -> o + 12 <= byteLength view ->
  exists pt, readRecord this h o = Ok pt /\ offset pt = o.
Proof using Type.
  intros H0 H1. unfold readRecord.
  destruct (getInt32_ok view o) as (rx & ->); [lia..|].
  destruct (getInt32_ok view (o + 4)) as (ry & ->); [lia..|].
  destruct (getInt32_ok view (o + 8)) as (rz & ->); [lia..|].
  simpl. eauto.
Qed.

Lemma readRecord_offset (o : Z) (pt : rawPoint) :
  readRecord this h o = Ok pt -> offset pt = o.
Proof using Type.
  unfold readRecord. intros H. do 3 inv_bind H. by injection H as <-.
Qed.

(** The loop always returns, and every point it retains was read from
    inside the buffer. *)
Lemma readLoop_total (fuel : nat) : forall (i : Z) (acc : list rawPoint) (e : extrema),
  0 <= i ->
  exists pts, readLoop this h fuel i acc e = Ok (acc ++ pts, fold_left track pts e) /\
    Forall (fun pt => 0 <= offset pt /\ offset pt + 12 <= byteLength view /\
                      readRecord this h (offset pt) = Ok pt) pts.
Proof using Hoff Hrec Hmax.
  induction fuel as [|fuel IH]; intros i acc e Hi; simpl.
  - exists []. by rewrite app_nil_r.
  -
    destruct (Z.ltb_spec i N); [|exists []; by rewrite app_nil_r].
    destruct (Z.gtb_spec (off + i * recLen + 12) (byteLength view));
      [exists []; by rewrite app_nil_r|].
    destruct (readRecord_ok (off + i * recLen)) as (pt & Hpt & Ho); [nia | lia |].
    rewrite Hpt. simpl.
    pose proof (stride_pos N _ Hmax).
    destruct (IH (i + step) (acc ++ [pt]) (track e pt)) as (pts & -> & Hall);
      [lia|].
    exists (pt :: pts). rewrite <- app_assoc. split; [done|].
    constructor; [|done]. rewrite Ho. repeat split; [nia | lia | done].
Qed.

(** Once the fuel covers the indices left below [totalPoints], more fuel
    changes nothing: the fuel [totalPoints] of [parsePoints] never runs
    out. *)
Lemma readLoop_fuel_enough (fuel : nat) : forall (i : Z) acc e,
  (Z.to_nat (N - i) <= fuel)%nat ->
  readLoop this h (S fuel) i acc e = readLoop this h fuel i acc e.
Proof using Hmax.
  pose proof (stride_pos N _ Hmax) as Hstep.
  induction fuel as [|fuel IH]; intros i acc e Hfuel.
  - simpl. destruct (Z.ltb_spec i N); [lia | done].
  - change (readLoop this h (S (S fuel)) i acc e)
      with (if i <? N then
              if off + i * recLen + 12 >? byteLength view then Ok (acc, e)
              else let* pt := readRecord this h (off + i * recLen) in
                   readLoop this h (S fuel) (i + step) (acc ++ [pt]) (track e pt)
            else Ok (acc, e)).
    change (readLoop this h (S fuel) i acc e)
      with (if i <? N then
              if off + i * recLen + 12 >? byteLength view then Ok (acc, e)
              else let* pt := readRecord this h (off + i * recLen) in
                   readLoop this h fuel (i + step) (acc ++ [pt]) (track e pt)
            else Ok (acc, e)).
    destruct (Z.ltb_spec i N); [|done].
    destruct (_ >? _); [done|].
    destruct (readRecord this h (off + i * recLen)) as [pt|err]; [|done].
    simpl. apply IH. lia.
Qed.

(** The loop visits the indices [i], [i + step], ... as long as they are
    below [totalPoints] and their 12 coordinate bytes lie in the buffer:
    if that holds for the first [n] of them and fails for the next one,
    exactly those [n] records are retained. *)
Lemma readLoop_progression (n : nat) : forall (fuel : nat) (i : Z) acc e,
  (n <= fuel)%nat -> 0 <= i ->
  (forall k : nat, (k < n)%nat ->
     i + Z.of_nat k * step < N /\
     off + (i + Z.of_nat k * step) * recLen + 12 <= byteLength view) ->
  (N <= i + Z.of_nat n * step \/
   byteLength view < off + (i + Z.of_nat n * step) * recLen + 12) ->
  exists pts, readLoop this h fuel i acc e = Ok (acc ++ pts, fold_left track pts e) /\
    length pts = n /\
    forall k : nat, (k < n)%nat ->
      exists pt, pts !! k = Some pt /\
        readRecord this h (off + (i + Z.of_nat k * step) * recLen) = Ok pt.
Proof using Hoff Hrec Hmax.
  pose proof (stride_pos N _ Hmax) as Hstep.
  induction n as [|n IH]; intros fuel i acc e Hfuel Hi Hin Hstop.
  - exists []. rewrite app_nil_r. split; [|split; [done | intros k Hk; lia]].
    destruct fuel as [|fuel]; [done|]. simpl.
    destruct (Z.ltb_spec i N); [|done].
    destruct (Z.gtb_spec (off + i * recLen + 12) (byteLength view)); [done|].
    exfalso. simpl in Hstop. replace (i + 0) with i in Hstop by lia.
    destruct Hstop; lia.
  - destruct fuel as [|fuel]; [lia|]. simpl.
    destruct (Hin 0%nat ltac:(lia)) as [H0a H0b].
    replace (i + Z.of_nat 0 * step) with i in * by lia.
    destruct (Z.ltb_spec i N); [|lia].
    destruct (Z.gtb_spec (off + i * recLen + 12) (byteLength view)); [lia|].
    destruct (readRecord_ok (off + i * recLen)) as (pt & Hpt & Ho); [nia | lia |].
    rewrite Hpt. simpl.
    destruct (IH fuel (i + step) (acc ++ [pt]) (track e pt)) as (pts & -> & Hlen & Hk).
    + lia.
    + lia.
    + intros k Hk. specialize (Hin (S k) ltac:(lia)).
      replace (i + step + Z.of_nat k * step) with (i + Z.of_nat (S k) * step) by lia.
      exact Hin.
    + replace (i + step + Z.of_nat n * step) with (i + Z.of_nat (S n) * step) by lia.
      exact Hstop.
    + exists (pt :: pts). rewrite <- app_assoc. split; [done|].
      split; [simpl; lia|].
      intros [|k] Hk'.
      * exists pt. split; [done|].
        replace (i + Z.of_nat 0 * step) with i by lia. done.
      * destruct (Hk k ltac:(lia)) as (pt' & Hl & Hr). exists pt'. split; [done|].
        replace (i + Z.of_nat (S k) * step) with (i + step + Z.of_nat k * step) by lia.
        done.
Qed.

End PointRecords.

(** ** Colour inference and projection *)

Section PointColors.

Variable this : LASParser.
Local Abbreviation view := (buffer_of this).

Lemma pointColor_total (hasRGB : bool) (rgbOffset : Z) (minZ zRange : float)
    (pt : rawPoint) :
  0 <= offset pt -> 0 <= rgbOffset ->
  exists c, pointColor this hasRGB rgbOffset minZ zRange pt = Ok c.
Proof.
  intros Ho Hr. unfold pointColor.
  destruct hasRGB; simpl; [|eauto].
  destruct (Z.leb_spec (offset pt + rgbOffset + 6) (byteLength view)); [|eauto].
  destruct (getUint16_ok view (offset pt + rgbOffset)) as (red & ->); [lia..|].
  destruct (getUint16_ok view (offset pt + rgbOffset + 2)) as (green & ->); [lia..|].
  destruct (getUint16_ok view (offset pt + rgbOffset + 4)) as (blue & ->); [lia..|].
  simpl. destruct (_ && _); eauto.
Qed.

(** No colour block in the record format, or a colour block that does not
    fit the buffer: no byte is read and the colour is the elevation
    gradient. *)
Lemma pointColor_fallback (hasRGB : bool) (rgbOffset : Z) (minZ zRange : float)
    (pt : rawPoint) :
  hasRGB = false \/ byteLength view < offset pt + rgbOffset + 6 ->
  pointColor this hasRGB rgbOffset minZ zRange pt
  = Ok (elevationColor ((z pt - minZ) / zRange)).
Proof.
  intros [-> | Hlt]; unfold pointColor; [done|].
  destruct (Z.leb_spec (offset pt + rgbOffset + 6) (byteLength view)); [lia|].
  by rewrite andb_false_r.
Qed.

(** A colour block inside the buffer whose three channels are zero: the
    initial grey [0.5] is never replaced. *)
Lemma pointColor_black (rgbOffset : Z) (minZ zRange : float) (pt : rawPoint) :
  offset pt + rgbOffset + 6 <= byteLength view ->
  getUint16 view (offset pt + rgbOffset) = Ok 0 ->
  getUint16 view (offset pt + rgbOffset + 2) = Ok 0 ->
  getUint16 view (offset pt + rgbOffset + 4) = Ok 0 ->
  pointColor this true rgbOffset minZ zRange pt = Ok (RGB 0.5 0.5 0.5).
Proof.
  intros Hin Hr Hg Hb. unfold pointColor.
  destruct (Z.leb_spec (offset pt + rgbOffset + 6) (byteLength view)); [|lia].
  simpl. rewrite Hr, Hg, Hb. reflexivity.
Qed.

End PointColors.

(** The elevation gradient always has a zero red or a zero blue channel,
    also after the store into a [Float32Array]: it is never the grey
    [(0.5, 0.5, 0.5)]. *)
Lemma elevationColor_not_grey (t : float) :
  Num.fround (r (elevationColor t)) = 0%float \/
  Num.fround (b (elevationColor t)) = 0%float.
Proof.
  unfold elevationColor.
  repeat (destruct (_ <? _)%float; simpl; [auto|]); auto.
Qed.

Section ProjectLoop.

Variable proj : rawPoint -> float * float * float.
Variable col : rawPoint -> result color.

Lemma projectLoop_spec (pts : list rawPoint) :
  forall (i : nat) (positions colors : list float),
  Forall (fun pt => exists c, col pt = Ok c) pts ->
  exists positions' colors',
    projectLoop proj col pts i positions colors = Ok (positions', colors') /\
    length positions' = length positions /\
    length colors' = length colors /\
    (forall q : nat, (q < i * 3)%nat ->
       positions' !! q = positions !! q /\ colors' !! q = colors !! q) /\
    ((i + length pts) * 3 <= length positions ->
     (i + length pts) * 3 <= length colors ->
     forall (j : nat) (pt : rawPoint), pts !! j = Some pt ->
       exists c, col pt = Ok c /\
         positions' !! ((i + j) * 3) = Some (Num.fround (proj pt).1.1) /\
         positions' !! ((i + j) * 3 + 1) = Some (Num.fround (proj pt).1.2) /\
         positions' !! ((i + j) * 3 + 2) = Some (Num.fround (proj pt).2) /\
         colors' !! ((i + j) * 3) = Some (Num.fround (r c)) /\
         colors' !! ((i + j) * 3 + 1) = Some (Num.fround (g c)) /\
         colors' !! ((i + j) * 3 + 2) = Some (Num.fround (b c)))%nat.
Proof.
  induction pts as [|pt rest IH]; intros i positions colors Hcol.
  - exists positions, colors. simpl. repeat split; try done.
  - apply Forall_cons in Hcol as [[c Hc] Hrest]. simpl.
    destruct (proj pt) as [[xMeters yMeters] zMeters] eqn:Hproj.
    rewrite Hc. simpl.
    edestruct (IH (S i)) as (positions' & colors' & -> & Hlp & Hlc & Hframe & Hpts);
      [exact Hrest|].
    exists positions', colors'. split; [done|].
    rewrite !length_insert in Hlp, Hlc, Hpts.
    split; [done|]. split; [done|]. split.
    + intros q Hq. destruct (Hframe q ltac:(lia)) as [-> ->].
      rewrite !list_lookup_insert_ne by lia. done.
    + intros Hp Hcl. simpl in Hp, Hcl. intros [|j] pt' Hj.
      * injection Hj as <-. exists c. split; [done|].
        replace (i + 0)%nat with i by lia.
        destruct (Hframe (i * 3)%nat ltac:(lia)) as [-> ->].
        destruct (Hframe (i * 3 + 1)%nat ltac:(lia)) as [-> ->].
        destruct (Hframe (i * 3 + 2)%nat ltac:(lia)) as [-> ->].
        rewrite Hproj. simpl.
        repeat split;
          repeat (first [ rewrite list_lookup_insert_eq by (rewrite ?length_insert; lia)
                        | rewrite list_lookup_insert_ne by lia ]); done.
      * replace (i + S j)%nat with (S i + j)%nat by lia.
        apply Hpts; [lia | rewrite ?length_insert; lia | done].
Qed.

End ProjectLoop.

(** ** parsePoints as a whole *)

Section ParsePoints.

Variable Math_cos : float -> float.
Variable this : LASParser.
Variable h : LASHeader.

Hypothesis Hoff : 0 <= offsetToPointData h.
Hypothesis Hrec : 0 <= pointDataRecordLength h.
Hypothesis Hmax : 0 < maxPoints this.

Lemma readLoop_retained :
  readLoop this h (Z.to_nat (numberOfPoints h)) 0 [] extrema0
  = Ok (retained this h, tracked this h) /\
  Forall (fun pt => 0 <= offset pt /\ offset pt + 12 <= byteLength (buffer_of this) /\
                    readRecord this h (offset pt) = Ok pt) (retained this h).
Proof using Hoff Hrec Hmax.
  unfold tracked, retained.
  destruct (readLoop_total this h Hoff Hrec Hmax (Z.to_nat (numberOfPoints h))
              0 [] extrema0 ltac:(lia)) as (pts & -> & Hall).
  done.
Qed.

(** [parsePoints] never throws; its output arrays hold three entries per
    retained point, computed from that point alone and the tracked
    extrema. *)
Lemma parsePoints_spec :
  let e := tracked this h in
  let centerLon := ((minLon e + maxLon e) / 2)%float in
  let centerLat := ((minLat e + maxLat e) / 2)%float in
  let centerZ := ((minZ e + maxZ e) / 2)%float in
  let metersPerDegreeLon :=
    (111320 * Math_cos (centerLat * (Num.Math_PI / 180)))%float in
  exists d pts,
    parsePoints Math_cos this h = Ok (d, pts) /\
    loadedPoints d = Z.of_nat (length (retained this h)) /\
    bounds_lon d = (minLon e, maxLon e) /\
    bounds_lat d = (minLat e, maxLat e) /\
    bounds_z d = (minZ e, maxZ e) /\
    center_lon d = centerLon /\ center_lat d = centerLat /\ center_z d = centerZ /\
    length (positions pts) = (length (retained this h) * 3)%nat /\
    length (colors pts) = (length (retained this h) * 3)%nat /\
    forall (j : nat) (pt : rawPoint), retained this h !! j = Some pt ->
      exists c,
        pointColor this (rgbLayout (pointDataRecordFormat h)).1
          (rgbLayout (pointDataRecordFormat h)).2
          (minZ e) (Num.or_else (maxZ e - minZ e) 1) pt = Ok c /\
        positions pts !! (j * 3)%nat
          = Some (Num.fround ((lon pt - centerLon) * metersPerDegreeLon)) /\
        positions pts !! (j * 3 + 1)%nat
          = Some (Num.fround ((lat pt - centerLat) * 111320)) /\
        positions pts !! (j * 3 + 2)%nat = Some (Num.fround (z pt - centerZ)) /\
        colors pts !! (j * 3)%nat = Some (Num.fround (r c)) /\
        colors pts !! (j * 3 + 1)%nat = Some (Num.fround (g c)) /\
        colors pts !! (j * 3 + 2)%nat = Some (Num.fround (b c)).
Proof using Hoff Hrec Hmax.
  intros e centerLon centerLat centerZ metersPerDegreeLon.
  subst e centerLon centerLat centerZ metersPerDegreeLon.
  destruct readLoop_retained as [Hloop Hall].
  unfold parsePoints. rewrite Hloop.
  pose proof (rgbLayout_offset (pointDataRecordFormat h)) as Hrgb.
  destruct (rgbLayout (pointDataRecordFormat h)) as [hasRGB rgbOffset].
  cbv beta iota zeta delta [rbind fst snd] in Hrgb |- *.
  match goal with
  | |- context [projectLoop ?p ?c ?l ?i ?ps ?cs] =>
    destruct (projectLoop_spec p c l i ps cs)
      as (positions' & colors' & Hrun & Hlp & Hlc & _ & Hpts)
  end.
  { eapply Forall_impl; [exact Hall|]. intros pt (Ho & _ & _).
    by apply pointColor_total. }
  rewrite Hrun. rewrite length_replicate in Hlp, Hlc, Hpts.
  eexists _, _. split; [reflexivity|].
  cbv beta iota zeta delta [loadedPoints bounds_lon bounds_lat bounds_z
    center_lon center_lat center_z positions colors].
  repeat (split; [done|]).
  intros j pt Hj.
  destruct (Hpts ltac:(simpl; lia) ltac:(simpl; lia) j pt Hj)
    as (c & Hc & H1 & H2 & H3 & H4 & H5 & H6).
  exists c. repeat split; done.
Qed.

End ParsePoints.

Lemma parseHeader_count_nonneg (view : buffer) (h : LASHeader) :
  parseHeader view = Ok h -> 0 <= numberOfPoints h.
Proof.
  intros H. apply parseHeader_inv in H.
  destruct H as (_ & _ & _ & _ & _ & _ & _ & legacy & Hleg & H).
  apply getUint32_inv in Hleg.
  destruct (_ && _).
  - destruct H as (low & high & _ & _ & ->). cbv zeta.
    destruct (Z.gtb_spec (Num.add low (Num.mul high 4294967296)) 0); lia.
  - lia.
Qed.

(** ** Subsampling and partial files *)

(** C4: with [N = totalPoints] and [M = maxPoints], the stride is
    [ceil(N/M)] when [N > M] and [1] otherwise; when the buffer holds all
    [N] records, [ceil(N/step)] points are retained (all [N] of them when
    [N <= M]), the [k]-th one being record [k * step]. *)
Theorem subsampling_stride (Math_cos : float -> float) (this : LASParser)
    (h : LASHeader) :
  parseHeader (buffer_of this) = Ok h ->
  0 < maxPoints this ->
  12 <= pointDataRecordLength h ->
  offsetToPointData h + numberOfPoints h * pointDataRecordLength h
    <= byteLength (buffer_of this) ->
  let N := numberOfPoints h in
  let M := maxPoints this in
  let step := stride N M in
  (M < N -> step = Num.ceil_div N M) /\
  (N <= M -> step = 1) /\
  exists d pts,
    parsePoints Math_cos this h = Ok (d, pts) /\
    loadedPoints d = Num.ceil_div N step /\
    (N <= M -> loadedPoints d = N) /\
    length (retained this h) = Z.to_nat (Num.ceil_div N step) /\
    forall k : nat, (k < length (retained this h))%nat ->
      exists pt, retained this h !! k = Some pt /\
        offset pt = offsetToPointData h + (Z.of_nat k * step) * pointDataRecordLength h /\
        readRecord this h (offset pt) = Ok pt.
Proof.
  intros Hhdr Hmax Hrec12 Hall N M step.
  pose proof (parseHeader_wf _ _ Hhdr) as [Hoff Hrec].
  pose proof (parseHeader_count_nonneg _ _ Hhdr) as HN. fold N in HN.
  assert (Hstep : 1 <= step) by (by apply stride_pos).
  split; [|split].
  - intros Hlt. unfold step, stride. destruct (Z.gtb_spec N M); [done | lia].
  - intros Hle. unfold step, stride. destruct (Z.gtb_spec N M); [lia | done].
  - pose proof (ceil_div_spec N step ltac:(lia)) as Hc.
    set (count := Num.ceil_div N step) in *.
    assert (Hcount : 0 <= count <= N) by nia.
    destruct (readLoop_progression this h Hoff Hrec Hmax (Z.to_nat count)
                (Z.to_nat N) 0 [] extrema0) as (pts & Hloop & Hlen & Hk).
    + lia.
    + lia.
    + intros k Hk. change (stride (numberOfPoints h) (maxPoints this)) with step.
      fold N.
      assert (Hk1 : Z.of_nat k <= count - 1) by lia.
      assert (Hk2 : Z.of_nat k * step <= (count - 1) * step)
        by (apply Z.mul_le_mono_nonneg_r; lia).
      assert (Hk3 : Z.of_nat k * step <= N - 1) by lia.
      split; [lia|]. fold N in Hall.
      assert ((0 + Z.of_nat k * step) * pointDataRecordLength h
              <= (N - 1) * pointDataRecordLength h)
        by (apply Z.mul_le_mono_nonneg_r; lia).
      lia.
    + left. change (stride (numberOfPoints h) (maxPoints this)) with step.
      fold N. rewrite Z2Nat.id by lia. lia.
    + destruct (parsePoints_spec Math_cos this h Hoff Hrec Hmax)
        as (d & out & Hrun & Hloaded & _).
      assert (Hret : retained this h = pts).
      { unfold retained. fold N. by rewrite Hloop. }
      exists d, out. rewrite Hloaded, Hret, Hlen.
      split; [done|]. split; [lia|]. split.
      * intros Hle. rewrite Z2Nat.id by lia.
        unfold count, step, stride. destruct (Z.gtb_spec N M); [lia|].
        unfold Num.ceil_div. replace (N + 1 - 1) with N by lia. apply Z.div_1_r.
      * split; [done|]. intros k Hlt.
        destruct (Hk k Hlt) as (pt & Hpt & Hread). exists pt.
        pose proof (readRecord_offset _ _ _ _ Hread) as Ho.
        split; [done|]. fold step in Ho. split; [rewrite Ho; f_equal; lia|].
        by rewrite Ho.
Qed.

(** C8: if the first [k0] sampled records lie in the buffer and the next
    sampled record, still below [totalPoints], has its 12 coordinate bytes
    past the end of the buffer, [parsePoints] returns normally with exactly
    those [k0] points: the loaded count is [k0], both arrays hold three
    entries per point, and the entries of point [k] are the projected
    position and the colour of the record at the [k]-th sampled offset,
    relative to the extrema of the [k0] records.  The declared count is
    below [2^53], where the stride of the sampling is the one the code
    computes in binary64. *)
Theorem partial_file_tolerance (Math_cos : float -> float) (this : LASParser)
    (h : LASHeader) (k0 : nat) :
  parseHeader (buffer_of this) = Ok h ->
  0 < maxPoints this ->
  numberOfPoints h < 2 ^ 53 ->
  let step := stride (numberOfPoints h) (maxPoints this) in
  let record_offset (k : nat) :=
    offsetToPointData h + (Z.of_nat k * step) * pointDataRecordLength h in
  (forall k : nat, (k < k0)%nat -> record_offset k + 12 <= byteLength (buffer_of this)) ->
  Z.of_nat k0 * step < numberOfPoints h ->
  byteLength (buffer_of this) < record_offset k0 + 12 ->
  let e := tracked this h in
  let centerLon := ((minLon e + maxLon e) / 2)%float in
  let centerLat := ((minLat e + maxLat e) / 2)%float in
  let centerZ := ((minZ e + maxZ e) / 2)%float in
  let metersPerDegreeLon :=
    (111320 * Math_cos (centerLat * (Num.Math_PI / 180)))%float in
  step = (if numberOfPoints h >? maxPoints this
          then Num.ceil_quot (numberOfPoints h) (maxPoints this) else 1) /\
  exists d pts,
    parsePoints Math_cos this h = Ok (d, pts) /\
    loadedPoints d = Z.of_nat k0 /\
    length (retained this h) = k0 /\
    length (positions pts) = (k0 * 3)%nat /\
    length (colors pts) = (k0 * 3)%nat /\
    forall k : nat, (k < k0)%nat ->
      exists pt c, retained this h !! k = Some pt /\
        offset pt = record_offset k /\
        readRecord this h (record_offset k) = Ok pt /\
        pointColor this (rgbLayout (pointDataRecordFormat h)).1
          (rgbLayout (pointDataRecordFormat h)).2
          (minZ e) (Num.or_else (maxZ e - minZ e) 1) pt = Ok c /\
        positions pts !! (k * 3)%nat
          = Some (Num.fround ((lon pt - centerLon) * metersPerDegreeLon)) /\
        positions pts !! (k * 3 + 1)%nat
          = Some (Num.fround ((lat pt - centerLat) * 111320)) /\
        positions pts !! (k * 3 + 2)%nat = Some (Num.fround (z pt - centerZ)) /\
        colors pts !! (k * 3)%nat = Some (Num.fround (r c)) /\
        colors pts !! (k * 3 + 1)%nat = Some (Num.fround (g c)) /\
        colors pts !! (k * 3 + 2)%nat = Some (Num.fround (b c)).
Proof.
  intros Hhdr Hmax Hsmall step record_offset Hbefore Hbelow Hpast
    e centerLon centerLat centerZ metersPerDegreeLon.
  split; [by apply stride_is_binary64|].
  pose proof (parseHeader_wf _ _ Hhdr) as [Hoff Hrec].
  assert (Hstep : 1 <= step) by (by apply stride_pos).
  destruct (readLoop_progression this h Hoff Hrec Hmax k0
              (Z.to_nat (numberOfPoints h)) 0 [] extrema0)
    as (pts & Hloop & Hlen & Hk).
  - nia.
  - lia.
  - intros k Hk. fold step. split; [nia|].
    specialize (Hbefore k Hk). unfold record_offset in Hbefore. lia.
  - right. fold step. unfold record_offset in Hpast. lia.
  - destruct (parsePoints_spec Math_cos this h Hoff Hrec Hmax)
      as (d & out & Hrun & Hloaded & _ & _ & _ & _ & _ & _ & Hlp & Hlc & Hout).
    assert (Hret : retained this h = pts).
    { unfold retained. by rewrite Hloop. }
    exists d, out. rewrite Hloaded, Hlp, Hlc. rewrite Hret at 1 2 3 4. rewrite Hlen.
    do 5 (split; [done|]).
    intros k Hlt. destruct (Hk k Hlt) as (pt & Hpt & Hread).
    rewrite <- Hret in Hpt.
    destruct (Hout k pt Hpt) as (c & Hc & Hentries).
    exists pt, c.
    fold step in Hread.
    replace (offsetToPointData h + (0 + Z.of_nat k * step) * pointDataRecordLength h)
      with (record_offset k) in Hread by (unfold record_offset; lia).
    split; [done|]. split; [by apply readRecord_offset in Hread|].
    split; [done|]. split; [done|]. exact Hentries.
Qed.

(** ** Colours of the retained points *)

(** C9: for a retained point of a colour-capable format whose colour block
    would end past the buffer, no colour byte is read, the point gets the
    elevation-gradient colour of its normalized elevation, and [parsePoints]
    returns normally (an out-of-bounds read would throw [RangeError]). *)
Theorem color_block_past_end (Math_cos : float -> float) (this : LASParser)
    (h : LASHeader) (j : nat) (pt : rawPoint) :
  parseHeader (buffer_of this) = Ok h ->
  0 < maxPoints this ->
  (rgbLayout (pointDataRecordFormat h)).1 = true ->
  retained this h !! j = Some pt ->
  byteLength (buffer_of this) < offset pt + (rgbLayout (pointDataRecordFormat h)).2 + 6 ->
  exists d pts,
    parsePoints Math_cos this h = Ok (d, pts) /\
    let c := elevationColor (normalizedElevation (tracked this h) pt) in
    colors pts !! (j * 3)%nat = Some (Num.fround (r c)) /\
    colors pts !! (j * 3 + 1)%nat = Some (Num.fround (g c)) /\
    colors pts !! (j * 3 + 2)%nat = Some (Num.fround (b c)).
Proof.
  intros Hhdr Hmax Hrgb Hj Hpast.
  pose proof (parseHeader_wf _ _ Hhdr) as [Hoff Hrec].
  destruct (parsePoints_spec Math_cos this h Hoff Hrec Hmax)
    as (d & out & Hrun & _ & _ & _ & _ & _ & _ & _ & _ & _ & Hpts).
  exists d, out. split; [done|].
  destruct (Hpts j pt Hj) as (c & Hc & _ & _ & _ & H4 & H5 & H6).
  rewrite pointColor_fallback in Hc by (by right).
  injection Hc as <-. done.
Qed.

(** The same fallback for a format without colour block (formats 0, 1, 4,
    6, 9): policy 1 of the colour inference. *)
Lemma color_without_block (Math_cos : float -> float) (this : LASParser)
    (h : LASHeader) (j : nat) (pt : rawPoint) :
  parseHeader (buffer_of this) = Ok h ->
  0 < maxPoints this ->
  (rgbLayout (pointDataRecordFormat h)).1 = false ->
  retained this h !! j = Some pt ->
  exists d pts,
    parsePoints Math_cos this h = Ok (d, pts) /\
    let c := elevationColor (normalizedElevation (tracked this h) pt) in
    colors pts !! (j * 3)%nat = Some (Num.fround (r c)) /\
    colors pts !! (j * 3 + 1)%nat = Some (Num.fround (g c)) /\
    colors pts !! (j * 3 + 2)%nat = Some (Num.fround (b c)).
Proof.
  intros Hhdr Hmax Hrgb Hj.
  pose proof (parseHeader_wf _ _ Hhdr) as [Hoff Hrec].
  destruct (parsePoints_spec Math_cos this h Hoff Hrec Hmax)
    as (d & out & Hrun & _ & _ & _ & _ & _ & _ & _ & _ & _ & Hpts).
  exists d, out. split; [done|].
  destruct (Hpts j pt Hj) as (c & Hc & _ & _ & _ & H4 & H5 & H6).
  rewrite pointColor_fallback in Hc by (by left).
  injection Hc as <-. done.
Qed.

(** C2 does not hold of the code: a retained point whose colour block lies
    inside the buffer and whose three channels are zero is stored grey,
    [(0.5, 0.5, 0.5)], the initial value of [r], [g], [b]; the test
    [r === 0 && g === 0 && b === 0] that would select the elevation gradient
    never succeeds, and no elevation-gradient colour equals that grey. *)
Lemma black_point_is_grey (Math_cos : float -> float) (this : LASParser)
    (h : LASHeader) (j : nat) (pt : rawPoint) :
  parseHeader (buffer_of this) = Ok h ->
  0 < maxPoints this ->
  (rgbLayout (pointDataRecordFormat h)).1 = true ->
  retained this h !! j = Some pt ->
  let rgbOffset := (rgbLayout (pointDataRecordFormat h)).2 in
  offset pt + rgbOffset + 6 <= byteLength (buffer_of this) ->
  getUint16 (buffer_of this) (offset pt + rgbOffset) = Ok 0 ->
  getUint16 (buffer_of this) (offset pt + rgbOffset + 2) = Ok 0 ->
  getUint16 (buffer_of this) (offset pt + rgbOffset + 4) = Ok 0 ->
  exists d pts,
    parsePoints Math_cos this h = Ok (d, pts) /\
    colors pts !! (j * 3)%nat = Some 0.5%float /\
    colors pts !! (j * 3 + 1)%nat = Some 0.5%float /\
    colors pts !! (j * 3 + 2)%nat = Some 0.5%float /\
    forall t : float,
      colors pts !! (j * 3)%nat <> Some (Num.fround (r (elevationColor t))) \/
      colors pts !! (j * 3 + 2)%nat <> Some (Num.fround (b (elevationColor t))).
Proof.
  intros Hhdr Hmax Hrgb Hj rgbOffset Hin Hred Hgreen Hblue.
  pose proof (parseHeader_wf _ _ Hhdr) as [Hoff Hrec].
  destruct (parsePoints_spec Math_cos this h Hoff Hrec Hmax)
    as (d & out & Hrun & _ & _ & _ & _ & _ & _ & _ & _ & _ & Hpts).
  exists d, out. split; [done|].
  destruct (Hpts j pt Hj) as (c & Hc & _ & _ & _ & H4 & H5 & H6).
  rewrite Hrgb in Hc. fold rgbOffset in Hc.
  rewrite pointColor_black in Hc by done. injection Hc as <-.
  simpl in H4, H5, H6.
  change (Num.fround 0.5) with 0.5%float in H4, H5, H6.
  repeat (split; [done|]).
  intros t. rewrite H4, H6.
  destruct (elevationColor_not_grey t) as [-> | ->]; [left | right];
    intros [= E]; apply (f_equal (fun x => PrimFloat.eqb x 0)) in E;
    vm_compute in E; discriminate.
Qed.

(** ** Projection *)

(** C5 (as amended): every retained point is projected to
    East = (lon - centerLon) * (111320 * cos(centerLat * pi/180)),
    North = (lat - centerLat) * 111320, Up = z - centerZ, stored as
    float32, where the center is the midpoint of the tracked minimum and
    maximum of each axis (the center of the bounding box), not the
    centroid. *)
Theorem projection_about_box_center (Math_cos : float -> float) (this : LASParser)
    (h : LASHeader) (j : nat) (pt : rawPoint) :
  parseHeader (buffer_of this) = Ok h ->
  0 < maxPoints this ->
  retained this h !! j = Some pt ->
  exists d pts,
    parsePoints Math_cos this h = Ok (d, pts) /\
    bounds_lon d = (minLon (tracked this h), maxLon (tracked this h)) /\
    bounds_lat d = (minLat (tracked this h), maxLat (tracked this h)) /\
    bounds_z d = (minZ (tracked this h), maxZ (tracked this h)) /\
    center_lon d = (((bounds_lon d).1 + (bounds_lon d).2) / 2)%float /\
    center_lat d = (((bounds_lat d).1 + (bounds_lat d).2) / 2)%float /\
    center_z d = (((bounds_z d).1 + (bounds_z d).2) / 2)%float /\
    positions pts !! (j * 3)%nat
      = Some (Num.fround ((lon pt - center_lon d)
                          * (111320 * Math_cos (center_lat d * (Num.Math_PI / 180))))%float) /\
    positions pts !! (j * 3 + 1)%nat
      = Some (Num.fround ((lat pt - center_lat d) * 111320)%float) /\
    positions pts !! (j * 3 + 2)%nat = Some (Num.fround (z pt - center_z d)%float).
Proof.
  intros Hhdr Hmax Hj.
  pose proof (parseHeader_wf _ _ Hhdr) as [Hoff Hrec].
  destruct (parsePoints_spec Math_cos this h Hoff Hrec Hmax)
    as (d & out & Hrun & _ & Hb1 & Hb2 & Hb3 & Hc1 & Hc2 & Hc3 & _ & _ & Hpts).
  exists d, out. split; [done|].
  destruct (Hpts j pt Hj) as (c & _ & H1 & H2 & H3 & _).
  rewrite Hb1, Hb2, Hb3, Hc1, Hc2, Hc3. simpl. repeat split; done.
Qed.

(** ** Parallel buffers *)

Lemma projectLoop_length proj col (pts : list rawPoint) :
  forall (i : nat) (positions colors positions' colors' : list float),
  projectLoop proj col pts i positions colors = Ok (positions', colors') ->
  length positions' = length positions /\ length colors' = length colors.
Proof.
  induction pts as [|pt rest IH]; intros i positions colors positions' colors' H.
  - by injection H as <- <-.
  - simpl in H. destruct (proj pt) as [[xMeters yMeters] zMeters].
    inv_bind H. apply IH in H. rewrite !length_insert in H. done.
Qed.

Lemma parsePoints_lengths (Math_cos : float -> float) (this : LASParser)
    (h : LASHeader) (d : LASDerived) (pts : LASPoints) :
  parsePoints Math_cos this h = Ok (d, pts) ->
  Z.of_nat (length (positions pts)) = 3 * loadedPoints d /\
  Z.of_nat (length (colors pts)) = 3 * loadedPoints d.
Proof.
  unfold parsePoints. destruct (rgbLayout _) as [hasRGB rgbOffset].
  intros H. inv_bind H. destruct v as [rawPoints e].
  inv_bind H. destruct v as [positions' colors'].
  injection H as <- <-. simpl.
  apply projectLoop_length in Hv0. rewrite !length_replicate in Hv0. lia.
Qed.


Section SlicerBuffers.

Import Slicer.

Lemma fillSolid_length (c : Color) (n : nat) :
  forall (i : nat) (newColors : list float),
  length (fillSolid c n i newColors) = length newColors.
Proof.
  induction n as [|n IH]; intros i newColors; simpl; [done|].
  rewrite IH, !length_insert. done.
Qed.

Lemma filterLoop_lengths pointColor originalPositions originalColors
    xMin xMax yMin yMax zMin zMax cosR sinR (n : nat) :
  forall (i : nat) (fp fc : list float),
  exists kept : nat,
    length (filterLoop pointColor originalPositions originalColors
              xMin xMax yMin yMax zMin zMax cosR sinR n i fp fc).1
      = (length fp + 3 * kept)%nat /\
    length (filterLoop pointColor originalPositions originalColors
              xMin xMax yMin yMax zMin zMax cosR sinR n i fp fc).2
      = (length fc + 3 * kept)%nat.
Proof.
  induction n as [|n IH]; intros i fp fc; simpl.
  - exists 0%nat. lia.
  - destruct (_ && _).
    + destruct pointColor as [|c];
        match goal with
        | |- context [filterLoop _ _ _ _ _ _ _ _ _ _ _ _ _ ?p ?q] =>
          destruct (IH (S i) p q) as (kept & -> & ->)
        end; exists (S kept); rewrite !length_app; simpl; lia.
    + apply IH.
Qed.

Lemma applySlice_originals Math_cos Math_sin state pointColor rotationZ current :
  originalPositions (applySlice Math_cos Math_sin state pointColor rotationZ current)
    = originalPositions current /\
  originalColors (applySlice Math_cos Math_sin state pointColor rotationZ current)
    = originalColors current.
Proof.
  unfold applySlice.
  destruct (points current) as [geometry|]; [|done].
  destruct (originalPositions current) as [op|] eqn:E; [|by rewrite E].
  destruct (negb (enabled state)).
  - destruct (negb _); [done | by rewrite E].
  - destruct (filterLoop _ _ _ _ _ _ _ _ _ _ _ _ _ _ _). done.
Qed.

Lemma applySlice_parallel Math_cos Math_sin state pointColor rotationZ current :
  originals_parallel current ->
  geometry_parallel current ->
  geometry_parallel (applySlice Math_cos Math_sin state pointColor rotationZ current).
Proof.
  unfold originals_parallel, geometry_parallel, applySlice.
  destruct (points current) as [geometry|] eqn:Hg; [|by rewrite Hg].
  destruct (originalPositions current) as [op|]; [|by rewrite Hg].
  intros Horig Hgeo.
  destruct (negb (enabled state)).
  - destruct (negb _); [|by rewrite Hg]. simpl.
    destruct pointColor as [|c]; [done|].
    by rewrite fillSolid_length, length_replicate.
  - match goal with
    | |- context [filterLoop ?a ?b ?c ?d ?e ?f ?g ?x ?y ?z ?w ?n ?i ?p ?q] =>
      destruct (filterLoop_lengths a b c d e f g x y z w n i p q) as (kept & H1 & H2);
      destruct (filterLoop a b c d e f g x y z w n i p q) as [fp fc]
    end.
    simpl in *. rewrite !length_map. lia.
Qed.

(** C10: the arrays [parsePoints] returns hold [3 * loadedPoints] entries
    each; with these as the stored originals, every [applySlice] (filter
    applied, or full restore, or nothing to do) leaves the geometry with
    position and colour buffers of equal length and leaves the originals
    untouched, so the same holds after any number of recomputes. *)
Theorem buffers_stay_parallel (Math_cos Math_sin : float -> float)
    (this : LASParser) (h : LASHeader) (d : LASDerived) (pts : LASPoints)
    (state : SlicerState) (pointColor : PointColor) (rotationZ : float)
    (current : ThreeRef) :
  parsePoints Math_cos this h = Ok (d, pts) ->
  originalPositions current = Some (positions pts) ->
  originalColors current = colors pts ->
  geometry_parallel current ->
  let current' := applySlice Math_cos Math_sin state pointColor rotationZ current in
  Z.of_nat (length (positions pts)) = 3 * loadedPoints d /\
  Z.of_nat (length (colors pts)) = 3 * loadedPoints d /\
  geometry_parallel current' /\
  originalPositions current' = Some (positions pts) /\
  originalColors current' = colors pts.
Proof.
  intros Hparse Hop Hoc Hgeo current'.
  destruct (parsePoints_lengths _ _ _ _ _ Hparse) as [Hp Hc].
  split; [done|]. split; [done|]. split.
  - apply applySlice_parallel; [|done].
    unfold originals_parallel. rewrite Hop, Hoc. lia.
  - subst current'.
    destruct (applySlice_originals Math_cos Math_sin state pointColor rotationZ current)
      as [-> ->]. done.
Qed.

End SlicerBuffers.

(** ** Slice ranges *)

Section SliceRanges.

Import Slicer.

Lemma onChangeMin_ok (slice : SliceRange) (v : Z) :
  range_ok (onChangeMin slice v) /\
  max (onChangeMin slice v) = max slice /\
  (v < max slice -> min (onChangeMin slice v) = v) /\
  (max slice <= v -> min (onChangeMin slice v) = max slice - 1).
Proof. unfold range_ok, onChangeMin. simpl. lia. Qed.

Lemma onChangeMax_ok (slice : SliceRange) (v : Z) :
  range_ok (onChangeMax slice v) /\
  min (onChangeMax slice v) = min slice /\
  (min slice < v -> max (onChangeMax slice v) = v) /\
  (v <= min slice -> max (onChangeMax slice v) = min slice + 1).
Proof. unfold range_ok, onChangeMax. simpl. lia. Qed.

Lemma dispatch_update_ranges_ok (rendered state : SlicerState) (u : update) :
  ranges_ok state -> ranges_ok (dispatch_update rendered state u).
Proof.
  unfold ranges_ok. intros (Hx & Hy & Hz).
  destruct u as [a v | a v | | | px py pz | px py pz]; simpl;
    try (destruct a; simpl); repeat split;
    try done; try apply onChangeMin_ok; try apply onChangeMax_ok;
    unfold range_ok; simpl; lia.
Qed.

(** From the initial state, any sequence of updates keeps the three ranges
    ordered. *)
Lemma run_ranges_ok (us : list update) :
  forall state : SlicerState, ranges_ok state -> ranges_ok (run state us).
Proof.
  induction us as [|u us IH]; intros state Hs; simpl; [done|].
  apply IH. by apply dispatch_update_ranges_ok.
Qed.

Lemma initialState_ranges_ok : ranges_ok initialState.
Proof. unfold ranges_ok, range_ok. simpl. lia. Qed.

(** C6: every update the application makes to the slice state keeps
    [min < max] on the three axes.  A slider write is clamped against the
    other bound of the range the panel was rendered with: the written range
    is ordered whatever the slider value, a value that would reach or cross
    the other bound leaving a gap of exactly 1; resets and initialization
    store [0..100]. *)
Theorem slice_range_invariant (rendered state : SlicerState) (u : update) :
  ranges_ok state ->
  ranges_ok (dispatch_update rendered state u) /\
  (forall a v, u = MinSlider a v ->
     let written := range_of (dispatch_update rendered state u) a in
     written = onChangeMin (range_of rendered a) v /\
     min written < max written /\
     (max (range_of rendered a) <= v -> max written - min written = 1)) /\
  (forall a v, u = MaxSlider a v ->
     let written := range_of (dispatch_update rendered state u) a in
     written = onChangeMax (range_of rendered a) v /\
     min written < max written /\
     (v <= min (range_of rendered a) -> max written - min written = 1)).
Proof.
  intros Hs. split; [by apply dispatch_update_ranges_ok|].
  split; intros a v -> written; subst written; destruct a; simpl;
    (split; [done|]); lia.
Qed.

Lemma slice_range_invariant_witness :
  ranges_ok initialState /\
  ranges_ok (dispatch_update initialState initialState (MinSlider AxisX 150)) /\
  x (dispatch_update initialState initialState (MinSlider AxisX 150))
    = {| min := 99; max := 100 |}.
Proof.
  assert (H0 : ranges_ok initialState) by (unfold ranges_ok, range_ok; simpl; lia).
  split; [exact H0|].
  split; [|reflexivity].
  exact (proj1 (slice_range_invariant initialState initialState (MinSlider AxisX 150) H0)).
Defined.

End SliceRanges.

(** ** Compressed-stream decoder *)


Lemma clearCompression_bits (x : byte) :
  Z.testbit (byte_to_Z (clearCompression x)) 7 = false /\
  Z.testbit (byte_to_Z (clearCompression x)) 6 = false /\
  forall k, 0 <= k < 6 ->
    Z.testbit (byte_to_Z (clearCompression x)) k = Z.testbit (byte_to_Z x) k.
Proof.
  split; [by destruct x|]. split; [by destruct x|].
  intros k Hk.
  assert (Hc : k = 0 \/ k = 1 \/ k = 2 \/ k = 3 \/ k = 4 \/ k = 5) by lia.
  destruct Hc as [-> | [-> | [-> | [-> | [-> | ->]]]]]; by destruct x.
Qed.

Lemma heap_view_length (hp : heap) (ptr : Z) (len : nat) :
  length (heap_view hp ptr len) = len.
Proof. unfold heap_view. by rewrite length_map, length_seq. Qed.

Lemma typed_set_Ok (dst src out : list byte) (off : nat) :
  typed_set dst src off = Ok out ->
  (off + length src <= length dst)%nat /\
  out = take off dst ++ src ++ drop (off + length src) dst.
Proof.
  unfold typed_set. destruct (Nat.ltb_spec (length dst) (off + length src)); [done|].
  intros [= <-]. done.
Qed.

Lemma stagedRecords_lengths (module : LazPerf) (ptr : Z) (len n : nat) :
  forall (o : LASZip module) (hp : heap) (recs : list (list byte)),
  stagedRecords module o hp ptr len n = Ok recs ->
  length recs = n /\ Forall (fun rc => length rc = len) recs.
Proof.
  induction n as [|n IH]; intros o hp recs H; simpl in H.
  - by injection H as <-.
  - destruct (LASZip_getPoint module o hp ptr) as [[o' hp']|]; [|done]. simpl in H.
    inv_bind H. injection H as <-. apply IH in Hv as [<- Hall].
    split; [done|]. constructor; [apply heap_view_length | done].
Qed.

Lemma concat_length_uniform (len : nat) (recs : list (list byte)) :
  Forall (fun rc => length rc = len) recs ->
  length (concat recs) = (length recs * len)%nat.
Proof.
  induction 1 as [|rc recs Hrc _ IH]; simpl; [done|].
  rewrite length_app, IH, Hrc. done.
Qed.

(** Record [i] of a concatenation of records of one length. *)
Lemma concat_record (len : nat) (recs : list (list byte)) :
  Forall (fun rc => length rc = len) recs ->
  forall (i : nat) (rc : list byte) (pre post : list byte),
  recs !! i = Some rc ->
  take len (drop (length pre + i * len) (pre ++ concat recs ++ post)) = rc.
Proof.
  induction 1 as [|rc0 recs Hrc0 Hall IH]; intros i rc pre post Hi; [done|].
  destruct i as [|i]; simpl in Hi.
  - injection Hi as <-. rewrite Nat.add_0_r, drop_app_length. simpl.
    rewrite <- app_assoc, take_app_length'; done.
  - simpl. specialize (IH i rc (pre ++ rc0) post Hi).
    rewrite length_app, Hrc0, <- !app_assoc in IH.
    replace (length pre + (len + i * len))%nat with (length pre + len + i * len)%nat by lia.
    by rewrite <- app_assoc.
Qed.

Lemma typed_set_take (dst src out : list byte) (off : nat) :
  typed_set dst src off = Ok out ->
  (off + length src <= length dst)%nat /\
  length out = length dst /\
  take (off + length src) out = take off dst ++ src /\
  forall k : nat, drop (off + length src + k) out = drop (off + length src + k) dst.
Proof.
  intros H. apply typed_set_Ok in H as [Hle ->].
  assert (Hpre : length (take off dst ++ src) = (off + length src)%nat).
  { rewrite length_app, length_take. lia. }
  split; [done|]. split; [|split].
  - rewrite !length_app, length_take, length_drop. lia.
  - rewrite app_assoc, <- Hpre. apply take_app_length.
  - intros k. rewrite app_assoc, <- Hpre, <- drop_drop, drop_app_length.
    rewrite drop_drop, Hpre. done.
Qed.

Section PointLoop.

Variable module : LazPerf.

(** A point loop that completes has staged [n] records and written them
    one after the other from [offsetToPointData + i * pointLength] on; it
    allocates and frees nothing. *)
Lemma pointLoop_Ok (id : nat) (ptr : Z) (len off : nat) (n : nat) :
  forall (i : nat) (out out' : list byte) (m m' : machine module) (o : LASZip module),
  objects module m !! id = Some o ->
  pointLoop module id ptr len off n i out m = (Ok out', m') ->
  exists recs,
    stagedRecords module o (HEAPU8 module m) ptr len n = Ok recs /\
    length out' = length out /\
    out' = take (off + i * len) out ++ concat recs ++ drop (off + (i + n) * len) out /\
    (n <> 0%nat -> off + (i + n) * len <= length out)%nat /\
    blocks module m' = blocks module m /\
    laszip module m' = laszip module m.
Proof.
  induction n as [|n IH]; intros i out out' m m' o Ho H; simpl in H.
  - injection H as <- <-. exists []. simpl.
    rewrite Nat.add_0_r, take_drop. done.
  - unfold mbind at 1, laszip_getPoint, with_object in H. rewrite Ho in H.
    simpl.
    destruct (LASZip_getPoint module o (HEAPU8 module m) ptr) as [[o' hp']|e];
      [|done].
    unfold update_object in H.
    unfold mbind at 1, read_heap in H. simpl in H.
    unfold mbind at 1, lift in H.
    destruct (typed_set out (heap_view hp' ptr len) (off + i * len)) as [out1|e]
      eqn:Hset; [|done].
    eapply IH in H; [|simpl; apply lookup_insert_eq].
    destruct H as (recs & Hrecs & Hlen & -> & Hbound & Hb & Hl). simpl in *.
    apply typed_set_take in Hset as (Hfit & Hlen1 & Htake & Hdrop).
    rewrite heap_view_length in Hfit, Htake, Hdrop.
    exists (heap_view hp' ptr len :: recs). rewrite Hrecs. split; [done|].
    split; [lia|]. split.
    + replace (off + (len + i * len))%nat with (off + i * len + len)%nat by lia.
      rewrite Htake.
      replace (off + (len + (i + n) * len))%nat
        with (off + i * len + len + n * len)%nat by lia.
      rewrite Hdrop. simpl. rewrite <- !app_assoc.
      replace (off + (i + S n) * len)%nat with (off + i * len + len + n * len)%nat by lia.
      done.
    + split; [|done]. intros _.
      destruct n as [|n].
      * lia.
      * specialize (Hbound ltac:(lia)). lia.
Qed.

End PointLoop.

(** C3: a successful [decompressLaz] returns the first [offsetToPointData]
    bytes of the input, the byte at offset 104 with its top two bits
    cleared, followed by the records the engine staged, [pointCount] of
    them, each [pointLength] bytes long, record [i] at byte offset
    [offsetToPointData + i * pointLength]. *)
Theorem decompressed_layout (module : LazPerf) (lazBuffer : buffer)
    (m : machine module) (out : buffer) :
  (decompressLaz module lazBuffer m).1 = Ok out ->
  exists (h : LASHeader) (o1 : LASZip module) (recs : list (list byte)) (format : byte),
    readLazHeader lazBuffer = Ok h /\
    lazBuffer !! 104%nat = Some format /\
    let off := Z.to_nat (offsetToPointData h) in
    let filePtr := brk module m in
    let hp := heap_set (HEAPU8 module m) lazBuffer filePtr in
    let pointPtr := filePtr + Z.of_nat (S (length lazBuffer)) in
    LASZip_open module (LASZip_new module) hp filePtr (byteLength lazBuffer) = Ok o1 /\
    let pointCount := LASZip_getCount module o1 in
    let pointLength := LASZip_getPointLength module o1 in
    stagedRecords module o1 hp pointPtr pointLength pointCount = Ok recs /\
    (off <= length lazBuffer)%nat /\
    length out = (off + pointCount * pointLength)%nat /\
    out = <[104%nat := clearCompression format]> (take off lazBuffer) ++ concat recs /\
    (forall k : nat, (k < off)%nat -> k <> 104%nat -> out !! k = lazBuffer !! k) /\
    ((104 < off)%nat -> out !! 104%nat = Some (clearCompression format)) /\
    Z.testbit (byte_to_Z (clearCompression format)) 7 = false /\
    Z.testbit (byte_to_Z (clearCompression format)) 6 = false /\
    (forall (i : nat) (rc : list byte), recs !! i = Some rc ->
       length rc = pointLength /\
       take pointLength (drop (off + i * pointLength) out) = rc).
Proof.
  intros H. unfold decompressLaz in H.
  unfold mbind at 1, lift at 1 in H.
  destruct (readLazHeader lazBuffer) as [h|e] eqn:Hhdr; [|done].
  unfold mbind at 1, new_LASZip at 1 in H.
  unfold mbind at 1, _malloc at 1 in H.
  unfold mbind at 1, HEAPU8_set at 1 in H.
  unfold try_finally in H.
  match type of H with
  | context [let '(x, m') := ?body in _] => destruct body as [x m'] eqn:Hbody
  end.
  assert (Hx : x = Ok out).
  { destruct (mbind _ _ _ m') as [[[]|e] m'']; simpl in H; [done | discriminate]. }
  subst x. clear H.
  unfold mbind at 1, new_LASZip at 1 in Hbody.
  unfold mbind at 1, assign_laszip at 1 in Hbody.
  cbn [HEAPU8 blocks brk objects nextObject laszip] in Hbody.
  unfold mbind at 1, try_catch, laszip_open, with_object in Hbody.
  cbn [HEAPU8 blocks brk objects nextObject laszip] in Hbody.
  rewrite lookup_insert_eq in Hbody.
  destruct (LASZip_open module (LASZip_new module) _ _ _) as [o1|e] eqn:Hopen;
    [|done].
  unfold update_object in Hbody.
  cbn [HEAPU8 blocks brk objects nextObject laszip] in Hbody.
  unfold mbind at 1, laszip_getCount, with_object in Hbody.
  cbn [HEAPU8 blocks brk objects nextObject laszip] in Hbody.
  rewrite lookup_insert_eq in Hbody.
  unfold mret at 1 in Hbody.
  unfold mbind at 1, laszip_getPointLength, with_object in Hbody.
  cbn [HEAPU8 blocks brk objects nextObject laszip] in Hbody.
  rewrite lookup_insert_eq in Hbody.
  unfold mret at 1 in Hbody.
  unfold mbind at 1, lift at 1 in Hbody.
  destruct (subarray0 lazBuffer _) as [headerView|e] eqn:Hsub; [|done].
  unfold mbind at 1, lift at 1 in Hbody.
  destruct (typed_set _ headerView 0) as [outputView|e] eqn:Hset; [|done].
  unfold mbind at 1, lift at 1 in Hbody.
  destruct (getUint8 outputView 104) as [originalFormat|e] eqn:Hfmt; [|done].
  unfold mbind at 1, _malloc at 1 in Hbody.
  cbn [HEAPU8 blocks brk objects nextObject laszip] in Hbody.
  unfold mbind at 1 in Hbody.
  match type of Hbody with
  | context [pointLoop ?a ?b ?c ?d ?e ?f ?g ?h ?i] =>
    destruct (pointLoop a b c d e f g h i) as [[out'|e'] m1] eqn:Hloop; [|done]
  end.
  assert (Hout : out = out').
  { unfold mbind, _free, mret in Hbody. by injection Hbody as -> _. }
  subst out'. clear Hbody.
  eapply pointLoop_Ok in Hloop; [|simpl; apply lookup_insert_eq].
  destruct Hloop as (recs & Hrecs & Hlen & Hform & _ & _ & _).
  cbn [HEAPU8] in Hrecs.
  (* the header view and the zero-filled output *)
  unfold subarray0 in Hsub.
  destruct (Nat.ltb_spec (length lazBuffer) (Z.to_nat (offsetToPointData h)))
    as [|Hoff]; [done|].
  injection Hsub as <-.
  apply typed_set_Ok in Hset as [_ Hview].
  rewrite length_take_le in Hview by done.
  rewrite take_0, app_nil_l, Nat.add_0_l, drop_replicate_add in Hview.
  set (off := Z.to_nat (offsetToPointData h)) in *.
  set (pointCount := LASZip_getCount module o1) in *.
  set (pointLength := LASZip_getPointLength module o1) in *.
  assert (Hlv : length outputView = (off + pointCount * pointLength)%nat).
  { rewrite Hview, length_app, length_take_le, length_replicate; done. }
  rewrite length_insert in Hlen.
  (* the format byte *)
  pose proof (proj2 (parseHeader_readLazHeader _ _) Hhdr) as Hinv.
  apply parseHeader_inv in Hinv.
  destruct Hinv as (_ & _ & _ & _ & _ & H104 & _).
  destruct (getUint8_ok lazBuffer 104) as (format & Hformat & _).
  { apply getUint8_inv in H104. lia. }
  change (Z.to_nat 104) with 104%nat in Hformat.
  assert (Hhead : take off (<[104%nat := byte_of_Z (Z.land originalFormat 63)]> outputView)
                  = <[104%nat := clearCompression format]> (take off lazBuffer)).
  { destruct (Nat.lt_ge_cases 104 off) as [Hlt | Hge].
    - rewrite take_insert_lt by done.
      rewrite Hview, take_app_length' by (by rewrite length_take_le).
      f_equal. unfold clearCompression. f_equal. f_equal.
      unfold getUint8 in Hfmt. simpl in Hfmt.
      change (Z.to_nat 104) with 104%nat in Hfmt.
      rewrite Hview, lookup_app_l, lookup_take_lt, Hformat in Hfmt
        by (rewrite ?length_take_le; done).
      by injection Hfmt as <-.
    - rewrite take_insert_ge by done.
      rewrite Hview, take_app_length' by (by rewrite length_take_le).
      rewrite list_insert_ge; [done|]. by rewrite length_take_le. }
  rewrite Nat.mul_0_l, Nat.add_0_r, Hhead in Hform.
  rewrite drop_ge, app_nil_r in Hform by (rewrite length_insert; lia).
  destruct (stagedRecords_lengths _ _ _ _ _ _ _ Hrecs) as [Hn Hall].
  assert (Hpre : length (<[104%nat := clearCompression format]> (take off lazBuffer)) = off).
  { by rewrite length_insert, length_take_le. }
  exists h, o1, recs, format.
  split; [done|]. split; [done|]. cbv zeta.
  fold off pointCount pointLength.
  split; [done|]. split; [done|]. split; [done|]. split; [lia|].
  split; [done|]. split; [|split; [|split; [|split]]].
  - intros k Hk Hne. rewrite Hform, lookup_app_l by lia.
    rewrite list_lookup_insert_ne by done. by apply lookup_take_lt.
  - intros Hlt. rewrite Hform, lookup_app_l by lia.
    apply list_lookup_insert_eq. rewrite length_take_le; done.
  - apply clearCompression_bits.
  - apply clearCompression_bits.
  - intros i rc Hi. split.
    + eapply Forall_lookup_1 in Hall; [|exact Hi]. done.
    + pose proof (concat_record pointLength recs Hall i rc
                    (<[104%nat := clearCompression format]> (take off lazBuffer)) []
                    Hi) as Hrc.
      by rewrite Hpre, app_nil_r, <- Hform in Hrc.
Qed.

(** ** Release of engine resources *)

Section PointLoopThrow.

Variable module : LazPerf.

(** A [getPoint] that throws ends the loop with that exception; nothing
    is freed on the way out. *)
Lemma pointLoop_Throw (id : nat) (ptr : Z) (len off : nat) (n : nat) :
  forall (i : nat) (out : list byte) (m : machine module) (o : LASZip module) (e : exn),
  objects module m !! id = Some o ->
  stagedRecords module o (HEAPU8 module m) ptr len n = Throw e ->
  (off + (i + n) * len <= length out)%nat ->
  exists m',
    pointLoop module id ptr len off n i out m = (Throw e, m') /\
    blocks module m' = blocks module m /\
    laszip module m' = laszip module m /\
    forall id' : nat, id' <> id -> objects module m' !! id' = objects module m !! id'.
Proof.
  induction n as [|n IH]; intros i out m o e Ho H Hfit; simpl in H; [done|].
  simpl. unfold mbind at 1, laszip_getPoint, with_object. rewrite Ho.
  destruct (LASZip_getPoint module o (HEAPU8 module m) ptr) as [[o' hp']|e0] eqn:Hget.
  - simpl in H. unfold update_object. unfold mbind at 1, read_heap. simpl.
    unfold mbind at 1, lift.
    destruct (typed_set out (heap_view hp' ptr len) (off + i * len)) as [out1|e1] eqn:Hset.
    + apply typed_set_take in Hset as (_ & Hlen1 & _).
      destruct (stagedRecords module o' hp' ptr len n) as [recs|e2] eqn:Hrest;
        [done|]. injection H as <-.
      edestruct (IH (S i) out1) as (m' & -> & Hb & Hl & Hobj);
        [simpl; apply lookup_insert_eq | exact Hrest | lia |].
      exists m'. split; [done|]. split; [done|]. split; [done|].
      intros id' Hne. rewrite Hobj by done. simpl.
      by rewrite lookup_insert_ne.
    + exfalso. unfold typed_set in Hset. rewrite heap_view_length in Hset.
      destruct (Nat.ltb_spec (length out) (off + i * len + len)); [lia | done].
  - injection H as <-. eauto.
Qed.

End PointLoopThrow.

(** C7 does not hold of the code.  What [decompressLaz] leaves behind when
    the engine throws while points are being decompressed: the exception is propagated, the file copy is
    freed and the engine object of the [try] block is deleted, but the
    one-record staging buffer is still allocated (it is freed only after the
    loop), and so is the [LASZip] object created before the [try]. *)
Theorem staging_buffer_not_freed (module : LazPerf) (lazBuffer : buffer)
    (m : machine module) (h : LASHeader) (o1 : LASZip module) (e : exn) :
  let off := Z.to_nat (offsetToPointData h) in
  let filePtr := brk module m in
  let hp := heap_set (HEAPU8 module m) lazBuffer filePtr in
  let pointPtr := filePtr + Z.of_nat (S (length lazBuffer)) in
  let pointCount := LASZip_getCount module o1 in
  let pointLength := LASZip_getPointLength module o1 in
  readLazHeader lazBuffer = Ok h ->
  LASZip_open module (LASZip_new module) hp filePtr (byteLength lazBuffer) = Ok o1 ->
  (off <= length lazBuffer)%nat ->
  (104 < off + pointCount * pointLength)%nat ->
  stagedRecords module o1 hp pointPtr pointLength pointCount = Throw e ->
  exists m',
    decompressLaz module lazBuffer m = (Throw e, m') /\
    blocks module m' !! filePtr = None /\
    objects module m' !! S (nextObject module m) = None /\
    blocks module m' !! pointPtr = Some pointLength /\
    objects module m' !! nextObject module m = Some (LASZip_new module).
Proof.
  intros off filePtr hp pointPtr pointCount pointLength Hhdr Hopen Hoff H104 Hthrow.
  unfold decompressLaz.
  unfold mbind at 1, lift at 1. rewrite Hhdr.
  unfold mbind at 1, new_LASZip at 1.
  unfold mbind at 1, _malloc at 1.
  unfold mbind at 1, HEAPU8_set at 1.
  unfold try_finally.
  unfold mbind at 1, new_LASZip at 1.
  unfold mbind at 1, assign_laszip at 1.
  cbn [HEAPU8 blocks brk objects nextObject laszip].
  unfold mbind at 1, try_catch, laszip_open, with_object.
  cbn [HEAPU8 blocks brk objects nextObject laszip].
  rewrite lookup_insert_eq. fold filePtr hp. rewrite Hopen.
  unfold update_object.
  cbn [HEAPU8 blocks brk objects nextObject laszip].
  unfold mbind at 1, laszip_getCount, with_object.
  cbn [HEAPU8 blocks brk objects nextObject laszip].
  rewrite lookup_insert_eq. unfold mret at 1.
  unfold mbind at 1, laszip_getPointLength, with_object.
  cbn [HEAPU8 blocks brk objects nextObject laszip].
  rewrite lookup_insert_eq. unfold mret at 1.
  fold off pointCount pointLength.
  unfold mbind at 1, lift at 1, subarray0.
  destruct (Nat.ltb_spec (length lazBuffer) off); [lia|].
  unfold mbind at 1, lift at 1, typed_set.
  rewrite length_replicate, length_take_le by done.
  destruct (Nat.ltb_spec (off + pointCount * pointLength) (0 + off)); [lia|].
  rewrite take_0, app_nil_l, Nat.add_0_l, drop_replicate_add.
  unfold mbind at 1, lift at 1.
  destruct (getUint8_ok (take off lazBuffer ++ replicate (pointCount * pointLength) x00) 104)
    as (x104 & _ & ->).
  { unfold byteLength. rewrite length_app, length_take_le, length_replicate; lia. }
  unfold mbind at 1, _malloc at 1.
  cbn [HEAPU8 blocks brk objects nextObject laszip].
  fold pointPtr.
  unfold mbind at 1.
  match goal with
  | |- context [pointLoop ?a ?b ?c ?d ?f ?g ?i ?j ?k] =>
    destruct (pointLoop_Throw a b c d f g i j k o1 e) as (m1 & -> & Hb & Hl & Hobj)
  end.
  { simpl. apply lookup_insert_eq. }
  { exact Hthrow. }
  { rewrite length_insert, length_app, length_take_le, length_replicate; lia. }
  unfold mbind at 1, read_laszip. rewrite Hl.
  cbn [HEAPU8 blocks brk objects nextObject laszip].
  unfold mbind, delete_object, _free.
  eexists. split; [reflexivity|].
  cbn [HEAPU8 blocks brk objects nextObject laszip].
  rewrite Hb. cbn [HEAPU8 blocks brk objects nextObject laszip].
  split; [apply lookup_delete_eq|].
  split; [apply lookup_delete_eq|].
  split.
  - rewrite lookup_delete_ne by (unfold pointPtr; lia). apply lookup_insert_eq.
  - rewrite lookup_delete_ne by lia. rewrite Hobj by lia.
    cbn [objects]. rewrite !lookup_insert_ne by lia. apply lookup_insert_eq.
Qed.

(** ** The properties on sample files *)

Lemma subsampling_stride_witness :
  let this := new_LASParser Sample.five_points (Some 2) in
  exists d pts,
    parsePoints Sample.cos_at_equator this (Sample.parsed12 5) = Ok (d, pts) /\
    stride 5 2 = 3 /\ loadedPoints d = 2.
Proof.
  intros this.
  destruct (subsampling_stride Sample.cos_at_equator this (Sample.parsed12 5))
    as (_ & _ & d & pts & Hrun & Hloaded & _).
  - vm_compute. reflexivity.
  - simpl. lia.
  - simpl. lia.
  - vm_compute. discriminate.
  - exists d, pts. split; [exact Hrun|]. split; [reflexivity|].
    rewrite Hloaded. vm_compute. reflexivity.
Defined.

Lemma partial_file_tolerance_witness :
  let this := new_LASParser Sample.cut_after_two None in
  exists d pts,
    parsePoints Sample.cos_at_equator this (Sample.parsed12 3) = Ok (d, pts) /\
    numberOfPoints (Sample.parsed12 3) = 3 /\ loadedPoints d = 2 /\
    length (positions pts) = 6%nat /\
    positions pts !! 3%nat = Some 111320%float /\
    colors pts !! 4%nat = Some 1%float.
Proof.
  intros this.
  destruct (partial_file_tolerance Sample.cos_at_equator this (Sample.parsed12 3) 2)
    as (_ & d & pts & Hrun & Hloaded & _ & Hpos & _ & Hall).
  - vm_compute. reflexivity.
  - simpl. lia.
  - vm_compute. reflexivity.
  - intros k Hk.
    assert (k = 0%nat \/ k = 1%nat) as [-> | ->] by lia; vm_compute; discriminate.
  - vm_compute. reflexivity.
  - vm_compute. reflexivity.
  - exists d, pts. split; [exact Hrun|]. split; [reflexivity|].
    split; [exact Hloaded|]. split; [exact Hpos|].
    destruct (Hall 1%nat ltac:(lia))
      as (pt & c & _ & _ & Hread & Hc & Hx & _ & _ & _ & Hg & _).
    vm_compute in Hread. injection Hread as <-.
    vm_compute in Hc. injection Hc as <-.
    cbn [Nat.mul Nat.add] in Hx, Hg.
    split.
    + rewrite Hx. vm_compute. reflexivity.
    + rewrite Hg. vm_compute. reflexivity.
Defined.

Lemma color_block_past_end_witness :
  let this := new_LASParser Sample.cut_color None in
  exists d pts,
    parsePoints Sample.cos_at_equator this (Sample.parsed12 1) = Ok (d, pts) /\
    byteLength Sample.cut_color = 247 /\
    colors pts !! 0%nat = Some 0%float /\
    colors pts !! 1%nat = Some 0%float /\
    colors pts !! 2%nat = Some 1%float.
Proof.
  intros this.
  destruct (color_block_past_end Sample.cos_at_equator this (Sample.parsed12 1) 0
              (LASParser.Build_rawPoint 1 2 3 227))
    as (d & pts & Hrun & H0 & H1 & H2).
  - vm_compute. reflexivity.
  - simpl. lia.
  - reflexivity.
  - vm_compute. reflexivity.
  - vm_compute. reflexivity.
  - exists d, pts. split; [exact Hrun|]. split; [reflexivity|].
    split; [exact H0|]. split; [exact H1 | exact H2].
Defined.

Lemma black_point_is_grey_witness :
  let this := new_LASParser Sample.black_cloud None in
  exists d pts,
    parsePoints Sample.cos_at_equator this (Sample.parsed12 2) = Ok (d, pts) /\
    colors pts !! 3%nat = Some 0.5%float /\
    colors pts !! 4%nat = Some 0.5%float /\
    colors pts !! 5%nat = Some 0.5%float.
Proof.
  intros this.
  destruct (black_point_is_grey Sample.cos_at_equator this (Sample.parsed12 2) 1
              (LASParser.Build_rawPoint 0 0 10 253))
    as (d & pts & Hrun & H3 & H4 & H5 & _).
  - vm_compute. reflexivity.
  - simpl. lia.
  - reflexivity.
  - vm_compute. reflexivity.
  - vm_compute. discriminate.
  - vm_compute. reflexivity.
  - vm_compute. reflexivity.
  - vm_compute. reflexivity.
  - exists d, pts. split; [exact Hrun|]. split; [exact H3|].
    split; [exact H4 | exact H5].
Defined.

(** The whole of [parse] on [Sample.black_cloud]: both points come out
    grey, where the elevation gradient would give blue at elevation 0 and
    red at elevation 10. *)
Example black_cloud_colors :
  exists data,
    parse Sample.cos_at_equator (new_LASParser Sample.black_cloud None) = Ok data /\
    colors (LASParser.points data)
      = [0.5%float; 0.5%float; 0.5%float; 0.5%float; 0.5%float; 0.5%float] /\
    elevationColor 0 = RGB 0 0 1 /\
    elevationColor 1 = RGB 1 0 0.
Proof.
  eexists. split; [vm_compute; reflexivity|].
  split; [reflexivity|]. split; vm_compute; reflexivity.
Qed.

Lemma projection_about_box_center_witness :
  let this := new_LASParser Sample.three_heights None in
  exists d pts,
    parsePoints Sample.cos_at_equator this (Sample.parsed12 3) = Ok (d, pts) /\
    center_z d = 1.5%float /\
    positions pts !! 8%nat = Some 1.5%float.
Proof.
  intros this.
  destruct (projection_about_box_center Sample.cos_at_equator this (Sample.parsed12 3) 2
              (LASParser.Build_rawPoint 0 0 3 279))
    as (d & pts & Hrun & _ & _ & Hb & _ & _ & Hc & _ & _ & Hup).
  - vm_compute. reflexivity.
  - simpl. lia.
  - vm_compute. reflexivity.
  - exists d, pts. split; [exact Hrun|].
    assert (Hcz : center_z d = 1.5%float).
    { rewrite Hc, Hb. vm_compute. reflexivity. }
    split; [exact Hcz|]. change (2 * 3 + 2)%nat with 8%nat in Hup.
    rewrite Hup, Hcz. vm_compute. reflexivity.
Defined.

(** C5 (as stated) fails: for three points at elevations 0, 0 and 3 the
    subtracted center is 1.5, the projected elevations are -1.5, -1.5 and
    1.5, and their centroid is -0.5, whatever [Math.cos] returns. *)
Lemma centroid_not_origin :
  exists (this : LASParser) (h : LASHeader),
    parseHeader (buffer_of this) = Ok h /\
    forall Math_cos : float -> float,
    exists d pts,
      parsePoints Math_cos this h = Ok (d, pts) /\
      loadedPoints d = 3 /\
      center_z d = 1.5%float /\
      (centroid (positions pts)).2 = (-0.5)%float /\
      ((centroid (positions pts)).2 =? 0)%float = false.
Proof.
  exists (new_LASParser Sample.three_heights None), (Sample.parsed12 3).
  split; [vm_compute; reflexivity|].
  intros Math_cos.
  set (this := new_LASParser Sample.three_heights None).
  assert (Hret : retained this (Sample.parsed12 3)
                 = [LASParser.Build_rawPoint 0 0 0 227;
                    LASParser.Build_rawPoint 0 0 0 253;
                    LASParser.Build_rawPoint 0 0 3 279])
    by (vm_compute; reflexivity).
  destruct (parsePoints_spec Math_cos this (Sample.parsed12 3))
    as (d & pts & Hrun & Hloaded & _ & _ & _ & _ & _ & Hcz & Hlen & _ & Hpts);
    [simpl; lia | simpl; lia | simpl; lia |].
  assert (Hcenter : center_z d = 1.5%float) by (rewrite Hcz; vm_compute; reflexivity).
  rewrite Hret in Hloaded, Hlen, Hpts.
  exists d, pts. split; [exact Hrun|]. split; [exact Hloaded|]. split; [exact Hcenter|].
  destruct (Hpts 0%nat _ eq_refl) as (_ & _ & _ & _ & Hup0 & _).
  destruct (Hpts 1%nat _ eq_refl) as (_ & _ & _ & _ & Hup1 & _).
  destruct (Hpts 2%nat _ eq_refl) as (_ & _ & _ & _ & Hup2 & _).
  destruct (positions pts)
    as [|a0 [|a1 [|a2 [|a3 [|a4 [|a5 [|a6 [|a7 [|a8 [|a9 rest]]]]]]]]]];
    try discriminate Hlen.
  apply (inj Some) in Hup0, Hup1, Hup2.
  rewrite Hcz in Hcenter. rewrite Hcenter in Hup0, Hup1, Hup2.
  vm_compute in Hup0, Hup1, Hup2. subst a2 a5 a8.
  cbv beta iota zeta delta [centroid axis_sums snd].
  split; vm_compute; reflexivity.
Qed.

Section SlicerSample.

Import Slicer.

Lemma buffers_stay_parallel_witness :
  let this := new_LASParser Sample.five_points None in
  let state := {| enabled := true;
                  x := {| min := 0; max := 50 |};
                  y := {| min := 0; max := 100 |};
                  z := {| min := 0; max := 100 |};
                  boundsX := {| bmin := (-222640)%float; bmax := 222640%float |};
                  boundsY := {| bmin := (-222640)%float; bmax := 222640%float |};
                  boundsZ := {| bmin := (-2)%float; bmax := 2%float |} |} in
  exists d pts,
    parsePoints Sample.cos_at_equator this (Sample.parsed12 5) = Ok (d, pts) /\
    let current := {| points := Some {| position := Some (positions pts);
                                        color := Some (colors pts) |};
                      originalPositions := Some (positions pts);
                      originalColors := colors pts |} in
    geometry_parallel
      (applySlice Sample.cos_at_equator (fun _ => 0%float) state original 0 current).
Proof.
  intros this state. eexists _, _. split; [vm_compute; reflexivity|].
  intros current.
  refine (proj1 (proj2 (proj2
    (buffers_stay_parallel Sample.cos_at_equator (fun _ => 0%float) this
       (Sample.parsed12 5) _ _ state original 0%float current _ _ _ _)))).
  - vm_compute. reflexivity.
  - reflexivity.
  - reflexivity.
  - vm_compute. reflexivity.
Defined.

End SlicerSample.

Lemma decompressed_layout_witness :
  exists out,
    (decompressLaz (Sample.engine Sample.laz_records 26) Sample.laz_file
       (machine0 _)).1 = Ok out /\
    Sample.laz_file !! 104%nat = Some x82 /\
    out !! 104%nat = Some x02 /\
    length out = 279%nat /\
    drop 227 out = concat Sample.laz_records.
Proof.
  eexists. split; [vm_compute; reflexivity|].
  match goal with
  | |- context [length ?o] =>
    destruct (decompressed_layout (Sample.engine Sample.laz_records 26)
                Sample.laz_file (machine0 _) o)
      as (h & o1 & recs & format & Hhdr & Hfmt & Hopen & Hrecs & _ & Hlen & _ & _
          & H104 & _)
  end.
  - vm_compute. reflexivity.
  - vm_compute in Hhdr. injection Hhdr as <-.
    vm_compute in Hfmt. injection Hfmt as <-.
    split; [reflexivity|]. split; [|split].
    + rewrite H104 by (vm_compute; lia). reflexivity.
    + exact Hlen.
    + reflexivity.
Defined.

Lemma staging_buffer_not_freed_witness :
  exists m',
    decompressLaz Sample.failing_engine Sample.laz_file (machine0 _)
      = (Throw (EngineError "chunk table is corrupt"), m') /\
    blocks _ m' !! 239 = Some 26%nat /\
    objects _ m' !! 0%nat = Some 0%nat.
Proof.
  destruct (staging_buffer_not_freed Sample.failing_engine Sample.laz_file (machine0 _)
              {| signature := "LASF"; versionMajor := 1; versionMinor := 2;
                 headerSize := 227; offsetToPointData := 227;
                 pointDataRecordFormat := 130; pointDataRecordLength := 26;
                 numberOfPoints := 2;
                 scaleX := 1; scaleY := 1; scaleZ := 1;
                 offsetX := 0; offsetY := 0; offsetZ := 0 |}
              0%nat (EngineError "chunk table is corrupt"))
    as (m' & Hrun & _ & _ & Hblock & Hobj).
  - vm_compute. reflexivity.
  - reflexivity.
  - vm_compute. lia.
  - vm_compute. lia.
  - vm_compute. reflexivity.
  - exists m'. split; [exact Hrun|]. split; [exact Hblock | exact Hobj].
Defined.

(** A run that succeeds frees both heap allocations and deletes the engine
    object of the [try] block; the [LASZip] object created before the [try]
    is left live here as well. *)
Example successful_run_resources :
  let '(result, m') :=
    decompressLaz (Sample.engine Sample.laz_records 26) Sample.laz_file (machine0 _) in
  (exists out, result = Ok out) /\
  blocks _ m' = ∅ /\
  objects _ m' !! 1%nat = None /\
  objects _ m' !! 0%nat = Some 0%nat.
Proof.
  vm_compute. split; [eauto|]. split; [reflexivity|]. split; reflexivity.
Qed.

(** * Further properties *)

(** ** Exceptions of the reads *)

Lemma rbind_Throw {A B} (m : result A) (k : A -> result B) (e : exn) :
  rbind m k = Throw e -> m = Throw e \/ exists a, m = Ok a /\ k a = Throw e.
Proof. destruct m as [a|e']; simpl; [eauto | intros [= <-]; by left]. Qed.

Lemma getUint8_throw (view : buffer) (k : Z) (e : exn) :
  getUint8 view k = Throw e -> e = RangeError.
Proof.
  unfold getUint8. destruct (k <? 0); [by intros [= <-]|].
  destruct (view !! Z.to_nat k); [done | by intros [= <-]].
Qed.

Lemma getUint16_throw (view : buffer) (k : Z) (e : exn) :
  getUint16 view k = Throw e -> e = RangeError.
Proof.
  unfold getUint16. intros H.
  apply rbind_Throw in H as [H | (b0 & _ & H)]; [by apply getUint8_throw in H|].
  apply rbind_Throw in H as [H | (b1 & _ & H)]; [by apply getUint8_throw in H | done].
Qed.

Lemma getUint32_throw (view : buffer) (k : Z) (e : exn) :
  getUint32 view k = Throw e -> e = RangeError.
Proof.
  unfold getUint32. intros H.
  apply rbind_Throw in H as [H | (lo & _ & H)]; [by apply getUint16_throw in H|].
  apply rbind_Throw in H as [H | (hi & _ & H)]; [by apply getUint16_throw in H | done].
Qed.

Lemma getFloat64_throw (view : buffer) (k : Z) (e : exn) :
  getFloat64 view k = Throw e -> e = RangeError.
Proof.
  unfold getFloat64. intros H.
  apply rbind_Throw in H as [H | (lo & _ & H)]; [by apply getUint32_throw in H|].
  apply rbind_Throw in H as [H | (hi & _ & H)]; [by apply getUint32_throw in H | done].
Qed.

Lemma getFloat64_ok (view : buffer) (k : Z) :
  0 <= k -> k + 8 <= byteLength view -> exists v, getFloat64 view k = Ok v.
Proof.
  intros H0 H1. unfold getFloat64.
  destruct (getUint32_ok view k) as (lo & ->); [lia..|].
  destruct (getUint32_ok view (k + 4)) as (hi & ->); [lia..|].
  simpl. eauto.
Qed.

Lemma getFloat64_inv (view : buffer) (k : Z) (v : float) :
  getFloat64 view k = Ok v -> 0 <= k /\ k + 8 <= byteLength view.
Proof.
  unfold getFloat64. intros H. inv_bind H. inv_bind H.
  repeat match goal with
         | Hx : getUint32 _ _ = Ok _ |- _ => apply getUint32_inv in Hx
         end.
  lia.
Qed.

Lemma readSignature_throw (view : buffer) (e : exn) :
  readSignature view = Throw e -> e = RangeError.
Proof.
  unfold readSignature. intros H.
  do 4 (apply rbind_Throw in H as [H | (? & _ & H)]; [by apply getUint8_throw in H|]).
  done.
Qed.

(** The count both readers take from the version fields, the header length
    and the two count fields. *)
Lemma count_throw (view : buffer) (c : bool) (legacy : Z) (e : exn) :
  (if c then
     let* low := getUint32 view 247 in
     let* high := getUint32 view 251 in
     let count64 := Num.add low (Num.mul high 4294967296) in
     Ok (if count64 >? 0 then count64 else legacy)
   else Ok legacy) = Throw e ->
  e = RangeError.
Proof.
  destruct c; [|done]. intros H.
  do 2 (apply rbind_Throw in H as [H | (? & _ & H)]; [by apply getUint32_throw in H|]).
  done.
Qed.

(** [parseHeader] throws a [RangeError] of a read, or its own error on a
    signature that is not [LASF]. *)
Lemma parseHeader_throw (view : buffer) (e : exn) :
  parseHeader view = Throw e ->
  (e = RangeError /\ (readSignature view = Throw RangeError \/
                      readSignature view = Ok "LASF"%string)) \/
  exists s, readSignature view = Ok s /\ s <> "LASF"%string /\
            e = Error ("Invalid LAS file signature: " ++ s).
Proof.
  unfold parseHeader. intros H.
  destruct (readSignature view) as [s|e0] eqn:Hsig; simpl in H.
  2:{ injection H as <-. left. apply readSignature_throw in Hsig as ->. auto. }
  destruct (String.eqb_spec s "LASF") as [->|Hne]; simpl in H.
  2:{ injection H as <-. right. eauto. }
  left. split; [|by right].
  repeat (apply rbind_Throw in H as [H | (? & _ & H)];
          [ first [ by apply getUint8_throw in H
                  | by apply getUint16_throw in H
                  | by apply getUint32_throw in H
                  | by apply getFloat64_throw in H
                  | by apply count_throw in H ] |]).
  done.
Qed.

(** What a successful [parseHeader] needs of the buffer: the 179 bytes up
    to the last offset, and the extended count fields when it consults
    them. *)
Lemma parseHeader_length (view : buffer) (h : LASHeader) :
  parseHeader view = Ok h ->
  179 <= byteLength view /\ (extended_header h -> 255 <= byteLength view).
Proof.
  intros H. pose proof (parseHeader_inv _ _ H) as Hinv.
  destruct Hinv as (_ & _ & _ & _ & _ & _ & _ & legacy & _ & Hext).
  split.
  - unfold parseHeader in H. inv_bind H.
    destruct (negb _); [done|]. do 13 inv_bind H.
    apply getFloat64_inv in Hv12. lia.
  - intros He. apply extended_test in He. rewrite He in Hext.
    destruct Hext as (low & high & _ & Hhigh & _).
    apply getUint32_inv in Hhigh. lia.
Qed.

(** ** The pre-check [validate()] *)

(** What [validate] has read when it answers [valid: true]. *)
Lemma validate_valid_inv (this : LASParser) :
  valid (validate this) = true ->
  readSignature (buffer_of this) = Ok "LASF"%string /\
  exists legacy major minor hsize n,
    getUint32 (buffer_of this) 107 = Ok legacy /\
    getUint8 (buffer_of this) 24 = Ok major /\
    getUint8 (buffer_of this) 25 = Ok minor /\
    getUint16 (buffer_of this) 94 = Ok hsize /\
    (if (major >=? 1) && (minor >=? 4) && (hsize >=? 375) then
       let* low := getUint32 (buffer_of this) 247 in
       let* high := getUint32 (buffer_of this) 251 in
       let count64 := Num.add low (Num.mul high 4294967296) in
       Ok (if count64 >? 0 then count64 else legacy)
     else Ok legacy) = Ok n /\
    validate this =
      {| valid := true; error := None; pointCount := Some n;
         estimatedMemory := Some (Num.round (Z.min n (maxPoints this) * 24)) |}.
Proof.
  unfold validate.
  destruct (readSignature (buffer_of this)) as [s|e] eqn:Hsig; simpl; [|done].
  destruct (String.eqb_spec s "LASF") as [->|Hne]; simpl; [|done].
  destruct (getUint32 (buffer_of this) 107) as [legacy|e]; simpl; [|done].
  destruct (getUint8 (buffer_of this) 24) as [major|e]; simpl; [|done].
  destruct (getUint8 (buffer_of this) 25) as [minor|e]; simpl; [|done].
  destruct (getUint16 (buffer_of this) 94) as [hsize|e]; simpl; [|done].
  match goal with
  | |- context [rbind ?c _] => destruct c as [n|e] eqn:Hn
  end; simpl; [|done].
  intros _. split; [done|]. exists legacy, major, minor, hsize, n. done.
Qed.

Lemma round_exact (n : Z) : - 2 ^ 53 <= n <= 2 ^ 53 -> Num.round n = n.
Proof.
  intros Hn. unfold Num.round.
  destruct (Z.ltb_spec n 0); rewrite round53_exact; lia.
Qed.

Lemma validate_of_parseHeader (this : LASParser) (h : LASHeader) :
  parseHeader (buffer_of this) = Ok h ->
  validate this =
    {| valid := true; error := None;
       pointCount := Some (numberOfPoints h);
       estimatedMemory :=
         Some (Num.round (Z.min (numberOfPoints h) (maxPoints this) * 24)) |}.
Proof.
  unfold parseHeader. intros H. inv_bind H.
  destruct (String.eqb_spec v "LASF") as [->|]; [simpl in H | discriminate].
  do 13 inv_bind H. inv_bind H. injection H as <-.
  unfold validate. rewrite Hv. simpl. rewrite Hv6. simpl.
  rewrite Hv0. simpl. rewrite Hv1. simpl. rewrite Hv2. simpl.
  rewrite Hv13. reflexivity.
Qed.

(** X1: whenever [parseHeader] succeeds on the parser's buffer,
    [validate] answers [valid: true] without an error text and reports the
    very point count [parseHeader] stores in the header (legacy or
    extended, by the same rule); for a point budget between 1 and
    [2^53 / 24] its memory estimate is exactly 24 bytes for each of
    [min(numberOfPoints, maxPoints)] points. *)
Theorem validate_agrees_with_parseHeader (this : LASParser) (h : LASHeader) :
  parseHeader (buffer_of this) = Ok h ->
  0 < maxPoints this ->
  maxPoints this * 24 <= 2 ^ 53 ->
  validate this =
    {| valid := true; error := None;
       pointCount := Some (numberOfPoints h);
       estimatedMemory := Some (24 * Z.min (numberOfPoints h) (maxPoints this)) |}.
Proof.
  intros Hhdr Hpos Hmax. rewrite (validate_of_parseHeader this h Hhdr).
  pose proof (parseHeader_count_nonneg _ _ Hhdr) as HN.
  rewrite round_exact by lia. do 2 f_equal. lia.
Qed.

Lemma validate_agrees_with_parseHeader_witness :
  validate (new_LASParser Sample.five_points (Some 2)) =
    {| valid := true; error := None; pointCount := Some 5;
       estimatedMemory := Some 48 |}.
Proof.
  refine (validate_agrees_with_parseHeader
            (new_LASParser Sample.five_points (Some 2)) (Sample.parsed12 5) _ _ _).
  - vm_compute. reflexivity.
  - simpl. lia.
  - simpl. lia.
Defined.

(** X2: [validate] does not read the scale and offset fields, so its
    [valid: true] promises less than a successful [parseHeader]: the
    buffer then holds at least 111 bytes, and [parseHeader] (hence
    [parse]) succeeds, with the reported count, exactly when it holds the
    179 bytes up to the last offset field; on a shorter buffer that
    [validate] accepted, [parseHeader] and [parse] throw [RangeError]. *)
Theorem validate_accepts_short_header (Math_cos : float -> float)
    (this : LASParser) :
  valid (validate this) = true ->
  111 <= byteLength (buffer_of this) /\
  (179 <= byteLength (buffer_of this) ->
     exists h, parseHeader (buffer_of this) = Ok h /\
               pointCount (validate this) = Some (numberOfPoints h)) /\
  (byteLength (buffer_of this) < 179 ->
     parseHeader (buffer_of this) = Throw RangeError /\
     parse Math_cos this = Throw RangeError).
Proof.
  intros Hvalid.
  destruct (validate_valid_inv this Hvalid)
    as (Hsig & legacy & major & minor & hsize & n & Hleg & Hmaj & Hmin & Hsize
        & Hn & Hval).
  pose proof (getUint32_inv _ _ _ Hleg) as (_ & Hlen & _).
  split; [lia|]. split.
  - intros Hfull. unfold parseHeader. rewrite Hsig. cbn [rbind].
    rewrite String.eqb_refl. cbn [negb].
    rewrite Hmaj. cbn [rbind]. rewrite Hmin. cbn [rbind].
    rewrite Hsize. cbn [rbind].
    destruct (getUint32_ok (buffer_of this) 96) as (off & ->); [lia..|].
    destruct (getUint8_ok (buffer_of this) 104) as (fmt & _ & ->); [lia|].
    destruct (getUint16_ok (buffer_of this) 105) as (recLen & ->); [lia..|].
    rewrite Hleg.
    destruct (getFloat64_ok (buffer_of this) 131) as (sx & ->); [lia..|].
    destruct (getFloat64_ok (buffer_of this) 139) as (sy & ->); [lia..|].
    destruct (getFloat64_ok (buffer_of this) 147) as (sz & ->); [lia..|].
    destruct (getFloat64_ok (buffer_of this) 155) as (ox & ->); [lia..|].
    destruct (getFloat64_ok (buffer_of this) 163) as (oy & ->); [lia..|].
    destruct (getFloat64_ok (buffer_of this) 171) as (oz & ->); [lia..|].
    cbn [rbind]. cbv zeta in Hn. rewrite Hn. cbn [rbind].
    eexists. split; [reflexivity|]. by rewrite Hval.
  - intros Hshort.
    assert (Hhdr : parseHeader (buffer_of this) = Throw RangeError).
    { destruct (parseHeader (buffer_of this)) as [h|e] eqn:Hhdr.
      - apply parseHeader_length in Hhdr. lia.
      - apply parseHeader_throw in Hhdr as [[-> _] | (s & Hs & Hne & _)]; [done|].
        congruence. }
    split; [done|]. unfold parse. by rewrite Hhdr.
Qed.

Lemma validate_accepts_short_header_witness :
  byteLength (take 120 (Sample.header12 3)) = 120 /\
  pointCount (validate (new_LASParser (take 120 (Sample.header12 3)) None)) = Some 3 /\
  parse Sample.cos_at_equator (new_LASParser (take 120 (Sample.header12 3)) None)
    = Throw RangeError.
Proof.
  split; [reflexivity|]. split; [vm_compute; reflexivity|].
  refine (proj2 (proj2 (proj2 (validate_accepts_short_header Sample.cos_at_equator
            (new_LASParser (take 120 (Sample.header12 3)) None) _)) _)).
  - vm_compute. reflexivity.
  - vm_compute. reflexivity.
Defined.

(** X3: a rejection by [validate] mirrors what [parseHeader] throws on the
    same buffer: for four signature bytes other than [LASF] the error text
    is the message of the [Error] that [parseHeader] throws, naming the
    signature read; in every other case a read left the buffer,
    [parseHeader] throws [RangeError] as well, and the text is that
    message behind [Failed to read LAS header: ].  A rejection carries
    neither a count nor an estimate. *)
Theorem validate_rejection_mirrors_parseHeader (this : LASParser) :
  valid (validate this) = false ->
  pointCount (validate this) = None /\
  estimatedMemory (validate this) = None /\
  ((exists s, readSignature (buffer_of this) = Ok s /\ s <> "LASF"%string /\
      parseHeader (buffer_of this)
        = Throw (Error ("Invalid LAS file signature: " ++ s)) /\
      error (validate this) = Some ("Invalid LAS file signature: " ++ s)%string) \/
   (parseHeader (buffer_of this) = Throw RangeError /\
    error (validate this)
      = Some ("Failed to read LAS header: " ++ message RangeError)%string)).
Proof.
  intros Hinvalid.
  destruct (parseHeader (buffer_of this)) as [h|e] eqn:Hhdr.
  { rewrite (validate_of_parseHeader this h Hhdr) in Hinvalid. discriminate. }
  apply parseHeader_throw in Hhdr as [[-> Hsig] | (s & Hs & Hne & ->)].
  - assert (Hv : validate this =
                 {| valid := false;
                    error := Some ("Failed to read LAS header: "
                                   ++ message RangeError)%string;
                    pointCount := None; estimatedMemory := None |}).
    { revert Hinvalid. unfold validate.
      destruct Hsig as [-> | ->]; [reflexivity|]. cbn [rbind].
      rewrite String.eqb_refl. cbn [negb].
      repeat match goal with
             | |- context [rbind ?c _] =>
               let e := fresh "e" in
               let E := fresh "E" in
               destruct c as [?|e] eqn:E; cbn [rbind];
               [| first [ apply getUint8_throw in E
                        | apply getUint16_throw in E
                        | apply getUint32_throw in E
                        | apply count_throw in E ];
                  subst e; reflexivity ]
             end.
      discriminate. }
    rewrite Hv. simpl. split; [done|]. split; [done|]. by right.
  - assert (Hv : validate this =
                 {| valid := false;
                    error := Some ("Invalid LAS file signature: " ++ s)%string;
                    pointCount := None; estimatedMemory := None |}).
    { unfold validate. rewrite Hs. cbn [rbind].
      apply String.eqb_neq in Hne. rewrite Hne. reflexivity. }
    rewrite Hv. simpl. split; [done|]. split; [done|]. left. eauto.
Qed.

Lemma validate_rejection_mirrors_parseHeader_witness :
  error (validate (new_LASParser (take 3 (Sample.header12 3)) None))
  = Some ("Failed to read LAS header: Offset is outside the bounds of the DataView")%string.
Proof.
  destruct (validate_rejection_mirrors_parseHeader
              (new_LASParser (take 3 (Sample.header12 3)) None))
    as (_ & _ & [(s & Hs & _) | [_ He]]).
  - vm_compute. reflexivity.
  - vm_compute in Hs. discriminate.
  - exact He.
Defined.

(** ** Robustness and budget of [parse] *)

(** The indices the read loop visits stay below [totalPoints]. *)
Lemma readLoop_count (this : LASParser) (h : LASHeader) (fuel : nat) :
  0 < maxPoints this ->
  forall (i : Z) (acc out : list rawPoint) (e e' : extrema),
  readLoop this h fuel i acc e = Ok (out, e') ->
  exists pts, out = acc ++ pts /\
    (pts <> [] ->
     i + (Z.of_nat (length pts) - 1) * stride (numberOfPoints h) (maxPoints this)
       < numberOfPoints h).
Proof.
  intros Hmax. pose proof (stride_pos (numberOfPoints h) _ Hmax) as Hstep.
  induction fuel as [|fuel IH]; intros i acc out e e' H; simpl in H.
  - injection H as <- <-. exists []. by rewrite app_nil_r.
  - destruct (Z.ltb_spec i (numberOfPoints h)).
    2:{ injection H as <- <-. exists []. by rewrite app_nil_r. }
    destruct (_ >? _).
    { injection H as <- <-. exists []. by rewrite app_nil_r. }
    inv_bind H. apply IH in H as (pts & -> & Hpts).
    exists (v :: pts). rewrite <- app_assoc. split; [done|]. intros _.
    destruct pts as [|pt pts]; [simpl; lia|].
    specialize (Hpts ltac:(done)). simpl length in *. lia.
Qed.

Lemma retained_count (this : LASParser) (h : LASHeader) :
  0 < maxPoints this -> 0 <= numberOfPoints h ->
  Z.of_nat (length (retained this h)) <= Z.min (numberOfPoints h) (maxPoints this).
Proof.
  intros Hmax HN. unfold retained.
  destruct (readLoop this h _ 0 [] extrema0) as [[pts e]|err] eqn:Hloop;
    [|simpl; lia].
  apply readLoop_count in Hloop as (pts' & Heq & Hpts); [|done].
  simpl in Heq. subst pts'.
  destruct pts as [|pt pts]; [simpl; lia|].
  specialize (Hpts ltac:(done)).
  pose proof (stride_pos (numberOfPoints h) _ Hmax) as Hstep.
  set (n := Z.of_nat (length (pt :: pts))) in *.
  assert (Hn : 1 <= n) by (unfold n; simpl length; lia).
  assert (HnN : n <= numberOfPoints h) by nia.
  unfold stride in *.
  destruct (Z.gtb_spec (numberOfPoints h) (maxPoints this)); [|lia].
  pose proof (ceil_div_spec (numberOfPoints h) (maxPoints this) Hmax) as Hc.
  assert (n - 1 < maxPoints this) by nia.
  lia.
Qed.



(** X5: the point budget holds for every buffer whose header declares
    fewer than [2^53] points: the stride is then the one the code computes
    in binary64, the number of loaded points is at most [maxPoints] and at
    most the declared count, both arrays hold three entries per loaded
    point, and for a budget of at most [2^53 / 24] points the bytes of the
    two [Float32Array]s (four per entry) never exceed the memory estimate
    of [validate]. *)
Theorem point_budget (Math_cos : float -> float) (this : LASParser)
    (h : LASHeader) (d : LASDerived) (pts : LASPoints) :
  parseHeader (buffer_of this) = Ok h ->
  0 < maxPoints this ->
  numberOfPoints h < 2 ^ 53 ->
  parsePoints Math_cos this h = Ok (d, pts) ->
  stride (numberOfPoints h) (maxPoints this)
  = (if numberOfPoints h >? maxPoints this
     then Num.ceil_quot (numberOfPoints h) (maxPoints this) else 1) /\
  0 <= loadedPoints d <= Z.min (numberOfPoints h) (maxPoints this) /\
  Z.of_nat (length (positions pts)) = 3 * loadedPoints d /\
  Z.of_nat (length (colors pts)) = 3 * loadedPoints d /\
  (maxPoints this * 24 <= 2 ^ 53 ->
   exists mem, estimatedMemory (validate this) = Some mem /\
     4 * Z.of_nat (length (positions pts)) + 4 * Z.of_nat (length (colors pts)) <= mem).
Proof.
  intros Hhdr Hmax Hsmall Hrun.
  split; [by apply stride_is_binary64|].
  pose proof (parseHeader_wf _ _ Hhdr) as [Hoff Hrec].
  pose proof (parseHeader_count_nonneg _ _ Hhdr) as HN.
  destruct (parsePoints_spec Math_cos this h Hoff Hrec Hmax)
    as (d' & pts' & Hrun' & Hloaded & _).
  rewrite Hrun in Hrun'. injection Hrun' as <- <-.
  pose proof (retained_count this h Hmax HN) as Hcount.
  destruct (parsePoints_lengths _ _ _ _ _ Hrun) as [Hp Hc].
  split; [lia|]. split; [done|]. split; [done|].
  intros Hfit. rewrite (validate_of_parseHeader this h Hhdr). simpl.
  eexists. split; [reflexivity|]. rewrite round_exact by lia. lia.
Qed.

Lemma point_budget_witness :
  exists d pts,
    parsePoints Sample.cos_at_equator (new_LASParser Sample.five_points (Some 2))
      (Sample.parsed12 5) = Ok (d, pts) /\
    0 <= loadedPoints d <= 2.
Proof.
  eexists _, _. split; [vm_compute; reflexivity|].
  refine (proj1 (proj2 (point_budget Sample.cos_at_equator
                          (new_LASParser Sample.five_points (Some 2))
                          (Sample.parsed12 5) _ _ _ _ _ _))).
  - vm_compute. reflexivity.
  - simpl. lia.
  - vm_compute. reflexivity.
  - vm_compute. reflexivity.
Defined.

(** ** Colour depth *)

Lemma quotients_nonzero_spec (d : float) (n : nat) :
  forall i : Z, quotients_nonzero d n i = true ->
  forall v : Z, i <= v < i + Z.of_nat n -> (Num.to_float v / d =? 0)%float = false.
Proof.
  induction n as [|n IH]; intros i H v Hv; [lia|].
  simpl in H. apply andb_true_iff in H as [H0 H].
  destruct (Z.eq_dec v i) as [->|Hne].
  - by apply negb_true_iff in H0.
  - apply (IH (i + 1)); [done | lia].
Qed.

(** A nonzero 16-bit channel never becomes [0] by the division. *)
Lemma channel_nonzero (v : Z) :
  0 < v < 65536 ->
  (Num.to_float v / 65535 =? 0)%float = false /\
  (v <= 255 -> (Num.to_float v / 255 =? 0)%float = false).
Proof.
  intros Hv. split.
  - apply (quotients_nonzero_spec 65535 (Z.to_nat 65535) 1);
      [vm_compute; reflexivity | lia].
  - intros Hle.
    apply (quotients_nonzero_spec 255 (Z.to_nat 255) 1);
      [vm_compute; reflexivity | lia].
Qed.

Section ColourDepth.

Variable this : LASParser.
Local Abbreviation view := (buffer_of this).

Lemma pointColor_channels (rgbOffset : Z) (minZ zRange : float) (pt : rawPoint)
    (red green blue : Z) :
  offset pt + rgbOffset + 6 <= byteLength view ->
  getUint16 view (offset pt + rgbOffset) = Ok red ->
  getUint16 view (offset pt + rgbOffset + 2) = Ok green ->
  getUint16 view (offset pt + rgbOffset + 4) = Ok blue ->
  (255 < red \/ 255 < green \/ 255 < blue ->
   pointColor this true rgbOffset minZ zRange pt
   = Ok (RGB (Num.to_float red / 65535) (Num.to_float green / 65535)
             (Num.to_float blue / 65535))) /\
  (red <= 255 -> green <= 255 -> blue <= 255 ->
   0 < red \/ 0 < green \/ 0 < blue ->
   pointColor this true rgbOffset minZ zRange pt
   = Ok (RGB (Num.to_float red / 255) (Num.to_float green / 255)
             (Num.to_float blue / 255))).
Proof.
  intros Hin Hr Hg Hb.
  pose proof (getUint16_inv _ _ _ Hr) as (_ & _ & Hred).
  pose proof (getUint16_inv _ _ _ Hg) as (_ & _ & Hgreen).
  pose proof (getUint16_inv _ _ _ Hb) as (_ & _ & Hblue).
  unfold pointColor.
  destruct (Z.leb_spec (offset pt + rgbOffset + 6) (byteLength view)); [|lia].
  cbn [andb]. rewrite Hr, Hg, Hb. cbn [rbind].
  split.
  - intros Hdeep.
    assert (Hc : (red >? 255) || (green >? 255) || (blue >? 255) = true).
    { rewrite !orb_true_iff, !Z.gtb_lt. tauto. }
    rewrite Hc. cbn [r g b].
    assert (Hz : (Num.to_float red / 65535 =? 0)%float
                 && (Num.to_float green / 65535 =? 0)%float
                 && (Num.to_float blue / 65535 =? 0)%float = false).
    { rewrite !andb_false_iff.
      destruct Hdeep as [Hd | [Hd | Hd]];
        [left; left | left; right | right]; apply channel_nonzero; lia. }
    by rewrite Hz.
  - intros H1 H2 H3 Hsome.
    assert (Hc : (red >? 255) || (green >? 255) || (blue >? 255) = false).
    { rewrite !orb_false_iff, !Z.gtb_ltb, !Z.ltb_ge. lia. }
    rewrite Hc.
    assert (Hc' : (red >? 0) || (green >? 0) || (blue >? 0) = true).
    { rewrite !orb_true_iff, !Z.gtb_lt. tauto. }
    rewrite Hc'. cbn [r g b].
    assert (Hz : (Num.to_float red / 255 =? 0)%float
                 && (Num.to_float green / 255 =? 0)%float
                 && (Num.to_float blue / 255 =? 0)%float = false).
    { rewrite !andb_false_iff.
      destruct Hsome as [Hd | [Hd | Hd]];
        [left; left | left; right | right]; apply channel_nonzero; lia. }
    by rewrite Hz.
Qed.

End ColourDepth.

(** X6: the colour depth is inferred per point from its own three
    channels.  For a retained point of a colour-capable format whose colour
    block lies inside the buffer: if any channel exceeds 255, all three are
    divided by 65535, also those that are 255 or less; if none exceeds 255
    and one is nonzero, all three are divided by 255; the quotients are
    stored as float32 and the elevation gradient is not used. *)
Theorem colour_depth_inference (Math_cos : float -> float) (this : LASParser)
    (h : LASHeader) (j : nat) (pt : rawPoint) :
  parseHeader (buffer_of this) = Ok h ->
  0 < maxPoints this ->
  (rgbLayout (pointDataRecordFormat h)).1 = true ->
  retained this h !! j = Some pt ->
  let rgbOffset := (rgbLayout (pointDataRecordFormat h)).2 in
  offset pt + rgbOffset + 6 <= byteLength (buffer_of this) ->
  exists red green blue d pts,
    getUint16 (buffer_of this) (offset pt + rgbOffset) = Ok red /\
    getUint16 (buffer_of this) (offset pt + rgbOffset + 2) = Ok green /\
    getUint16 (buffer_of this) (offset pt + rgbOffset + 4) = Ok blue /\
    parsePoints Math_cos this h = Ok (d, pts) /\
    (255 < red \/ 255 < green \/ 255 < blue ->
     colors pts !! (j * 3)%nat = Some (Num.fround (Num.to_float red / 65535)) /\
     colors pts !! (j * 3 + 1)%nat = Some (Num.fround (Num.to_float green / 65535)) /\
     colors pts !! (j * 3 + 2)%nat = Some (Num.fround (Num.to_float blue / 65535))) /\
    (red <= 255 -> green <= 255 -> blue <= 255 ->
     0 < red \/ 0 < green \/ 0 < blue ->
     colors pts !! (j * 3)%nat = Some (Num.fround (Num.to_float red / 255)) /\
     colors pts !! (j * 3 + 1)%nat = Some (Num.fround (Num.to_float green / 255)) /\
     colors pts !! (j * 3 + 2)%nat = Some (Num.fround (Num.to_float blue / 255))).
Proof.
  intros Hhdr Hmax Hrgb Hj rgbOffset Hin.
  pose proof (parseHeader_wf _ _ Hhdr) as [Hoff Hrec].
  destruct (readLoop_retained this h Hoff Hrec Hmax) as [_ Hall].
  pose proof (Forall_lookup_1 _ _ _ _ Hall Hj) as (Ho & _ & _).
  pose proof (rgbLayout_offset (pointDataRecordFormat h)) as Hrgb0.
  fold rgbOffset in Hrgb0.
  destruct (getUint16_ok (buffer_of this) (offset pt + rgbOffset)) as (red & Hr);
    [lia..|].
  destruct (getUint16_ok (buffer_of this) (offset pt + rgbOffset + 2)) as (green & Hg);
    [lia..|].
  destruct (getUint16_ok (buffer_of this) (offset pt + rgbOffset + 4)) as (blue & Hb);
    [lia..|].
  destruct (parsePoints_spec Math_cos this h Hoff Hrec Hmax)
    as (d & out & Hrun & _ & _ & _ & _ & _ & _ & _ & _ & _ & Hpts).
  exists red, green, blue, d, out.
  repeat (split; [done|]).
  destruct (Hpts j pt Hj) as (c & Hc & _ & _ & _ & H4 & H5 & H6).
  rewrite Hrgb in Hc. fold rgbOffset in Hc.
  destruct (pointColor_channels this rgbOffset
              (minZ (tracked this h))
              (Num.or_else (maxZ (tracked this h) - minZ (tracked this h)) 1)
              pt red green blue Hin Hr Hg Hb) as [Hdeep Hshallow].
  split.
  - intros Hcase. rewrite (Hdeep Hcase) in Hc. injection Hc as <-. done.
  - intros H1 H2 H3 Hcase. rewrite (Hshallow H1 H2 H3 Hcase) in Hc.
    injection Hc as <-. done.
Qed.

Lemma colour_depth_inference_witness :
  exists d pts,
    parsePoints Sample.cos_at_equator (new_LASParser Sample.mixed_depth None)
      (Sample.parsed12 1) = Ok (d, pts) /\
    colors pts !! 1%nat = Some (Num.fround (10 / 65535)).
Proof.
  destruct (colour_depth_inference Sample.cos_at_equator
              (new_LASParser Sample.mixed_depth None) (Sample.parsed12 1) 0
              (LASParser.Build_rawPoint 0 0 0 227))
    as (red & green & blue & d & pts & Hr & Hg & Hb & Hrun & Hdeep & _).
  - vm_compute. reflexivity.
  - simpl. lia.
  - reflexivity.
  - vm_compute. reflexivity.
  - vm_compute. discriminate.
  - vm_compute in Hr, Hg, Hb.
    injection Hr as <-. injection Hg as <-. injection Hb as <-.
    exists d, pts. split; [exact Hrun|].
    destruct Hdeep as (_ & H1 & _); [left; lia|]. exact H1.
Defined.

(** ** Empty clouds *)

(** X7: a header that declares no point, or whose first record does not
    fit the buffer, is not an error: [parsePoints] returns two empty arrays
    and [loadedPoints = 0]; the bounds stay at their initial
    [(+Infinity, -Infinity)], so the center is [NaN] on the three axes and
    the North and Up extents are [-Infinity]. *)
Theorem empty_cloud (Math_cos : float -> float) (this : LASParser) (h : LASHeader) :
  0 < maxPoints this ->
  numberOfPoints h <= 0 \/
    byteLength (buffer_of this) < offsetToPointData h + 12 ->
  exists d,
    parsePoints Math_cos this h = Ok (d, {| positions := []; colors := [] |}) /\
    loadedPoints d = 0 /\
    bounds_lon d = (infinity, neg_infinity) /\
    bounds_lat d = (infinity, neg_infinity) /\
    bounds_z d = (infinity, neg_infinity) /\
    is_nan (center_lon d) = true /\
    is_nan (center_lat d) = true /\
    is_nan (center_z d) = true /\
    extentMeters_y d = neg_infinity /\
    extentMeters_z d = neg_infinity.
Proof.
  intros Hmax Hempty.
  assert (Hloop : readLoop this h (Z.to_nat (numberOfPoints h)) 0 [] extrema0
                  = Ok ([], extrema0)).
  { destruct (Z.to_nat (numberOfPoints h)) as [|fuel] eqn:Hfuel; [done|].
    simpl. destruct (Z.ltb_spec 0 (numberOfPoints h)); [|done].
    destruct Hempty as [? | Hshort]; [lia|].
    destruct (Z.gtb_spec (offsetToPointData h + 0 * pointDataRecordLength h + 12)
                (byteLength (buffer_of this))); [done | lia]. }
  unfold parsePoints. rewrite Hloop.
  destruct (rgbLayout (pointDataRecordFormat h)) as [hasRGB rgbOffset].
  cbn [rbind length replicate Nat.mul projectLoop].
  eexists. split; [reflexivity|].
  cbn [loadedPoints bounds_lon bounds_lat bounds_z center_lon center_lat center_z
       extentMeters_y extentMeters_z minLon maxLon minLat maxLat minZ maxZ extrema0].
  repeat split; reflexivity.
Qed.

Lemma empty_cloud_witness :
  exists d,
    parsePoints Sample.cos_at_equator (new_LASParser (Sample.header12 4) None)
      (Sample.parsed12 4) = Ok (d, {| positions := []; colors := [] |}) /\
    loadedPoints d = 0.
Proof.
  destruct (empty_cloud Sample.cos_at_equator (new_LASParser (Sample.header12 4) None)
              (Sample.parsed12 4)) as (d & Hrun & Hloaded & _).
  - simpl. lia.
  - right. vm_compute. reflexivity.
  - exists d. split; [exact Hrun | exact Hloaded].
Defined.

(** ** Order of binary64 values and running extrema *)

Lemma compare_cont_Eq (p q : positive) :
  PosDef.Pos.compare_cont Eq p q = Pos.compare p q.
Proof. reflexivity. Qed.

Ltac cmp_cases :=
  repeat match goal with
         | |- context [Z.compare ?a ?b] => destruct (Z.compare_spec a b); subst
         | |- context [PosDef.Pos.compare_cont Eq ?a ?b] =>
           rewrite (compare_cont_Eq a b); destruct (Pos.compare_spec a b); subst
         end;
  cbn [CompOpp]; intros; try discriminate; try reflexivity; try lia; try done.

Ltac sf_cases :=
  cbn [SFcompare];
  repeat match goal with
         | s : bool |- _ => destruct s
         end;
  cbv beta iota; cmp_cases.

Lemma SFltb_trans (a b c : spec_float) :
  SFltb a b = true -> SFltb b c = true -> SFltb a c = true.
Proof.
  unfold SFltb.
  destruct a as [sa|sa| |sa ma ea], b as [sb|sb| |sb mb eb], c as [sc|sc| |sc mc ec];
    sf_cases.
Qed.

Lemma SFltb_irrefl (a : spec_float) : SFltb a a = false.
Proof. unfold SFltb. destruct a as [sa|sa| |sa ma ea]; sf_cases. Qed.

Lemma SFleb_ltb_trans (a b c : spec_float) :
  SFleb a b = true -> SFltb b c = true -> SFltb a c = true.
Proof.
  unfold SFleb, SFltb.
  destruct a as [sa|sa| |sa ma ea], b as [sb|sb| |sb mb eb], c as [sc|sc| |sc mc ec];
    sf_cases.
Qed.

Lemma SFleb_not_gtb (a b : spec_float) : SFleb a b = true -> SFltb b a = false.
Proof.
  unfold SFleb, SFltb.
  destruct a as [sa|sa| |sa ma ea], b as [sb|sb| |sb mb eb]; sf_cases.
Qed.

Lemma SFleb_not_nan (a b : spec_float) :
  SFleb a b = true -> a <> S754_nan /\ b <> S754_nan.
Proof. unfold SFleb. destruct a, b; simpl; try discriminate; done. Qed.

(** At most and not below a nonzero value: that value. *)
Lemma SFleb_antisym (s : bool) (m : positive) (e : Z) (x : spec_float) :
  SFleb (S754_finite s m e) x = true -> SFltb (S754_finite s m e) x = false ->
  x = S754_finite s m e.
Proof.
  unfold SFleb, SFltb. destruct x as [sx|sx| |sx mx ex]; sf_cases.
Qed.

Lemma SFeqb_refl (x : spec_float) : x <> S754_nan -> SFeqb x x = true.
Proof.
  unfold SFeqb. destruct x as [s|s| |s m e]; sf_cases.
Qed.

Lemma ltb_trans (x y z : float) :
  (x <? y)%float = true -> (y <? z)%float = true -> (x <? z)%float = true.
Proof. rewrite !FloatAxioms.ltb_spec. apply SFltb_trans. Qed.

Lemma ltb_irrefl (x : float) : (x <? x)%float = false.
Proof. rewrite FloatAxioms.ltb_spec. apply SFltb_irrefl. Qed.

Lemma leb_ltb_trans (x y z : float) :
  (x <=? y)%float = true -> (y <? z)%float = true -> (x <? z)%float = true.
Proof. rewrite FloatAxioms.leb_spec, !FloatAxioms.ltb_spec. apply SFleb_ltb_trans. Qed.

Lemma leb_not_gtb (x y : float) :
  (x <=? y)%float = true -> (y <? x)%float = false.
Proof. rewrite FloatAxioms.leb_spec, FloatAxioms.ltb_spec. apply SFleb_not_gtb. Qed.

Lemma leb_not_nan (x y : float) :
  (x <=? y)%float = true -> is_nan x = false /\ is_nan y = false.
Proof.
  rewrite FloatAxioms.leb_spec. intros H. apply SFleb_not_nan in H as [Hx Hy].
  unfold is_nan. rewrite !FloatAxioms.eqb_spec, !SFeqb_refl; done.
Qed.

(** Not above a value that is not above a third one. *)
Lemma not_ltb_below (x m m' : float) :
  (x <? m)%float = false -> m' = m \/ (m' <? m)%float = true ->
  (x <? m')%float = false.
Proof.
  intros Hx [-> | Hlt]; [done|].
  destruct (x <? m')%float eqn:E; [|done].
  by rewrite (ltb_trans _ _ _ E Hlt) in Hx.
Qed.

Lemma not_ltb_above (x m m' : float) :
  (m <? x)%float = false -> m' = m \/ (m <? m')%float = true ->
  (m' <? x)%float = false.
Proof.
  intros Hx [-> | Hlt]; [done|].
  destruct (m' <? x)%float eqn:E; [|done].
  by rewrite (ltb_trans _ _ _ Hlt E) in Hx.
Qed.

Lemma running_min_lower (xs : list float) :
  forall m0, running_min xs m0 = m0 \/ (running_min xs m0 <? m0)%float = true.
Proof.
  induction xs as [|x xs IH]; intros m0; [by left|].
  change (running_min (x :: xs) m0)
    with (running_min xs (if (x <? m0)%float then x else m0)).
  destruct (x <? m0)%float eqn:E; [|apply IH].
  right. destruct (IH x) as [-> | Hlt]; [done|]. by apply (ltb_trans _ x).
Qed.

Lemma running_max_upper (xs : list float) :
  forall m0, running_max xs m0 = m0 \/ (m0 <? running_max xs m0)%float = true.
Proof.
  induction xs as [|x xs IH]; intros m0; [by left|].
  change (running_max (x :: xs) m0)
    with (running_max xs (if (m0 <? x)%float then x else m0)).
  destruct (m0 <? x)%float eqn:E; [|apply IH].
  right. destruct (IH x) as [-> | Hlt]; [done|]. by apply (ltb_trans _ x).
Qed.

(** No element is below the running minimum, none above the running
    maximum; [NaN] elements compare false and are passed over. *)
Lemma running_min_bound (xs : list float) :
  forall m0 x, x ∈ xs -> (x <? running_min xs m0)%float = false.
Proof.
  induction xs as [|y xs IH]; intros m0 x Hx; [by apply elem_of_nil in Hx|].
  change (running_min (y :: xs) m0)
    with (running_min xs (if (y <? m0)%float then y else m0)).
  apply elem_of_cons in Hx as [-> | Hx]; [|by apply IH].
  eapply not_ltb_below; [|apply running_min_lower].
  destruct (y <? m0)%float eqn:E; [apply ltb_irrefl | done].
Qed.

Lemma running_max_bound (xs : list float) :
  forall m0 x, x ∈ xs -> (running_max xs m0 <? x)%float = false.
Proof.
  induction xs as [|y xs IH]; intros m0 x Hx; [by apply elem_of_nil in Hx|].
  change (running_max (y :: xs) m0)
    with (running_max xs (if (m0 <? y)%float then y else m0)).
  apply elem_of_cons in Hx as [-> | Hx]; [|by apply IH].
  eapply not_ltb_above; [|apply running_max_upper].
  destruct (m0 <? y)%float eqn:E; [apply ltb_irrefl | done].
Qed.

(** The running extrema are the initial value or one of the elements. *)
Lemma running_min_attained (xs : list float) :
  forall m0, running_min xs m0 = m0 \/ running_min xs m0 ∈ xs.
Proof.
  induction xs as [|x xs IH]; intros m0; [by left|].
  change (running_min (x :: xs) m0)
    with (running_min xs (if (x <? m0)%float then x else m0)).
  destruct (x <? m0)%float.
  - right. destruct (IH x) as [-> | Hin]; [apply list_elem_of_here|].
    by apply list_elem_of_further.
  - destruct (IH m0) as [-> | Hin]; [by left|].
    right. by apply list_elem_of_further.
Qed.

Lemma running_max_attained (xs : list float) :
  forall m0, running_max xs m0 = m0 \/ running_max xs m0 ∈ xs.
Proof.
  induction xs as [|x xs IH]; intros m0; [by left|].
  change (running_max (x :: xs) m0)
    with (running_max xs (if (m0 <? x)%float then x else m0)).
  destruct (m0 <? x)%float.
  - right. destruct (IH x) as [-> | Hin]; [apply list_elem_of_here|].
    by apply list_elem_of_further.
  - destruct (IH m0) as [-> | Hin]; [by left|].
    right. by apply list_elem_of_further.
Qed.

(** The six extrema of [track] are running extrema of the coordinates. *)
Lemma track_running (pts : list rawPoint) :
  forall e : extrema,
  minLon (fold_left track pts e) = running_min (map lon pts) (minLon e) /\
  maxLon (fold_left track pts e) = running_max (map lon pts) (maxLon e) /\
  minLat (fold_left track pts e) = running_min (map lat pts) (minLat e) /\
  maxLat (fold_left track pts e) = running_max (map lat pts) (maxLat e) /\
  minZ (fold_left track pts e) = running_min (map LASParser.z pts) (minZ e) /\
  maxZ (fold_left track pts e) = running_max (map LASParser.z pts) (maxZ e).
Proof.
  induction pts as [|pt pts IH]; intros e; [done|].
  simpl fold_left. destruct (IH (track e pt)) as (-> & -> & -> & -> & -> & ->).
  done.
Qed.

(** X8: the bounds [parsePoints] stores in the header enclose every loaded
    point: on each of the three axes no loaded point has a coordinate
    below the stored minimum or above the stored maximum, and each stored
    bound is the coordinate of a loaded point, or still its initial
    infinity. *)
Theorem bounds_enclose_points (Math_cos : float -> float) (this : LASParser)
    (h : LASHeader) (d : LASDerived) (out : LASPoints) :
  parseHeader (buffer_of this) = Ok h ->
  0 < maxPoints this ->
  parsePoints Math_cos this h = Ok (d, out) ->
  (forall pt, pt ∈ retained this h ->
     (lon pt <? (bounds_lon d).1)%float = false /\
     ((bounds_lon d).2 <? lon pt)%float = false /\
     (lat pt <? (bounds_lat d).1)%float = false /\
     ((bounds_lat d).2 <? lat pt)%float = false /\
     (LASParser.z pt <? (bounds_z d).1)%float = false /\
     ((bounds_z d).2 <? LASParser.z pt)%float = false) /\
  ((bounds_lon d).1 = infinity \/ exists pt, pt ∈ retained this h /\ lon pt = (bounds_lon d).1) /\
  ((bounds_lon d).2 = neg_infinity \/ exists pt, pt ∈ retained this h /\ lon pt = (bounds_lon d).2) /\
  ((bounds_lat d).1 = infinity \/ exists pt, pt ∈ retained this h /\ lat pt = (bounds_lat d).1) /\
  ((bounds_lat d).2 = neg_infinity \/ exists pt, pt ∈ retained this h /\ lat pt = (bounds_lat d).2) /\
  ((bounds_z d).1 = infinity \/ exists pt, pt ∈ retained this h /\ LASParser.z pt = (bounds_z d).1) /\
  ((bounds_z d).2 = neg_infinity \/ exists pt, pt ∈ retained this h /\ LASParser.z pt = (bounds_z d).2).
Proof.
  intros Hhdr Hmax Hrun.
  pose proof (parseHeader_wf _ _ Hhdr) as [Hoff Hrec].
  destruct (parsePoints_spec Math_cos this h Hoff Hrec Hmax)
    as (d' & out' & Hrun' & _ & Hb1 & Hb2 & Hb3 & _).
  rewrite Hrun in Hrun'. injection Hrun' as <- <-.
  rewrite Hb1, Hb2, Hb3. unfold tracked. cbn [fst snd].
  destruct (track_running (retained this h) extrema0) as (-> & -> & -> & -> & -> & ->).
  cbn [minLon maxLon minLat maxLat minZ maxZ extrema0].
  assert (Hattained : forall (f : rawPoint -> float) (m : float),
            m ∈ map f (retained this h) ->
            exists pt, pt ∈ retained this h /\ f pt = m).
  { intros f m Hm. apply list_elem_of_In, in_map_iff in Hm as (pt & <- & Hpt).
    exists pt. by rewrite list_elem_of_In. }
  split.
  - intros pt Hpt.
    repeat split;
      first [ apply running_min_bound | apply running_max_bound ];
      apply list_elem_of_In, in_map; by apply list_elem_of_In.
  - repeat split;
      match goal with
      | |- running_min ?xs ?m = _ \/ _ =>
        destruct (running_min_attained xs m) as [-> | Hin]; [by left | right; eauto]
      | |- running_max ?xs ?m = _ \/ _ =>
        destruct (running_max_attained xs m) as [-> | Hin]; [by left | right; eauto]
      end.
Qed.

Lemma bounds_enclose_points_witness :
  exists d out,
    parsePoints Sample.cos_at_equator (new_LASParser Sample.three_heights None)
      (Sample.parsed12 3) = Ok (d, out) /\
    ((bounds_z d).2 <? 3)%float = false.
Proof.
  destruct (parsePoints Sample.cos_at_equator (new_LASParser Sample.three_heights None)
              (Sample.parsed12 3)) as [[d out]|e] eqn:Hrun;
    [|vm_compute in Hrun; discriminate].
  exists d, out. split; [reflexivity|].
  destruct (bounds_enclose_points Sample.cos_at_equator
              (new_LASParser Sample.three_heights None) (Sample.parsed12 3) d out)
    as [Hall _].
  - vm_compute. reflexivity.
  - simpl. lia.
  - exact Hrun.
  - apply (Hall (LASParser.Build_rawPoint 0 0 3 279)).
    apply list_elem_of_In. vm_compute. tauto.
Defined.

(** ** The elevation gradient *)

(** The clamp [Math.max(0, Math.min(1, t))]. *)
Lemma clamp_low (t : float) :
  (t <=? 0)%float = true -> Num.Math_max 0 (Num.Math_min 1 t) = 0%float.
Proof.
  intros H.
  destruct (leb_not_nan _ _ H) as [Hnan _].
  assert (Hlt : (t <? 1)%float = true) by (by apply (leb_ltb_trans _ 0)).
  assert (Hgt : (1 <? t)%float = false).
  { destruct (1 <? t)%float eqn:E; [|done].
    pose proof (ltb_irrefl 1) as Hirr.
    by rewrite (ltb_trans _ _ _ E Hlt) in Hirr. }
  assert (Hmin : Num.Math_min 1 t = t).
  { unfold Num.Math_min. rewrite Hnan, Hgt, Hlt. reflexivity. }
  rewrite Hmin. unfold Num.Math_max. rewrite Hnan, (leb_not_gtb _ _ H).
  destruct (t <? 0)%float; reflexivity.
Qed.

Lemma clamp_high (t : float) :
  (1 <=? t)%float = true -> Num.Math_max 0 (Num.Math_min 1 t) = 1%float.
Proof.
  intros H.
  destruct (leb_not_nan _ _ H) as [_ Hnan].
  assert (Hmin : Num.Math_min 1 t = 1%float).
  { unfold Num.Math_min. rewrite Hnan, (leb_not_gtb _ _ H).
    destruct (1 <? t)%float eqn:E; [reflexivity|].
    change (is_nan 1 || false) with false. change (get_sign 1) with false.
    cbv iota. apply Prim2SF_inj.
    rewrite FloatAxioms.leb_spec in H. rewrite FloatAxioms.ltb_spec in E.
    revert H E. generalize (Prim2SF t). intros x.
    change (Prim2SF 1) with (S754_finite false 4503599627370496 (-52)).
    apply SFleb_antisym. }
  rewrite Hmin. reflexivity.
Qed.

Lemma clamp_nan (t : float) :
  is_nan t = true -> Num.Math_max 0 (Num.Math_min 1 t) = nan.
Proof.
  intros H. unfold Num.Math_min. rewrite H, orb_true_r. reflexivity.
Qed.

(** X9: the elevation gradient saturates: every [t <= 0] (negative
    infinity and both zeros included) gives pure blue [(0, 0, 1)], every
    [t >= 1] (positive infinity included) gives pure red [(1, 0, 0)], and a
    [NaN] elevation is not clamped: it gives [(1, NaN, 0)]. *)
Theorem elevationColor_saturates (t : float) :
  ((t <=? 0)%float = true -> elevationColor t = RGB 0 0 1) /\
  ((1 <=? t)%float = true -> elevationColor t = RGB 1 0 0) /\
  (is_nan t = true -> elevationColor t = RGB 1 nan 0).
Proof.
  unfold elevationColor. split; [|split]; intros H.
  - rewrite (clamp_low t H). reflexivity.
  - rewrite (clamp_high t H). reflexivity.
  - rewrite (clamp_nan t H). reflexivity.
Qed.

Lemma elevationColor_saturates_witness :
  elevationColor (-3) = RGB 0 0 1 /\ elevationColor infinity = RGB 1 0 0.
Proof.
  split.
  - exact (proj1 (elevationColor_saturates (-3)) eq_refl).
  - exact (proj1 (proj2 (elevationColor_saturates infinity)) eq_refl).
Defined.

(** ** What [decompressLaz] leaves in the engine *)

Lemma readLazHeader_throw (view : buffer) (e : exn) :
  readLazHeader view = Throw e ->
  e = RangeError \/
  (e = Error "Invalid LAZ file signature" /\
   exists s, readSignature view = Ok s /\ s <> "LASF"%string).
Proof.
  unfold readLazHeader. intros H.
  destruct (readSignature view) as [s|e0] eqn:Hsig; simpl in H.
  2:{ injection H as <-. left. by apply readSignature_throw in Hsig. }
  destruct (String.eqb_spec s "LASF") as [->|Hne]; simpl in H.
  2:{ injection H as <-. right. eauto. }
  left.
  repeat (apply rbind_Throw in H as [H | (? & _ & H)];
          [ first [ by apply getUint8_throw in H
                  | by apply getUint16_throw in H
                  | by apply getUint32_throw in H
                  | by apply getFloat64_throw in H
                  | by apply count_throw in H ] |]).
  done.
Qed.

Section PointLoopFrame.

Variable module : LazPerf.

(** Whatever its outcome, the point loop allocates and frees nothing,
    creates and deletes no object, and touches no object but its own. *)
Lemma pointLoop_frame (id : nat) (ptr : Z) (len off : nat) (n : nat) :
  forall (i : nat) (out : list byte) (m m' : machine module) (res : result (list byte)),
  pointLoop module id ptr len off n i out m = (res, m') ->
  blocks module m' = blocks module m /\
  brk module m' = brk module m /\
  nextObject module m' = nextObject module m /\
  laszip module m' = laszip module m /\
  forall id' : nat, id' <> id -> objects module m' !! id' = objects module m !! id'.
Proof.
  induction n as [|n IH]; intros i out m m' res H; simpl in H.
  - injection H as <- <-. done.
  - unfold mbind at 1, laszip_getPoint, with_object in H.
    destruct (objects module m !! id) as [o|]; [|injection H as <- <-; done].
    destruct (LASZip_getPoint module o (HEAPU8 module m) ptr) as [[o' hp']|e];
      [|injection H as <- <-; done].
    unfold update_object in H.
    unfold mbind at 1, read_heap in H. cbn [HEAPU8] in H.
    unfold mbind at 1, lift in H.
    destruct (typed_set out (heap_view hp' ptr len) (off + i * len)) as [out1|e].
    + apply IH in H as (Hb & Hk & Hn & Hl & Ho). cbn in Hb, Hk, Hn, Hl.
      repeat (split; [done|]).
      intros id' Hne. rewrite Ho by done. cbn. by rewrite lookup_insert_ne.
    + injection H as <- <-. cbn. repeat (split; [done|]).
      intros id' Hne. by rewrite lookup_insert_ne.
Qed.

End PointLoopFrame.

(** X10: [decompressLaz] on a buffer whose header cannot be read, because
    it holds fewer than 179 bytes or does not start with [LASF].  The
    engine comes first: when [initLazPerf] rejects, the call rejects with
    that reason and the header is not looked at.  Once [initLazPerf] has
    resolved to the engine, the call throws the exception of
    [readLazHeader] as it is (the [RangeError] of the [DataView], or
    [Error] with the text [Invalid LAZ file signature]) before anything is
    asked of the engine: no [LASZip] object has been created and no heap
    block allocated, heap, allocations and objects are exactly as they
    were when [initLazPerf] resolved. *)
Theorem decompress_rejects_unreadable_header (lazBuffer : buffer) :
  byteLength lazBuffer < 179 \/
    (exists s, readSignature lazBuffer = Ok s /\ s <> "LASF"%string) ->
  (forall reason : exn,
     decompressLaz_async (rejected reason) lazBuffer = not_run reason) /\
  forall (module : LazPerf) (m : machine module),
  exists e,
    readLazHeader lazBuffer = Throw e /\
    decompressLaz module lazBuffer m = (Throw e, m) /\
    decompressLaz_async (resolved module m) lazBuffer = ran module (Throw e) m /\
    (e = RangeError \/ e = Error "Invalid LAZ file signature").
Proof.
  intros Hbad. split; [done|]. intros module m.
  destruct (readLazHeader lazBuffer) as [h|e] eqn:Hhdr.
  - exfalso. apply parseHeader_readLazHeader in Hhdr.
    destruct Hbad as [Hshort | (s & Hs & Hne)].
    + apply parseHeader_length in Hhdr. lia.
    + unfold parseHeader in Hhdr. rewrite Hs in Hhdr. cbn [rbind] in Hhdr.
      apply String.eqb_neq in Hne. by rewrite Hne in Hhdr.
  - exists e. split; [done|].
    assert (Hrun : decompressLaz module lazBuffer m = (Throw e, m))
      by (unfold decompressLaz, mbind, lift; by rewrite Hhdr).
    split; [done|]. split; [by unfold decompressLaz_async; rewrite Hrun|].
    apply readLazHeader_throw in Hhdr as [-> | [-> _]]; auto.
Qed.

Lemma decompress_rejects_unreadable_header_witness :
  decompressLaz_async (resolved Sample.failing_engine (machine0 _))
    (take 100 Sample.laz_file)
  = ran Sample.failing_engine (Throw RangeError) (machine0 _) /\
  decompressLaz_async (rejected (Error "no WebAssembly")) (take 100 Sample.laz_file)
  = not_run (Error "no WebAssembly").
Proof.
  destruct (decompress_rejects_unreadable_header (take 100 Sample.laz_file))
    as [Hfirst Hthen].
  - left. vm_compute. reflexivity.
  - split; [|exact (Hfirst _)].
    destruct (Hthen Sample.failing_engine (machine0 _)) as (e & Hhdr & _ & Hrun & _).
    vm_compute in Hhdr. injection Hhdr as <-. exact Hrun.
Defined.

(** X11: when the engine refuses the file ([open] throws), [decompressLaz]
    throws [Error] with the text [Failed to open LAZ file: ] followed by
    the engine's message ([Unknown error] for an empty one); no output
    buffer is produced, the [finally] block frees the file copy, so the
    table of heap allocations is as before the call, and deletes the
    engine object of the [try] block; the [LASZip] object created before
    the [try] stays. *)
Theorem decompress_open_failure (module : LazPerf) (lazBuffer : buffer)
    (m : machine module) (h : LASHeader) (e : exn) :
  let filePtr := brk module m in
  let hp := heap_set (HEAPU8 module m) lazBuffer filePtr in
  machine_fresh m ->
  readLazHeader lazBuffer = Ok h ->
  LASZip_open module (LASZip_new module) hp filePtr (byteLength lazBuffer) = Throw e ->
  exists m',
    decompressLaz module lazBuffer m
      = (Throw (Error ("Failed to open LAZ file: " ++ message_of e)), m') /\
    blocks module m' = blocks module m /\
    objects module m' = <[nextObject module m := LASZip_new module]> (objects module m) /\
    objects module m' !! S (nextObject module m) = None.
Proof.
  intros filePtr hp [Hblocks Hobjects] Hhdr Hopen.
  unfold decompressLaz.
  unfold mbind at 1, lift at 1. rewrite Hhdr.
  unfold mbind at 1, new_LASZip at 1.
  unfold mbind at 1, _malloc at 1.
  unfold mbind at 1, HEAPU8_set at 1.
  unfold try_finally.
  unfold mbind at 1, new_LASZip at 1.
  unfold mbind at 1, assign_laszip at 1.
  cbn [HEAPU8 blocks brk objects nextObject laszip].
  unfold mbind at 1, try_catch, laszip_open, with_object.
  cbn [HEAPU8 blocks brk objects nextObject laszip].
  rewrite lookup_insert_eq. fold filePtr hp. rewrite Hopen.
  unfold mthrow at 1.
  unfold mbind, read_laszip, delete_object, _free.
  cbn [HEAPU8 blocks brk objects nextObject laszip].
  eexists. split; [reflexivity|].
  cbn [HEAPU8 blocks brk objects nextObject laszip].
  split; [|split].
  - apply delete_insert_id, Hblocks. unfold filePtr. lia.
  - apply delete_insert_id. rewrite lookup_insert_ne by lia. apply Hobjects. lia.
  - apply lookup_delete_eq.
Qed.

Lemma machine0_fresh (module : LazPerf) : machine_fresh (machine0 module).
Proof. split; intros; apply lookup_empty. Qed.

Lemma decompress_open_failure_witness :
  exists m',
    decompressLaz Sample.refusing_engine Sample.laz_file (machine0 _)
      = (Throw (Error "Failed to open LAZ file: Unknown error"), m') /\
    blocks _ m' = ∅.
Proof.
  destruct (decompress_open_failure Sample.refusing_engine Sample.laz_file (machine0 _)
              {| signature := "LASF"; versionMajor := 1; versionMinor := 2;
                 headerSize := 227; offsetToPointData := 227;
                 pointDataRecordFormat := 130; pointDataRecordLength := 26;
                 numberOfPoints := 2;
                 scaleX := 1; scaleY := 1; scaleZ := 1;
                 offsetX := 0; offsetY := 0; offsetZ := 0 |}
              (EngineError EmptyString))
    as (m' & Hrun & Hb & _).
  - apply machine0_fresh.
  - vm_compute. reflexivity.
  - reflexivity.
  - exists m'. split; [exact Hrun | exact Hb].
Defined.

(** X12: a successful [decompressLaz] gives back to the engine all it took
    during the call: both heap blocks (the file copy and the one-record
    staging buffer) are freed, so the table of heap allocations is as
    before the call, and the engine object it decompressed with is
    deleted.  What it leaves behind is the [LASZip] object created before
    the [try], which nothing refers to. *)
Theorem decompress_success_releases (module : LazPerf) (lazBuffer : buffer)
    (m m' : machine module) (out : buffer) :
  machine_fresh m ->
  decompressLaz module lazBuffer m = (Ok out, m') ->
  blocks module m' = blocks module m /\
  objects module m' !! S (nextObject module m) = None /\
  objects module m' = <[nextObject module m := LASZip_new module]> (objects module m).
Proof.
  intros [Hblocks Hobjects] H. unfold decompressLaz in H.
  unfold mbind at 1, lift at 1 in H.
  destruct (readLazHeader lazBuffer) as [h|e] eqn:Hhdr; [|done].
  unfold mbind at 1, new_LASZip at 1 in H.
  unfold mbind at 1, _malloc at 1 in H.
  unfold mbind at 1, HEAPU8_set at 1 in H.
  unfold try_finally in H.
  match type of H with
  | context [let '(x, m') := ?body in _] => destruct body as [x mb] eqn:Hbody
  end.
  (* the [try] block *)
  unfold mbind at 1, new_LASZip at 1 in Hbody.
  unfold mbind at 1, assign_laszip at 1 in Hbody.
  cbn [HEAPU8 blocks brk objects nextObject laszip] in Hbody.
  unfold mbind at 1, try_catch, laszip_open, with_object in Hbody.
  cbn [HEAPU8 blocks brk objects nextObject laszip] in Hbody.
  rewrite lookup_insert_eq in Hbody.
  destruct (LASZip_open module (LASZip_new module) _ _ _) as [o1|e] eqn:Hopen.
  2:{ unfold mthrow in Hbody. injection Hbody as <- <-.
      unfold mbind, read_laszip, delete_object, _free in H. cbn in H. done. }
  unfold update_object in Hbody.
  cbn [HEAPU8 blocks brk objects nextObject laszip] in Hbody.
  unfold mbind at 1, laszip_getCount, with_object in Hbody.
  cbn [HEAPU8 blocks brk objects nextObject laszip] in Hbody.
  rewrite lookup_insert_eq in Hbody.
  unfold mret at 1 in Hbody.
  unfold mbind at 1, laszip_getPointLength, with_object in Hbody.
  cbn [HEAPU8 blocks brk objects nextObject laszip] in Hbody.
  rewrite lookup_insert_eq in Hbody.
  unfold mret at 1 in Hbody.
  unfold mbind at 1, lift at 1 in Hbody.
  destruct (subarray0 lazBuffer _) as [headerView|e].
  2:{ injection Hbody as <- <-.
      unfold mbind, read_laszip, delete_object, _free in H. cbn in H. done. }
  unfold mbind at 1, lift at 1 in Hbody.
  destruct (typed_set _ headerView 0) as [outputView|e].
  2:{ injection Hbody as <- <-.
      unfold mbind, read_laszip, delete_object, _free in H. cbn in H. done. }
  unfold mbind at 1, lift at 1 in Hbody.
  destruct (getUint8 outputView 104) as [originalFormat|e].
  2:{ injection Hbody as <- <-.
      unfold mbind, read_laszip, delete_object, _free in H. cbn in H. done. }
  unfold mbind at 1, _malloc at 1 in Hbody.
  cbn [HEAPU8 blocks brk objects nextObject laszip] in Hbody.
  unfold mbind at 1 in Hbody.
  match type of Hbody with
  | context [pointLoop ?a ?b ?c ?d ?e ?f ?g ?h ?i] =>
    destruct (pointLoop a b c d e f g h i) as [res m1] eqn:Hloop
  end.
  apply pointLoop_frame in Hloop as (Hb1 & _ & _ & Hl1 & Ho1).
  cbn [HEAPU8 blocks brk objects nextObject laszip] in Hb1, Hl1, Ho1.
  destruct res as [out'|e'].
  2:{ injection Hbody as <- <-.
      unfold mbind, read_laszip, delete_object, _free in H.
      rewrite Hl1 in H. cbn in H. done. }
  unfold mbind, _free, mret in Hbody. injection Hbody as <- <-.
  (* the [finally] block *)
  unfold mbind, read_laszip, delete_object, _free in H.
  cbn [HEAPU8 blocks brk objects nextObject laszip] in H. rewrite Hl1 in H.
  injection H as _ <-.
  cbn [HEAPU8 blocks brk objects nextObject laszip]. rewrite Hb1.
  set (n := nextObject module m) in *.
  split; [|split].
  - rewrite delete_insert_id.
    + apply delete_insert_id, Hblocks. lia.
    + rewrite lookup_insert_ne by lia. apply Hblocks. lia.
  - apply lookup_delete_eq.
  - apply map_eq. intros k. destruct (decide (k = S n)) as [->|Hne].
    + rewrite lookup_delete_eq, lookup_insert_ne by lia.
      symmetry. apply Hobjects. lia.
    + rewrite lookup_delete_ne by done. rewrite Ho1 by done.
      by rewrite !lookup_insert_ne by done.
Qed.

Lemma decompress_success_releases_witness :
  exists out m',
    decompressLaz (Sample.engine Sample.laz_records 26) Sample.laz_file (machine0 _)
      = (Ok out, m') /\
    blocks _ m' = ∅ /\
    objects _ m' !! 1%nat = None.
Proof.
  destruct (decompressLaz (Sample.engine Sample.laz_records 26) Sample.laz_file
              (machine0 _)) as [[out|e] m'] eqn:Hrun;
    [|vm_compute in Hrun; discriminate].
  exists out, m'. split; [reflexivity|].
  destruct (decompress_success_releases (Sample.engine Sample.laz_records 26)
              Sample.laz_file (machine0 _) m' out (machine0_fresh _) Hrun)
    as (Hb & Ho & _).
  split; [exact Hb | exact Ho].
Defined.

(** ** Decompression followed by parsing *)

(** The buffer a successful [decompressLaz] returns. *)
Lemma decompressLaz_output (module : LazPerf) (lazBuffer : buffer)
    (m : machine module) (out : buffer) :
  (decompressLaz module lazBuffer m).1 = Ok out ->
  exists (h : LASHeader) (o1 : LASZip module) (recs : list (list byte)) (format : byte),
    readLazHeader lazBuffer = Ok h /\
    lazBuffer !! 104%nat = Some format /\
    let off := Z.to_nat (offsetToPointData h) in
    let filePtr := brk module m in
    let hp := heap_set (HEAPU8 module m) lazBuffer filePtr in
    let pointPtr := filePtr + Z.of_nat (S (length lazBuffer)) in
    LASZip_open module (LASZip_new module) hp filePtr (byteLength lazBuffer) = Ok o1 /\
    let pointCount := LASZip_getCount module o1 in
    let pointLength := LASZip_getPointLength module o1 in
    stagedRecords module o1 hp pointPtr pointLength pointCount = Ok recs /\
    (off <= length lazBuffer)%nat /\
    length out = (off + pointCount * pointLength)%nat /\
    out = <[104%nat := clearCompression format]> (take off lazBuffer) ++ concat recs /\
    (forall k : nat, (k < off)%nat -> k <> 104%nat -> out !! k = lazBuffer !! k) /\
    ((104 < off)%nat -> out !! 104%nat = Some (clearCompression format)) /\
    Z.testbit (byte_to_Z (clearCompression format)) 7 = false /\
    Z.testbit (byte_to_Z (clearCompression format)) 6 = false /\
    (forall (i : nat) (rc : list byte), recs !! i = Some rc ->
       length rc = pointLength /\
       take pointLength (drop (off + i * pointLength) out) = rc).
Proof.
  intros H. unfold decompressLaz in H.
  unfold mbind at 1, lift at 1 in H.
  destruct (readLazHeader lazBuffer) as [h|e] eqn:Hhdr; [|done].
  unfold mbind at 1, new_LASZip at 1 in H.
  unfold mbind at 1, _malloc at 1 in H.
  unfold mbind at 1, HEAPU8_set at 1 in H.
  unfold try_finally in H.
  match type of H with
  | context [let '(x, m') := ?body in _] => destruct body as [x m'] eqn:Hbody
  end.
  assert (Hx : x = Ok out).
  { destruct (mbind _ _ _ m') as [[[]|e] m'']; simpl in H; [done | discriminate]. }
  subst x. clear H.
  unfold mbind at 1, new_LASZip at 1 in Hbody.
  unfold mbind at 1, assign_laszip at 1 in Hbody.
  cbn [HEAPU8 blocks brk objects nextObject laszip] in Hbody.
  unfold mbind at 1, try_catch, laszip_open, with_object in Hbody.
  cbn [HEAPU8 blocks brk objects nextObject laszip] in Hbody.
  rewrite lookup_insert_eq in Hbody.
  destruct (LASZip_open module (LASZip_new module) _ _ _) as [o1|e] eqn:Hopen;
    [|done].
  unfold update_object in Hbody.
  cbn [HEAPU8 blocks brk objects nextObject laszip] in Hbody.
  unfold mbind at 1, laszip_getCount, with_object in Hbody.
  cbn [HEAPU8 blocks brk objects nextObject laszip] in Hbody.
  rewrite lookup_insert_eq in Hbody.
  unfold mret at 1 in Hbody.
  unfold mbind at 1, laszip_getPointLength, with_object in Hbody.
  cbn [HEAPU8 blocks brk objects nextObject laszip] in Hbody.
  rewrite lookup_insert_eq in Hbody.
  unfold mret at 1 in Hbody.
  unfold mbind at 1, lift at 1 in Hbody.
  destruct (subarray0 lazBuffer _) as [headerView|e] eqn:Hsub; [|done].
  unfold mbind at 1, lift at 1 in Hbody.
  destruct (typed_set _ headerView 0) as [outputView|e] eqn:Hset; [|done].
  unfold mbind at 1, lift at 1 in Hbody.
  destruct (getUint8 outputView 104) as [originalFormat|e] eqn:Hfmt; [|done].
  unfold mbind at 1, _malloc at 1 in Hbody.
  cbn [HEAPU8 blocks brk objects nextObject laszip] in Hbody.
  unfold mbind at 1 in Hbody.
  match type of Hbody with
  | context [pointLoop ?a ?b ?c ?d ?e ?f ?g ?h ?i] =>
    destruct (pointLoop a b c d e f g h i) as [[out'|e'] m1] eqn:Hloop; [|done]
  end.
  assert (Hout : out = out').
  { unfold mbind, _free, mret in Hbody. by injection Hbody as -> _. }
  subst out'. clear Hbody.
  eapply pointLoop_Ok in Hloop; [|simpl; apply lookup_insert_eq].
  destruct Hloop as (recs & Hrecs & Hlen & Hform & _ & _ & _).
  cbn [HEAPU8] in Hrecs.
  (* the header view and the zero-filled output *)
  unfold subarray0 in Hsub.
  destruct (Nat.ltb_spec (length lazBuffer) (Z.to_nat (offsetToPointData h)))
    as [|Hoff]; [done|].
  injection Hsub as <-.
  apply typed_set_Ok in Hset as [_ Hview].
  rewrite length_take_le in Hview by done.
  rewrite take_0, app_nil_l, Nat.add_0_l, drop_replicate_add in Hview.
  set (off := Z.to_nat (offsetToPointData h)) in *.
  set (pointCount := LASZip_getCount module o1) in *.
  set (pointLength := LASZip_getPointLength module o1) in *.
  assert (Hlv : length outputView = (off + pointCount * pointLength)%nat).
  { rewrite Hview, length_app, length_take_le, length_replicate; done. }
  rewrite length_insert in Hlen.
  (* the format byte *)
  pose proof (proj2 (parseHeader_readLazHeader _ _) Hhdr) as Hinv.
  apply parseHeader_inv in Hinv.
  destruct Hinv as (_ & _ & _ & _ & _ & H104 & _).
  destruct (getUint8_ok lazBuffer 104) as (format & Hformat & _).
  { apply getUint8_inv in H104. lia. }
  change (Z.to_nat 104) with 104%nat in Hformat.
  assert (Hhead : take off (<[104%nat := byte_of_Z (Z.land originalFormat 63)]> outputView)
                  = <[104%nat := clearCompression format]> (take off lazBuffer)).
  { destruct (Nat.lt_ge_cases 104 off) as [Hlt | Hge].
    - rewrite take_insert_lt by done.
      rewrite Hview, take_app_length' by (by rewrite length_take_le).
      f_equal. unfold clearCompression. f_equal. f_equal.
      unfold getUint8 in Hfmt. simpl in Hfmt.
      change (Z.to_nat 104) with 104%nat in Hfmt.
      rewrite Hview, lookup_app_l, lookup_take_lt, Hformat in Hfmt
        by (rewrite ?length_take_le; done).
      by injection Hfmt as <-.
    - rewrite take_insert_ge by done.
      rewrite Hview, take_app_length' by (by rewrite length_take_le).
      rewrite list_insert_ge; [done|]. by rewrite length_take_le. }
  rewrite Nat.mul_0_l, Nat.add_0_r, Hhead in Hform.
  rewrite drop_ge, app_nil_r in Hform by (rewrite length_insert; lia).
  destruct (stagedRecords_lengths _ _ _ _ _ _ _ Hrecs) as [Hn Hall].
  assert (Hpre : length (<[104%nat := clearCompression format]> (take off lazBuffer)) = off).
  { by rewrite length_insert, length_take_le. }
  exists h, o1, recs, format.
  split; [done|]. split; [done|]. cbv zeta.
  fold off pointCount pointLength.
  split; [done|]. split; [done|]. split; [done|]. split; [lia|].
  split; [done|]. split; [|split; [|split; [|split]]].
  - intros k Hk Hne. rewrite Hform, lookup_app_l by lia.
    rewrite list_lookup_insert_ne by done. by apply lookup_take_lt.
  - intros Hlt. rewrite Hform, lookup_app_l by lia.
    apply list_lookup_insert_eq. rewrite length_take_le; done.
  - apply clearCompression_bits.
  - apply clearCompression_bits.
  - intros i rc Hi. split.
    + eapply Forall_lookup_1 in Hall; [|exact Hi]. done.
    + pose proof (concat_record pointLength recs Hall i rc
                    (<[104%nat := clearCompression format]> (take off lazBuffer)) []
                    Hi) as Hrc.
      by rewrite Hpre, app_nil_r, <- Hform in Hrc.
Qed.

(** Reads depend on the bytes they cover only. *)
Lemma getUint8_agree (v1 v2 : buffer) (k : Z) :
  v2 !! Z.to_nat k = v1 !! Z.to_nat k -> getUint8 v2 k = getUint8 v1 k.
Proof. unfold getUint8. by intros ->. Qed.

Lemma getUint16_agree (v1 v2 : buffer) (k : Z) :
  0 <= k ->
  (forall j : nat, (Z.to_nat k <= j < Z.to_nat k + 2)%nat -> v2 !! j = v1 !! j) ->
  getUint16 v2 k = getUint16 v1 k.
Proof.
  intros Hk H. unfold getUint16.
  rewrite (getUint8_agree v1 v2 k), (getUint8_agree v1 v2 (k + 1));
    [done | apply H; lia | apply H; lia].
Qed.

Lemma getUint32_agree (v1 v2 : buffer) (k : Z) :
  0 <= k ->
  (forall j : nat, (Z.to_nat k <= j < Z.to_nat k + 4)%nat -> v2 !! j = v1 !! j) ->
  getUint32 v2 k = getUint32 v1 k.
Proof.
  intros Hk H. unfold getUint32.
  rewrite (getUint16_agree v1 v2 k), (getUint16_agree v1 v2 (k + 2));
    [done | lia | intros j Hj; apply H; lia | lia | intros j Hj; apply H; lia].
Qed.

Lemma getFloat64_agree (v1 v2 : buffer) (k : Z) :
  0 <= k ->
  (forall j : nat, (Z.to_nat k <= j < Z.to_nat k + 8)%nat -> v2 !! j = v1 !! j) ->
  getFloat64 v2 k = getFloat64 v1 k.
Proof.
  intros Hk H. unfold getFloat64.
  rewrite (getUint32_agree v1 v2 k), (getUint32_agree v1 v2 (k + 4));
    [done | lia | intros j Hj; apply H; lia | lia | intros j Hj; apply H; lia].
Qed.

Lemma clearCompression_value (x : byte) :
  byte_to_Z (clearCompression x) = Z.land (byte_to_Z x) 0x3F.
Proof. by destruct x. Qed.

(** A buffer that carries the bytes of a readable header, except for the
    format byte, reads as the same header with that format. *)
Lemma parseHeader_agree (src dst : buffer) (h : LASHeader) (x : byte) :
  parseHeader src = Ok h ->
  (forall j : nat, (j < 179)%nat -> j <> 104%nat -> dst !! j = src !! j) ->
  (extended_header h -> forall j : nat, (247 <= j < 255)%nat -> dst !! j = src !! j) ->
  dst !! 104%nat = Some x ->
  parseHeader dst =
    Ok {| signature := signature h;
          versionMajor := versionMajor h;
          versionMinor := versionMinor h;
          headerSize := headerSize h;
          offsetToPointData := offsetToPointData h;
          pointDataRecordFormat := byte_to_Z x;
          pointDataRecordLength := pointDataRecordLength h;
          numberOfPoints := numberOfPoints h;
          scaleX := scaleX h; scaleY := scaleY h; scaleZ := scaleZ h;
          offsetX := offsetX h; offsetY := offsetY h; offsetZ := offsetZ h |}.
Proof.
  intros Hhdr Hsame Hext H104.
  assert (Hs8 : forall k, 0 <= k < 179 -> k <> 104 -> getUint8 dst k = getUint8 src k).
  { intros k Hk Hne. apply getUint8_agree, Hsame; lia. }
  assert (Hs16 : forall k, 0 <= k -> k + 2 <= 179 -> (k + 2 <= 104 \/ 104 < k) ->
                           getUint16 dst k = getUint16 src k).
  { intros k Hk Hk' Hne. apply getUint16_agree; [done|].
    intros j Hj. apply Hsame; lia. }
  assert (Hs32 : forall k, 0 <= k -> k + 4 <= 179 -> (k + 4 <= 104 \/ 104 < k) ->
                           getUint32 dst k = getUint32 src k).
  { intros k Hk Hk' Hne. apply getUint32_agree; [done|].
    intros j Hj. apply Hsame; lia. }
  assert (Hs64 : forall k, 0 <= k -> k + 8 <= 179 -> (k + 8 <= 104 \/ 104 < k) ->
                           getFloat64 dst k = getFloat64 src k).
  { intros k Hk Hk' Hne. apply getFloat64_agree; [done|].
    intros j Hj. apply Hsame; lia. }
  assert (Hsig : readSignature dst = readSignature src).
  { unfold readSignature. by rewrite !Hs8 by lia. }
  pose proof (extended_test h) as Htest.
  revert Hhdr Hext Htest. unfold parseHeader. rewrite Hsig. intros H Hext Htest.
  inv_bind H. rewrite Hv. cbn [rbind].
  destruct (negb (String.eqb v "LASF")); [done|].
  do 13 inv_bind H. inv_bind H. injection H as <-.
  cbn [signature versionMajor versionMinor headerSize offsetToPointData
       pointDataRecordFormat pointDataRecordLength numberOfPoints
       scaleX scaleY scaleZ offsetX offsetY offsetZ] in *.
  rewrite (Hs8 24), Hv0 by lia. cbn [rbind].
  rewrite (Hs8 25), Hv1 by lia. cbn [rbind].
  rewrite (Hs16 94), Hv2 by lia. cbn [rbind].
  rewrite (Hs32 96), Hv3 by lia. cbn [rbind].
  assert (Hfmt : getUint8 dst 104 = Ok (byte_to_Z x)).
  { unfold getUint8. simpl. change (Z.to_nat 104) with 104%nat. by rewrite H104. }
  rewrite Hfmt. cbn [rbind].
  rewrite (Hs16 105), Hv5 by lia. cbn [rbind].
  rewrite (Hs32 107), Hv6 by lia. cbn [rbind].
  rewrite (Hs64 131), Hv7 by lia. cbn [rbind].
  rewrite (Hs64 139), Hv8 by lia. cbn [rbind].
  rewrite (Hs64 147), Hv9 by lia. cbn [rbind].
  rewrite (Hs64 155), Hv10 by lia. cbn [rbind].
  rewrite (Hs64 163), Hv11 by lia. cbn [rbind].
  rewrite (Hs64 171), Hv12 by lia. cbn [rbind].
  cbv zeta in Hv13.
  destruct ((v0 >=? 1) && (v1 >=? 4) && (v2 >=? 375)) eqn:E.
  - specialize (Hext (proj1 Htest eq_refl)).
    rewrite (getUint32_agree src dst 247), (getUint32_agree src dst 251);
      [| lia | intros j Hj; apply Hext; lia | lia | intros j Hj; apply Hext; lia].
    rewrite Hv13. reflexivity.
  - rewrite Hv13. reflexivity.
Qed.

Lemma decompressLaz_parseHeader (module : LazPerf) (lazBuffer : buffer)
    (m : machine module) (out : buffer) (h : LASHeader) :
  (decompressLaz module lazBuffer m).1 = Ok out ->
  readLazHeader lazBuffer = Ok h ->
  179 <= offsetToPointData h ->
  (extended_header h -> 255 <= offsetToPointData h) ->
  parseHeader out = Ok (decompressedHeader h).
Proof.
  intros Hrun Hhdr Hoff Hextoff.
  destruct (decompressLaz_output module lazBuffer m out Hrun)
    as (h' & o1 & recs & format & Hhdr' & Hformat & _ & _ & _ & _ & _ & Hsame
        & H104 & _).
  rewrite Hhdr in Hhdr'. injection Hhdr' as <-.
  pose proof (proj2 (parseHeader_readLazHeader _ _) Hhdr) as Hparse.
  assert (Hfmt : pointDataRecordFormat h = byte_to_Z format).
  { pose proof (parseHeader_inv _ _ Hparse) as (_ & _ & _ & _ & _ & Hf & _).
    unfold getUint8 in Hf. simpl in Hf. change (Z.to_nat 104) with 104%nat in Hf.
    rewrite Hformat in Hf. by injection Hf as <-. }
  unfold decompressedHeader. rewrite Hfmt, <- clearCompression_value.
  apply (parseHeader_agree lazBuffer out h); [done | | |].
  - intros j Hj Hne. apply Hsame; [lia | done].
  - intros He j Hj. specialize (Hextoff He). apply Hsame; lia.
  - apply H104. lia.
Qed.

Lemma land_63_bits (z : Z) :
  Z.testbit (Z.land z 0x3F) 7 = false /\ Z.testbit (Z.land z 0x3F) 6 = false.
Proof. rewrite !Z.land_spec. split; apply andb_false_r. Qed.

(** X13: decompression preserves the header.  When [decompressLaz]
    succeeds on a container whose point data start at or after byte 179
    (byte 255 if the extended count is consulted), [parseHeader] reads from
    the output the header [readLazHeader] read from the container, with
    the two compression bits cleared from the point format: the same
    version, offsets, record length, declared point count, scales and
    offsets; and [validate] accepts the output with that count. *)
Theorem decompressed_header_round_trip (module : LazPerf) (lazBuffer : buffer)
    (m : machine module) (out : buffer) (h : LASHeader) (maxPoints : Z) :
  (decompressLaz module lazBuffer m).1 = Ok out ->
  readLazHeader lazBuffer = Ok h ->
  179 <= offsetToPointData h ->
  (extended_header h -> 255 <= offsetToPointData h) ->
  parseHeader out = Ok (decompressedHeader h) /\
  Z.testbit (pointDataRecordFormat (decompressedHeader h)) 7 = false /\
  Z.testbit (pointDataRecordFormat (decompressedHeader h)) 6 = false /\
  valid (validate {| buffer_of := out; maxPoints := maxPoints |}) = true /\
  pointCount (validate {| buffer_of := out; maxPoints := maxPoints |})
    = Some (numberOfPoints h).
Proof.
  intros Hrun Hhdr Hoff Hextoff.
  pose proof (decompressLaz_parseHeader module lazBuffer m out h Hrun Hhdr Hoff Hextoff)
    as Hparse.
  split; [done|]. split; [apply land_63_bits|]. split; [apply land_63_bits|].
  rewrite (validate_of_parseHeader {| buffer_of := out; maxPoints := maxPoints |}
             (decompressedHeader h) Hparse).
  done.
Qed.

Lemma decompressed_header_round_trip_witness :
  exists out,
    (decompressLaz (Sample.engine Sample.laz_records 26) Sample.laz_file
       (machine0 _)).1 = Ok out /\
    parseHeader out = Ok (Sample.parsed12 2).
Proof.
  destruct (decompressLaz (Sample.engine Sample.laz_records 26) Sample.laz_file
              (machine0 _)).1 as [out|e] eqn:Hrun;
    [|vm_compute in Hrun; discriminate].
  exists out. split; [reflexivity|].
  refine (proj1 (decompressed_header_round_trip (Sample.engine Sample.laz_records 26)
            Sample.laz_file (machine0 _) out
            {| signature := "LASF"; versionMajor := 1; versionMinor := 2;
               headerSize := 227; offsetToPointData := 227;
               pointDataRecordFormat := 130; pointDataRecordLength := 26;
               numberOfPoints := 2;
               scaleX := 1; scaleY := 1; scaleZ := 1;
               offsetX := 0; offsetY := 0; offsetZ := 0 |} 2000000 Hrun _ _ _)).
  - vm_compute. reflexivity.
  - simpl. lia.
  - unfold extended_header. simpl. lia.
Defined.

(** Reads from a slice of a buffer are reads from the buffer. *)
Lemma getUint8_slice (out rc : buffer) (o len : nat) (d : Z) :
  take len (drop o out) = rc -> 0 <= d < Z.of_nat len ->
  getUint8 rc d = getUint8 out (Z.of_nat o + d).
Proof.
  intros <- Hd. unfold getUint8.
  destruct (Z.ltb_spec d 0); [lia|].
  destruct (Z.ltb_spec (Z.of_nat o + d) 0); [lia|].
  rewrite lookup_take_lt, lookup_drop by lia.
  replace (Z.to_nat (Z.of_nat o + d)) with (o + Z.to_nat d)%nat by lia.
  done.
Qed.

Lemma getInt32_slice (out rc : buffer) (o len : nat) (d : Z) :
  take len (drop o out) = rc -> 0 <= d -> d + 4 <= Z.of_nat len ->
  getInt32 rc d = getInt32 out (Z.of_nat o + d).
Proof.
  intros Hrc H0 H4. unfold getInt32, getUint32, getUint16.
  rewrite (getUint8_slice out rc o len d), (getUint8_slice out rc o len (d + 1)),
    (getUint8_slice out rc o len (d + 2)), (getUint8_slice out rc o len (d + 2 + 1))
    by (done || lia).
  by rewrite !Z.add_assoc.
Qed.

(** X14: decompression followed by parsing recovers the staged records.
    For a container whose header agrees with the engine on the number of
    points and on the record length (at least 12 bytes), [parse] of the
    decompressed buffer succeeds with the container's header (compression
    bits cleared), loads [ceil(N / step)] points, and the [k]-th loaded
    point has the coordinates decoded from the first 12 bytes of the
    record the engine staged at index [k * step]. *)
Theorem decompressed_points_round_trip (Math_cos : float -> float) (module : LazPerf)
    (lazBuffer : buffer) (m : machine module) (out : buffer) (h : LASHeader)
    (o1 : LASZip module) (recs : list (list byte)) (M : Z) :
  let filePtr := brk module m in
  let hp := heap_set (HEAPU8 module m) lazBuffer filePtr in
  let pointPtr := filePtr + Z.of_nat (S (length lazBuffer)) in
  let this := {| buffer_of := out; maxPoints := M |} in
  let N := numberOfPoints h in
  let step := stride N M in
  (decompressLaz module lazBuffer m).1 = Ok out ->
  readLazHeader lazBuffer = Ok h ->
  LASZip_open module (LASZip_new module) hp filePtr (byteLength lazBuffer) = Ok o1 ->
  stagedRecords module o1 hp pointPtr (LASZip_getPointLength module o1)
    (LASZip_getCount module o1) = Ok recs ->
  Z.of_nat (LASZip_getCount module o1) = N ->
  Z.of_nat (LASZip_getPointLength module o1) = pointDataRecordLength h ->
  12 <= pointDataRecordLength h ->
  179 <= offsetToPointData h ->
  (extended_header h -> 255 <= offsetToPointData h) ->
  0 < M ->
  exists d pts,
    parse Math_cos this
      = Ok {| header := decompressedHeader h; derived := d; points := pts |} /\
    loadedPoints d = Num.ceil_div N step /\
    forall k : nat, Z.of_nat k < Num.ceil_div N step ->
      exists pt rc,
        retained this (decompressedHeader h) !! k = Some pt /\
        recs !! Z.to_nat (Z.of_nat k * step) = Some rc /\
        readRecord {| buffer_of := rc; maxPoints := M |} (decompressedHeader h) 0
        = Ok {| lon := lon pt; lat := lat pt; z := LASParser.z pt; offset := 0 |}.
Proof.
  intros filePtr hp pointPtr this N step Hrun Hhdr Hopen Hrecs Hcount Hlength
    Hrec12 Hoff Hextoff Hmax.
  destruct (decompressLaz_output module lazBuffer m out Hrun)
    as (h' & o1' & recs' & format & Hhdr' & _ & Hopen' & Hrecs' & _ & Hlen & _ & _
        & _ & _ & _ & Hslice).
  rewrite Hhdr in Hhdr'. injection Hhdr' as <-.
  fold filePtr hp in Hopen'. rewrite Hopen in Hopen'. injection Hopen' as <-.
  fold filePtr hp pointPtr in Hrecs'. rewrite Hrecs in Hrecs'. injection Hrecs' as <-.
  pose proof (decompressLaz_parseHeader module lazBuffer m out h Hrun Hhdr Hoff Hextoff)
    as Hparse.
  set (h2 := decompressedHeader h) in *.
  set (L := pointDataRecordLength h) in *.
  set (off := offsetToPointData h) in *.
  pose proof (parseHeader_count_nonneg _ _ Hparse) as HN.
  change (numberOfPoints h2) with N in HN.
  assert (Hstep : 1 <= step) by (by apply stride_pos).
  assert (Hbytes : byteLength out = off + N * L).
  { unfold byteLength. rewrite Hlen. lia. }
  pose proof (ceil_div_spec N step ltac:(lia)) as Hc.
  set (count := Num.ceil_div N step) in *.
  assert (Hcnt : 0 <= count <= N) by nia.
  destruct (readLoop_progression this h2 ltac:(simpl; lia) ltac:(simpl; lia) Hmax
              (Z.to_nat count) (Z.to_nat N) 0 [] extrema0)
    as (pts & Hloop & Hlenpts & Hk).
  - lia.
  - lia.
  - intros k Hk.
    change (stride (numberOfPoints h2) (maxPoints this)) with step.
    change (numberOfPoints h2) with N. change (offsetToPointData h2) with off.
    change (pointDataRecordLength h2) with L. change (buffer_of this) with out.
    assert (Hk1 : Z.of_nat k <= count - 1) by lia.
    assert (Hk2 : Z.of_nat k * step <= (count - 1) * step)
      by (apply Z.mul_le_mono_nonneg_r; lia).
    assert (Hk3 : Z.of_nat k * step <= N - 1) by lia.
    split; [lia|].
    assert ((0 + Z.of_nat k * step) * L <= (N - 1) * L)
      by (apply Z.mul_le_mono_nonneg_r; lia).
    lia.
  - left. change (stride (numberOfPoints h2) (maxPoints this)) with step.
    change (numberOfPoints h2) with N. rewrite Z2Nat.id by lia. lia.
  - destruct (parsePoints_spec Math_cos this h2 ltac:(simpl; lia) ltac:(simpl; lia) Hmax)
      as (d & out3 & Hpp & Hloaded & _).
    assert (Hret : retained this h2 = pts).
    { unfold retained. change (numberOfPoints h2) with N. by rewrite Hloop. }
    exists d, out3. split; [|split].
    + unfold parse. change (buffer_of this) with out. rewrite Hparse. cbn [rbind].
      by rewrite Hpp.
    + rewrite Hloaded, Hret, Hlenpts. lia.
    + intros k Hlt. destruct (Hk k ltac:(lia)) as (pt & Hpt & Hread).
      change (stride (numberOfPoints h2) (maxPoints this)) with step in Hread.
      change (offsetToPointData h2) with off in Hread.
      change (pointDataRecordLength h2) with L in Hread.
      assert (Hidx : 0 <= Z.of_nat k * step < N).
      { assert (Z.of_nat k * step <= (count - 1) * step)
          by (apply Z.mul_le_mono_nonneg_r; lia). lia. }
      destruct (stagedRecords_lengths _ _ _ _ _ _ _ Hrecs) as [Hnrecs _].
      destruct (lookup_lt_is_Some_2 recs (Z.to_nat (Z.of_nat k * step))) as [rc Hrc];
        [lia|].
      destruct (Hslice _ _ Hrc) as [Hrclen Hrcslice].
      exists pt, rc. rewrite Hret. split; [done|]. split; [done|].
      set (o := (Z.to_nat off + Z.to_nat (Z.of_nat k * step)
                 * LASZip_getPointLength module o1)%nat) in *.
      assert (Ho : Z.of_nat o = off + (0 + Z.of_nat k * step) * L).
      { unfold o. rewrite Nat2Z.inj_add, Nat2Z.inj_mul, !Z2Nat.id by lia.
        rewrite Hlength. lia. }
      unfold readRecord in Hread |- *. cbn [buffer_of] in Hread |- *.
      rewrite (getInt32_slice out rc o _ 0 Hrcslice),
        (getInt32_slice out rc o _ (0 + 4) Hrcslice),
        (getInt32_slice out rc o _ (0 + 8) Hrcslice) by lia.
      rewrite Ho, !Z.add_0_r, !Z.add_0_l.
      rewrite !Z.add_0_l in Hread.
      do 3 inv_bind Hread. injection Hread as <-.
      change (buffer_of this) with out in Hv, Hv0, Hv1.
      rewrite Hv, Hv0, Hv1. reflexivity.
Qed.

Lemma decompressed_points_round_trip_witness :
  exists out d pts,
    (decompressLaz (Sample.engine Sample.laz_records 26) Sample.laz_file
       (machine0 _)).1 = Ok out /\
    parse Sample.cos_at_equator {| buffer_of := out; maxPoints := 2000000 |}
      = Ok {| header := Sample.parsed12 2; derived := d; points := pts |} /\
    loadedPoints d = 2.
Proof.
  destruct (decompressLaz (Sample.engine Sample.laz_records 26) Sample.laz_file
              (machine0 _)).1 as [out|e] eqn:Hrun;
    [|vm_compute in Hrun; discriminate].
  destruct (decompressed_points_round_trip Sample.cos_at_equator
              (Sample.engine Sample.laz_records 26) Sample.laz_file (machine0 _) out
              {| signature := "LASF"; versionMajor := 1; versionMinor := 2;
                 headerSize := 227; offsetToPointData := 227;
                 pointDataRecordFormat := 130; pointDataRecordLength := 26;
                 numberOfPoints := 2;
                 scaleX := 1; scaleY := 1; scaleZ := 1;
                 offsetX := 0; offsetY := 0; offsetZ := 0 |}
              0%nat Sample.laz_records 2000000)
    as (d & pts & Hparse & Hloaded & _).
  - exact Hrun.
  - vm_compute. reflexivity.
  - reflexivity.
  - vm_compute. reflexivity.
  - reflexivity.
  - reflexivity.
  - simpl. lia.
  - simpl. lia.
  - unfold extended_header. simpl. lia.
  - lia.
  - exists out, d, pts. split; [reflexivity|]. split; [exact Hparse | exact Hloaded].
Defined.

(** ** The slice filter *)

Lemma filter_sublist {A} (f : A -> bool) (l : list A) : sublist (List.filter f l) l.
Proof.
  induction l as [|a l IH]; simpl; [constructor|].
  destruct (f a); by constructor.
Qed.

Lemma filter_full {A} (f : A -> bool) (l : list A) :
  length (List.filter f l) = length l -> List.filter f l = l.
Proof.
  induction l as [|a l IH]; simpl; [done|].
  destruct (f a); simpl; intros H.
  - f_equal. apply IH. lia.
  - pose proof (sublist_length _ _ (filter_sublist f l)). lia.
Qed.

Section SliceSelection.

Import Slicer.

Lemma pointAt_length (a : list float) (i : nat) : length (pointAt a i) = 3%nat.
Proof. done. Qed.

Lemma flat_map_triples {A} (f : A -> list float) (l : list A) :
  (forall i, length (f i) = 3%nat) -> length (flat_map f l) = (3 * length l)%nat.
Proof.
  intros Hf. induction l as [|a l IH]; simpl; [done|].
  rewrite length_app, Hf, IH. lia.
Qed.

(** Point [i] of a flat array that holds it entirely. *)
Lemma pointAt_take (a : list float) (i : nat) :
  (i * 3 + 3 <= length a)%nat -> pointAt a i = take 3 (drop (i * 3) a).
Proof.
  intros Hlen. unfold pointAt, at_.
  pose proof (length_drop a (i * 3)) as Hd.
  rewrite <- (Nat.add_0_r (i * 3)) at 1.
  rewrite <- !lookup_drop.
  destruct (drop (i * 3) a) as [|v0 [|v1 [|v2 rest]]]; simpl in Hd; try lia.
  done.
Qed.

(** All the points of a flat array, in order, are the array. *)
Lemma pointAt_all (a : list float) (n : nat) :
  forall i : nat, ((i + n) * 3 <= length a)%nat ->
  flat_map (pointAt a) (seq i n) = take (n * 3) (drop (i * 3) a).
Proof.
  induction n as [|n IH]; intros i Hlen; [done|].
  cbn [seq flat_map]. rewrite IH by lia.
  rewrite pointAt_take by lia.
  replace (S i * 3)%nat with (i * 3 + 3)%nat by lia.
  rewrite <- drop_drop.
  replace (S n * 3)%nat with (3 + n * 3)%nat by lia.
  by rewrite take_take_drop.
Qed.

Lemma filterLoop_spec (pointColor : PointColor)
    (originalPositions originalColors : list float)
    (xMin xMax yMin yMax zMin zMax cosR sinR : float) (n : nat) :
  forall (i : nat) (fp fc : list float),
  let kept := List.filter
                (inSlice originalPositions xMin xMax yMin yMax zMin zMax cosR sinR)
                (seq i n) in
  filterLoop pointColor originalPositions originalColors
    xMin xMax yMin yMax zMin zMax cosR sinR n i fp fc
  = (fp ++ flat_map (pointAt originalPositions) kept,
     fc ++ flat_map (sliceColor pointColor originalColors) kept).
Proof.
  induction n as [|n IH]; intros i fp fc; cbv zeta.
  - simpl. by rewrite !app_nil_r.
  - cbn [filterLoop seq List.filter].
    change ((xMin <=? at_ originalPositions (i * 3) * cosR
                      - at_ originalPositions (i * 3 + 1) * sinR)%float
            && (at_ originalPositions (i * 3) * cosR
                - at_ originalPositions (i * 3 + 1) * sinR <=? xMax)%float
            && (yMin <=? at_ originalPositions (i * 3) * sinR
                         + at_ originalPositions (i * 3 + 1) * cosR)%float
            && (at_ originalPositions (i * 3) * sinR
                + at_ originalPositions (i * 3 + 1) * cosR <=? yMax)%float
            && (zMin <=? at_ originalPositions (i * 3 + 2))%float
            && (at_ originalPositions (i * 3 + 2) <=? zMax)%float)
      with (inSlice originalPositions xMin xMax yMin yMax zMin zMax cosR sinR i).
    destruct (inSlice originalPositions xMin xMax yMin yMax zMin zMax cosR sinR i).
    + destruct pointColor; rewrite IH; cbn [flat_map]; rewrite <- !app_assoc;
        reflexivity.
    + apply IH.
Qed.

Lemma applySlice_enabled (Math_cos Math_sin : float -> float)
    (state : SlicerState) (pointColor : PointColor) (rotationZ : float)
    (current : ThreeRef) (geometry : BufferGeometry) (op : list float) :
  enabled state = true ->
  points current = Some geometry ->
  originalPositions current = Some op ->
  let rotRad := (rotationZ * Num.Math_PI / 180)%float in
  let kept :=
    List.filter
      (inSlice op
         (worldBound (boundsX state) (min (x state)))
         (worldBound (boundsX state) (max (x state)))
         (worldBound (boundsY state) (min (y state)))
         (worldBound (boundsY state) (max (y state)))
         (worldBound (boundsZ state) (min (z state)))
         (worldBound (boundsZ state) (max (z state)))
         (Math_cos rotRad) (Math_sin rotRad))
      (seq 0 (iterations (length op))) in
  applySlice Math_cos Math_sin state pointColor rotationZ current
  = {| points :=
         Some {| position := Some (map Num.fround (flat_map (pointAt op) kept));
                 color := Some (map Num.fround
                                  (flat_map (sliceColor pointColor
                                               (originalColors current)) kept)) |};
       originalPositions := Some op;
       originalColors := originalColors current |}.
Proof.
  intros Hen Hpts Hop rotRad kept.
  unfold applySlice. rewrite Hpts, Hop, Hen. cbn [negb].
  rewrite filterLoop_spec. reflexivity.
Qed.

(** X15: with the slicer enabled, [applySlice] displays exactly the
    original points that pass the six comparisons, in their original
    order: the new position buffer is the concatenation, over the passing
    indices in increasing order, of the three stored (local, unrotated)
    coordinates of each point, and the new colour buffer that of its three
    original colour entries, or of the solid colour when one is chosen;
    entries are rounded to float32.  No point is added, moved or
    reordered, and the originals are kept. *)
Theorem slice_selects_points (Math_cos Math_sin : float -> float)
    (state : SlicerState) (pointColor : PointColor) (rotationZ : float)
    (current : ThreeRef) (geometry : BufferGeometry) (op : list float) :
  enabled state = true ->
  points current = Some geometry ->
  originalPositions current = Some op ->
  let rotRad := (rotationZ * Num.Math_PI / 180)%float in
  let kept :=
    List.filter
      (inSlice op
         (worldBound (boundsX state) (min (x state)))
         (worldBound (boundsX state) (max (x state)))
         (worldBound (boundsY state) (min (y state)))
         (worldBound (boundsY state) (max (y state)))
         (worldBound (boundsZ state) (min (z state)))
         (worldBound (boundsZ state) (max (z state)))
         (Math_cos rotRad) (Math_sin rotRad))
      (seq 0 (iterations (length op))) in
  applySlice Math_cos Math_sin state pointColor rotationZ current
  = {| points :=
         Some {| position := Some (map Num.fround (flat_map (pointAt op) kept));
                 color := Some (map Num.fround
                                  (flat_map (sliceColor pointColor
                                               (originalColors current)) kept)) |};
       originalPositions := Some op;
       originalColors := originalColors current |} /\
  sublist kept (seq 0 (iterations (length op))) /\
  (length kept <= iterations (length op))%nat /\
  length (flat_map (pointAt op) kept) = (3 * length kept)%nat /\
  length (flat_map (sliceColor pointColor (originalColors current)) kept)
    = (3 * length kept)%nat.
Proof.
  intros Hen Hpts Hop rotRad kept.
  split; [|split; [|split; [|split]]].
  - by apply (applySlice_enabled _ _ _ _ _ _ geometry).
  - apply filter_sublist.
  - pose proof (sublist_length _ _ (filter_sublist
        (inSlice op
           (worldBound (boundsX state) (min (x state)))
           (worldBound (boundsX state) (max (x state)))
           (worldBound (boundsY state) (min (y state)))
           (worldBound (boundsY state) (max (y state)))
           (worldBound (boundsZ state) (min (z state)))
           (worldBound (boundsZ state) (max (z state)))
           (Math_cos rotRad) (Math_sin rotRad))
        (seq 0 (iterations (length op))))) as Hlen.
    by rewrite length_seq in Hlen.
  - by apply flat_map_triples.
  - apply flat_map_triples. intros i. by destruct pointColor.
Qed.

End SliceSelection.

Section SliceRoundTrip.

Import Slicer.

Lemma map_fround_float32 (a : list float) :
  float32_array a -> map Num.fround a = a.
Proof.
  induction 1 as [|v a Hv _ IH]; simpl; [done|]. by rewrite Hv, IH.
Qed.

Lemma iterations_triples (n : nat) : iterations (3 * n) = n.
Proof.
  unfold iterations. replace (3 * n + 2)%nat with (2 + n * 3)%nat by lia.
  rewrite Nat.div_add by lia. done.
Qed.

(** X16: switching the slicer on and off again gives back the loaded
    cloud.  For originals that hold whole points (a multiple of three
    float32 entries), an [applySlice] with the slicer enabled followed by
    one with the slicer disabled leaves the position buffer equal to the
    original positions, whether the filter had dropped points (the buffer
    is restored from the originals) or none (the filtered buffer already
    was the original one); with [pointColor = 'original'] and as many
    original colour entries, the colour buffer equals the original
    colours. *)
Theorem slice_off_restores (Math_cos Math_sin : float -> float)
    (on off : SlicerState) (pointColor : PointColor) (rotationZ : float)
    (current : ThreeRef) (geometry : BufferGeometry) (op : list float) (n : nat) :
  enabled on = true ->
  enabled off = false ->
  points current = Some geometry ->
  originalPositions current = Some op ->
  length op = (3 * n)%nat ->
  float32_array op ->
  let sliced := applySlice Math_cos Math_sin on pointColor rotationZ current in
  let restored := applySlice Math_cos Math_sin off pointColor rotationZ sliced in
  exists g,
    points restored = Some g /\
    position g = Some op /\
    originalPositions restored = Some op /\
    (pointColor = original ->
     length (originalColors current) = length op ->
     float32_array (originalColors current) ->
     color g = Some (originalColors current)).
Proof.
  intros Hon Hoff Hpts Hop Hlen H32 sliced restored.
  pose proof (applySlice_enabled Math_cos Math_sin on pointColor rotationZ current
                geometry op Hon Hpts Hop) as Hsliced.
  cbv zeta in Hsliced.
  set (kept := List.filter _ (seq 0 (iterations (length op)))) in Hsliced.
  assert (Hfull : length kept = n -> kept = seq 0 n).
  { intros Hk. unfold kept. rewrite Hlen, iterations_triples.
    apply filter_full. rewrite length_seq.
    unfold kept in Hk. by rewrite Hlen, iterations_triples in Hk. }
  assert (Hall : forall a : list float, length a = (3 * n)%nat ->
                 flat_map (pointAt a) (seq 0 n) = a).
  { intros a Ha. rewrite pointAt_all by lia. simpl drop.
    apply take_ge. lia. }
  subst restored. fold sliced in Hsliced. rewrite Hsliced.
  unfold applySlice. cbn [points originalPositions originalColors position color].
  rewrite Hoff. cbn [negb].
  rewrite length_map, flat_map_triples by done.
  destruct (Nat.eqb_spec (3 * length kept) (length op)) as [Heq | Hne]; cbn [negb].
  - rewrite Hfull by lia.
    eexists. split; [reflexivity|]. cbn [position color].
    rewrite Hall, map_fround_float32 by done.
    split; [done|]. split; [done|].
    intros -> Hlc Hc32. cbn [sliceColor].
    rewrite Hall, map_fround_float32 by (done || lia). done.
  - eexists. split; [reflexivity|]. cbn [position color].
    split; [done|]. split; [done|]. by intros ->.
Qed.

End SliceRoundTrip.

Section SliceBoundsOfRotation.

Import Slicer.

Lemma boundsLoop_running (a : list float) (cosR sinR : float) (n : nat) :
  forall (i : nat) (bX bY bZ : SliceBounds),
  boundsLoop a cosR sinR n i bX bY bZ
  = ({| bmin := running_min (map (worldX a cosR sinR) (seq i n)) (bmin bX);
        bmax := running_max (map (worldX a cosR sinR) (seq i n)) (bmax bX) |},
     {| bmin := running_min (map (worldY a cosR sinR) (seq i n)) (bmin bY);
        bmax := running_max (map (worldY a cosR sinR) (seq i n)) (bmax bY) |},
     {| bmin := running_min (map (worldZ a) (seq i n)) (bmin bZ);
        bmax := running_max (map (worldZ a) (seq i n)) (bmax bZ) |}).
Proof.
  induction n as [|n IH]; intros i bX bY bZ.
  - by destruct bX, bY, bZ.
  - cbn [boundsLoop seq map]. rewrite IH. reflexivity.
Qed.

(** X17: [updateBoundsForRotation] dispatches nothing for a missing or
    empty position array; otherwise it dispatches [SET_BOUNDS] with bounds
    that enclose the cloud as rotated by [rotDegrees]: on each axis no
    point has a world coordinate below the new minimum or above the new
    maximum.  The dispatch replaces the bounds only: the percentage ranges
    and the on/off flag of the slicer are those of the state before. *)
Theorem rotation_bounds_enclose (Math_cos Math_sin : float -> float)
    (positions : list float) (rotDegrees : float) :
  updateBoundsForRotation Math_cos Math_sin None rotDegrees = None /\
  updateBoundsForRotation Math_cos Math_sin (Some []) rotDegrees = None /\
  (positions <> [] ->
   let rotRad := (rotDegrees * Num.Math_PI / 180)%float in
   let cosR := Math_cos rotRad in
   let sinR := Math_sin rotRad in
   exists bX bY bZ,
     updateBoundsForRotation Math_cos Math_sin (Some positions) rotDegrees
       = Some (SET_BOUNDS bX bY bZ) /\
     (forall i : nat, (i < iterations (length positions))%nat ->
        (worldX positions cosR sinR i <? bmin bX)%float = false /\
        (bmax bX <? worldX positions cosR sinR i)%float = false /\
        (worldY positions cosR sinR i <? bmin bY)%float = false /\
        (bmax bY <? worldY positions cosR sinR i)%float = false /\
        (worldZ positions i <? bmin bZ)%float = false /\
        (bmax bZ <? worldZ positions i)%float = false) /\
     (forall state : SlicerState,
        let state' := slicerReducer state (SET_BOUNDS bX bY bZ) in
        boundsX state' = bX /\ boundsY state' = bY /\ boundsZ state' = bZ /\
        x state' = x state /\ y state' = y state /\ z state' = z state /\
        enabled state' = enabled state)).
Proof.
  split; [done|]. split; [done|].
  intros Hne rotRad cosR sinR.
  unfold updateBoundsForRotation.
  destruct (Nat.eqb_spec (length positions) 0) as [Hz|_].
  { destruct positions; [done | discriminate Hz]. }
  fold rotRad. fold cosR sinR. rewrite boundsLoop_running.
  eexists _, _, _. split; [reflexivity|]. split; [|done].
  intros i Hi. cbn [bmin bmax].
  assert (Hin : forall f : nat -> float,
            f i ∈ map f (seq 0 (iterations (length positions)))).
  { intros f. apply list_elem_of_In, in_map, in_seq. lia. }
  repeat split;
    first [ apply running_min_bound | apply running_max_bound ]; apply Hin.
Qed.

End SliceBoundsOfRotation.

Section SliceSamples.

Import Slicer.

Lemma slice_selects_points_witness :
  let state := {| enabled := true;
                  x := {| min := 0; max := 50 |};
                  y := {| min := 0; max := 100 |};
                  z := {| min := 0; max := 100 |};
                  boundsX := {| bmin := 0%float; bmax := 10%float |};
                  boundsY := {| bmin := (-1)%float; bmax := 1%float |};
                  boundsZ := {| bmin := (-1)%float; bmax := 1%float |} |} in
  let op := [0; 0; 0; 10; 0; 0]%float in
  let oc := [1; 0; 0; 0; 1; 0]%float in
  let current := {| points := Some {| position := Some op; color := Some oc |};
                    originalPositions := Some op;
                    originalColors := oc |} in
  applySlice Sample.cos_at_equator (fun _ => 0%float) state original 0 current
  = {| points := Some {| position := Some [0; 0; 0]%float;
                         color := Some [1; 0; 0]%float |};
       originalPositions := Some op;
       originalColors := oc |}.
Proof.
  intros state op oc current.
  rewrite (proj1 (slice_selects_points Sample.cos_at_equator (fun _ => 0%float)
                    state original 0%float current
                    {| position := Some op; color := Some oc |} op
                    eq_refl eq_refl eq_refl)).
  vm_compute. reflexivity.
Defined.

Lemma slice_off_restores_witness :
  let on := {| enabled := true;
               x := {| min := 0; max := 50 |};
               y := {| min := 0; max := 100 |};
               z := {| min := 0; max := 100 |};
               boundsX := {| bmin := 0%float; bmax := 10%float |};
               boundsY := {| bmin := (-1)%float; bmax := 1%float |};
               boundsZ := {| bmin := (-1)%float; bmax := 1%float |} |} in
  let off := slicerReducer on (SET_ENABLED false) in
  let op := [0; 0; 0; 10; 0; 0]%float in
  let oc := [1; 0; 0; 0; 1; 0]%float in
  let current := {| points := Some {| position := Some op; color := Some oc |};
                    originalPositions := Some op;
                    originalColors := oc |} in
  exists g,
    points (applySlice Sample.cos_at_equator (fun _ => 0%float) off original 0
              (applySlice Sample.cos_at_equator (fun _ => 0%float) on original 0
                 current)) = Some g /\
    position g = Some op.
Proof.
  intros on off op oc current.
  destruct (slice_off_restores Sample.cos_at_equator (fun _ => 0%float) on off
              original 0%float current {| position := Some op; color := Some oc |}
              op 2) as (g & Hg & Hp & _).
  - reflexivity.
  - reflexivity.
  - reflexivity.
  - reflexivity.
  - reflexivity.
  - unfold float32_array. repeat (constructor; [vm_compute; reflexivity|]).
    constructor.
  - exists g. split; [exact Hg | exact Hp].
Defined.

Lemma rotation_bounds_enclose_witness :
  exists bX bY bZ,
    updateBoundsForRotation Sample.cos_at_equator (fun _ => 0%float)
      (Some [0; 0; 0; 10; 0; 0]%float) 0
    = Some (SET_BOUNDS bX bY bZ) /\
    (bmax bX <? 10)%float = false.
Proof.
  destruct (proj2 (proj2 (rotation_bounds_enclose Sample.cos_at_equator
                            (fun _ => 0%float) [0; 0; 0; 10; 0; 0]%float 0%float))
              ltac:(discriminate)) as (bX & bY & bZ & Hrun & Hall & _).
  exists bX, bY, bZ. split; [exact Hrun|].
  destruct (Hall 1%nat ltac:(vm_compute; lia)) as (_ & Hmax & _).
  exact Hmax.
Defined.

End SliceSamples.

(** ** File kinds and [processFile] *)

Section FileDispatch.

Import FileKinds.

Variable toLowerCase : string -> string.
Variable module : LazPerf.

Lemma endsWith_suffix (s suffix : string) :
  endsWith s suffix = true ->
  substring (String.length s - String.length suffix) (String.length suffix) s = suffix.
Proof.
  unfold endsWith. intros H. apply andb_true_iff in H as [_ H].
  by apply String.eqb_eq.
Qed.

(** X18: [processFile] decompresses exactly the files whose name
    [isLazFile] accepts.  Such a name is supported and is never a LAS
    name.  A file of any other name, supported or not, is passed through
    byte for byte with the engine untouched.  For a LAZ name the outcome is
    that of [decompressLaz] on the file's bytes: its exception is
    propagated, and on success the returned buffer is the decompressed one,
    flagged [wasCompressed], from which [parseHeader] reads the container's
    header with the compression bits cleared (point data starting at or
    after byte 179, byte 255 if the extended count is consulted). *)
Theorem processFile_dispatch (file : File) (m : machine module) :
  (isLazFile toLowerCase (name file) = true ->
   isLasFile toLowerCase (name file) = false /\
   isSupportedFile toLowerCase (name file) = true) /\
  (isLazFile toLowerCase (name file) = false ->
   processFile toLowerCase module file m
   = (Ok {| buffer := arrayBuffer file; originalName := name file;
            wasCompressed := false |}, m)) /\
  (isLazFile toLowerCase (name file) = true ->
   (forall e m', decompressLaz module (arrayBuffer file) m = (Throw e, m') ->
      processFile toLowerCase module file m = (Throw e, m')) /\
   (forall p m', processFile toLowerCase module file m = (Ok p, m') ->
      decompressLaz module (arrayBuffer file) m = (Ok (buffer p), m') /\
      wasCompressed p = true /\
      originalName p = name file /\
      forall h, readLazHeader (arrayBuffer file) = Ok h ->
        179 <= offsetToPointData h ->
        (extended_header h -> 255 <= offsetToPointData h) ->
        parseHeader (buffer p) = Ok (decompressedHeader h))).
Proof.
  split; [|split].
  - unfold isLazFile, isLasFile, isSupportedFile. intros Hlaz.
    rewrite Hlaz, orb_true_r. split; [|done].
    destruct (endsWith (toLowerCase (name file)) ".las") eqn:Hlas; [|done].
    apply endsWith_suffix in Hlaz, Hlas. simpl String.length in *. congruence.
  - intros Hlaz. unfold processFile. by rewrite Hlaz.
  - intros Hlaz. unfold processFile. rewrite Hlaz. unfold mbind, mret. split.
    + intros e m' ->. done.
    + intros p m' H.
      destruct (decompressLaz module (arrayBuffer file) m) as [[out|e] m1] eqn:Hrun;
        [|done].
      injection H as <- <-. cbn [buffer wasCompressed originalName].
      repeat (split; [done|]).
      intros h Hhdr Hoff Hext.
      apply (decompressLaz_parseHeader module (arrayBuffer file) m out h);
        [by rewrite Hrun | done..].
Qed.

End FileDispatch.

Section FileDispatchSample.

Import FileKinds.

Lemma processFile_dispatch_witness :
  isLazFile (fun s => s) "cloud.laz" = true /\
  isLasFile (fun s => s) "cloud.laz" = false /\
  processFile (fun s => s) Sample.failing_engine
    {| name := "cloud.las"; arrayBuffer := Sample.laz_file |} (machine0 _)
  = (Ok {| buffer := Sample.laz_file; originalName := "cloud.las";
           wasCompressed := false |}, machine0 _).
Proof.
  split; [reflexivity|]. split.
  - exact (proj1 (proj1 (processFile_dispatch (fun s => s) Sample.failing_engine
                           {| name := "cloud.laz"; arrayBuffer := [] |} (machine0 _))
                    eq_refl)).
  - exact (proj1 (proj2 (processFile_dispatch (fun s => s) Sample.failing_engine
                           {| name := "cloud.las"; arrayBuffer := Sample.laz_file |}
                           (machine0 _)))
             eq_refl).
Defined.

End FileDispatchSample.

(** ** The parsing worker *)



(** ** How much of the budget subsampling uses *)

(** The records retained from a buffer that holds all the declared
    records. *)
Lemma retained_full_buffer (this : LASParser) (h : LASHeader) :
  0 <= offsetToPointData h ->
  12 <= pointDataRecordLength h ->
  0 < maxPoints this ->
  0 <= numberOfPoints h ->
  offsetToPointData h + numberOfPoints h * pointDataRecordLength h
    <= byteLength (buffer_of this) ->
  let step := stride (numberOfPoints h) (maxPoints this) in
  Z.of_nat (length (retained this h)) = Num.ceil_div (numberOfPoints h) step.
Proof.
  intros Hoff Hrec12 Hmax HN Hall step.
  assert (Hstep : 1 <= step) by (by apply stride_pos).
  pose proof (ceil_div_spec (numberOfPoints h) step ltac:(lia)) as Hc.
  set (N := numberOfPoints h) in *.
  set (count := Num.ceil_div N step) in *.
  assert (Hcount : 0 <= count <= N) by nia.
  destruct (readLoop_progression this h Hoff ltac:(lia) Hmax (Z.to_nat count)
              (Z.to_nat N) 0 [] extrema0) as (pts & Hloop & Hlen & _).
  - lia.
  - lia.
  - intros k Hk. change (stride (numberOfPoints h) (maxPoints this)) with step.
    fold N.
    assert (Hk1 : Z.of_nat k <= count - 1) by lia.
    assert (Hk2 : Z.of_nat k * step <= (count - 1) * step)
      by (apply Z.mul_le_mono_nonneg_r; lia).
    assert (Hk3 : Z.of_nat k * step <= N - 1) by lia.
    split; [lia|].
    assert ((0 + Z.of_nat k * step) * pointDataRecordLength h
            <= (N - 1) * pointDataRecordLength h)
      by (apply Z.mul_le_mono_nonneg_r; lia).
    lia.
  - left. change (stride (numberOfPoints h) (maxPoints this)) with step.
    fold N. rewrite Z2Nat.id by lia. lia.
  - unfold retained. fold N. rewrite Hloop. simpl. lia.
Qed.

(** X20: subsampling uses more than half of the point budget and wastes
    no stride.  When the header declares more points than [maxPoints] and
    the buffer holds all the declared records, the number of loaded
    points is more than half of [maxPoints] and at most [maxPoints] (so a
    file one point over the budget loads about half of it), and every
    smaller stride would exceed the budget. *)
Theorem subsampling_uses_budget (Math_cos : float -> float) (this : LASParser)
    (h : LASHeader) :
  parseHeader (buffer_of this) = Ok h ->
  0 < maxPoints this ->
  maxPoints this < numberOfPoints h ->
  12 <= pointDataRecordLength h ->
  offsetToPointData h + numberOfPoints h * pointDataRecordLength h
    <= byteLength (buffer_of this) ->
  exists d pts,
    parsePoints Math_cos this h = Ok (d, pts) /\
    maxPoints this < 2 * loadedPoints d /\
    loadedPoints d <= maxPoints this /\
    2 <= stride (numberOfPoints h) (maxPoints this) /\
    forall s : Z, 0 < s < stride (numberOfPoints h) (maxPoints this) ->
      maxPoints this < Num.ceil_div (numberOfPoints h) s.
Proof.
  intros Hhdr Hmax Hover Hrec12 Hall.
  pose proof (parseHeader_wf _ _ Hhdr) as [Hoff Hrec].
  pose proof (parseHeader_count_nonneg _ _ Hhdr) as HN.
  destruct (parsePoints_spec Math_cos this h Hoff Hrec Hmax)
    as (d & pts & Hrun & Hloaded & _).
  exists d, pts. split; [done|].
  rewrite Hloaded, (retained_full_buffer this h Hoff Hrec12 Hmax HN Hall).
  set (N := numberOfPoints h) in *. set (M := maxPoints this) in *.
  assert (Hstride : stride N M = Num.ceil_div N M).
  { unfold stride. destruct (Z.gtb_spec N M); [done | lia]. }
  rewrite Hstride.
  pose proof (ceil_div_spec N M Hmax) as HcM.
  set (step := Num.ceil_div N M) in *.
  assert (Hstep : 2 <= step) by nia.
  pose proof (ceil_div_spec N step ltac:(lia)) as Hc.
  set (count := Num.ceil_div N step) in *.
  split; [|split; [|split]].
  - nia.
  - nia.
  - done.
  - intros s Hs. pose proof (ceil_div_spec N s ltac:(lia)) as Hcs. nia.
Qed.

Lemma subsampling_uses_budget_witness :
  exists d pts,
    parsePoints Sample.cos_at_equator (new_LASParser Sample.five_points (Some 4))
      (Sample.parsed12 5) = Ok (d, pts) /\
    4 < 2 * loadedPoints d /\ loadedPoints d <= 4.
Proof.
  destruct (subsampling_uses_budget Sample.cos_at_equator
              (new_LASParser Sample.five_points (Some 4)) (Sample.parsed12 5))
    as (d & pts & Hrun & Hlow & Hhigh & _).
  - vm_compute. reflexivity.
  - simpl. lia.
  - simpl. lia.
  - simpl. lia.
  - vm_compute. discriminate.
  - exists d, pts. split; [exact Hrun|]. split; [exact Hlow | exact Hhigh].
Defined.

(** ** The heap after any run of [decompressLaz] *)

Section PointLoopComplete.

Variable module : LazPerf.

(** When the engine stages all the records and the output has room for
    them, the point loop completes. *)
Lemma pointLoop_complete (id : nat) (ptr : Z) (len off : nat) (n : nat) :
  forall (i : nat) (out : list byte) (m : machine module) (o : LASZip module)
         (recs : list (list byte)),
  objects module m !! id = Some o ->
  stagedRecords module o (HEAPU8 module m) ptr len n = Ok recs ->
  (off + (i + n) * len <= length out)%nat ->
  exists out' m', pointLoop module id ptr len off n i out m = (Ok out', m').
Proof.
  induction n as [|n IH]; intros i out m o recs Ho H Hfit; simpl in H.
  - simpl. unfold mret. eauto.
  - simpl. unfold mbind at 1, laszip_getPoint, with_object. rewrite Ho.
    destruct (LASZip_getPoint module o (HEAPU8 module m) ptr) as [[o' hp']|e0];
      [|done].
    simpl in H. unfold update_object. unfold mbind at 1, read_heap. simpl.
    unfold mbind at 1, lift.
    destruct (typed_set out (heap_view hp' ptr len) (off + i * len)) as [out1|e1] eqn:Hset.
    + apply typed_set_take in Hset as (_ & Hlen1 & _).
      destruct (stagedRecords module o' hp' ptr len n) as [rest|e2] eqn:Hrest;
        [|done].
      eapply (IH (S i) out1); [simpl; apply lookup_insert_eq | exact Hrest | lia].
    + exfalso. unfold typed_set in Hset. rewrite heap_view_length in Hset.
      destruct (Nat.ltb_spec (length out) (off + i * len + len)); [lia | done].
Qed.

End PointLoopComplete.

(** X21: the account of the heap after [decompressLaz], whatever its
    outcome.  From a machine whose addresses from [brk] on are free, the
    block of the file copy is never left allocated and the engine object
    of the [try] block is deleted in every case.  Exactly one of two
    things holds.  Either the engine does not throw in [getPoint] while
    the records are staged, and the table of heap allocations is the one
    before the call.  Or it does: then the call throws the engine's
    exception and the table is the one before the call plus the
    one-record staging buffer, at an address that was free. *)
Theorem decompress_heap_account (module : LazPerf) (lazBuffer : buffer)
    (m m' : machine module) (res : result buffer) :
  let filePtr := brk module m in
  let pointPtr := filePtr + Z.of_nat (S (length lazBuffer)) in
  machine_fresh m ->
  decompressLaz module lazBuffer m = (res, m') ->
  blocks module m' !! filePtr = None /\
  objects module m' !! S (nextObject module m) = None /\
  (((forall o1 e, ~ staging_throws lazBuffer m o1 e) /\
    blocks module m' = blocks module m) \/
   exists o1 e,
     staging_throws lazBuffer m o1 e /\
     res = Throw e /\
     blocks module m !! pointPtr = None /\
     blocks module m' !! pointPtr = Some (LASZip_getPointLength module o1) /\
     blocks module m'
       = <[pointPtr := LASZip_getPointLength module o1]> (blocks module m)).
Proof.
  intros filePtr pointPtr [Hblocks Hobjects] H.
  set (hp := heap_set (HEAPU8 module m) lazBuffer filePtr).
  assert (Hfile : blocks module m !! filePtr = None) by (apply Hblocks; unfold filePtr; lia).
  assert (Hpoint : blocks module m !! pointPtr = None)
    by (apply Hblocks; unfold pointPtr, filePtr; lia).
  assert (Hrestored : delete filePtr (<[filePtr := length lazBuffer]> (blocks module m))
                      = blocks module m) by (by apply delete_insert_id).
  unfold decompressLaz in H.
  unfold mbind at 1, lift at 1 in H.
  destruct (readLazHeader lazBuffer) as [h|e] eqn:Hhdr.
  2:{ injection H as <- <-. split; [done|]. split; [apply Hobjects; lia|].
      left. split; [|done]. intros o1 e1 (h1 & Hh1 & _). congruence. }
  unfold mbind at 1, new_LASZip at 1 in H.
  unfold mbind at 1, _malloc at 1 in H.
  unfold mbind at 1, HEAPU8_set at 1 in H.
  unfold try_finally in H.
  match type of H with
  | context [let '(x, m') := ?body in _] => destruct body as [x mb] eqn:Hbody
  end.
  (* the [try] block *)
  unfold mbind at 1, new_LASZip at 1 in Hbody.
  unfold mbind at 1, assign_laszip at 1 in Hbody.
  cbn [HEAPU8 blocks brk objects nextObject laszip] in Hbody.
  unfold mbind at 1, try_catch, laszip_open, with_object in Hbody.
  cbn [HEAPU8 blocks brk objects nextObject laszip] in Hbody.
  rewrite lookup_insert_eq in Hbody. fold filePtr hp in Hbody.
  destruct (LASZip_open module (LASZip_new module) hp filePtr (byteLength lazBuffer))
    as [o1|e] eqn:Hopen.
  2:{ unfold mthrow in Hbody. injection Hbody as <- <-.
      unfold mbind, read_laszip, delete_object, _free in H.
      cbn [HEAPU8 blocks brk objects nextObject laszip] in H.
      injection H as <- <-. cbn [HEAPU8 blocks brk objects nextObject laszip].
      fold filePtr. rewrite Hrestored.
      split; [done|]. split; [apply lookup_delete_eq|].
      left. split; [|done]. intros o1 e1 (h1 & _ & Ho1 & _).
      fold filePtr hp in Ho1. congruence. }
  unfold update_object in Hbody.
  cbn [HEAPU8 blocks brk objects nextObject laszip] in Hbody.
  unfold mbind at 1, laszip_getCount, with_object in Hbody.
  cbn [HEAPU8 blocks brk objects nextObject laszip] in Hbody.
  rewrite lookup_insert_eq in Hbody.
  unfold mret at 1 in Hbody.
  unfold mbind at 1, laszip_getPointLength, with_object in Hbody.
  cbn [HEAPU8 blocks brk objects nextObject laszip] in Hbody.
  rewrite lookup_insert_eq in Hbody.
  unfold mret at 1 in Hbody.
  unfold mbind at 1, lift at 1 in Hbody.
  set (off := Z.to_nat (offsetToPointData h)) in *.
  set (pointCount := LASZip_getCount module o1) in *.
  set (pointLength := LASZip_getPointLength module o1) in *.
  (* what [staging_throws] says of this run *)
  assert (Hinv : forall o e, staging_throws lazBuffer m o e ->
            o = o1 /\ (off <= length lazBuffer)%nat /\
            (104 < off + pointCount * pointLength)%nat /\
            stagedRecords module o1 hp pointPtr pointLength pointCount = Throw e).
  { intros o e (h1 & Hh1 & Ho & Hfit & H104 & Hst).
    fold filePtr hp pointPtr in Ho, Hst.
    assert (h1 = h) as -> by congruence.
    assert (o = o1) as -> by congruence. done. }
  destruct (subarray0 lazBuffer off) as [headerView|e] eqn:Hsub.
  2:{ injection Hbody as <- <-.
      unfold mbind, read_laszip, delete_object, _free in H.
      cbn [HEAPU8 blocks brk objects nextObject laszip] in H.
      injection H as <- <-. cbn [HEAPU8 blocks brk objects nextObject laszip].
      fold filePtr. rewrite Hrestored.
      split; [done|]. split; [apply lookup_delete_eq|].
      left. split; [|done]. intros o e1 Hst.
      apply Hinv in Hst as (_ & Hfit & _).
      unfold subarray0 in Hsub.
      destruct (Nat.ltb_spec (length lazBuffer) off); [lia | done]. }
  assert (Hfit : (off <= length lazBuffer)%nat /\ length headerView = off).
  { unfold subarray0 in Hsub.
    destruct (Nat.ltb_spec (length lazBuffer) off); [done|].
    injection Hsub as <-. rewrite length_take. lia. }
  destruct Hfit as [Hfit Hhv].
  unfold mbind at 1, lift at 1 in Hbody.
  destruct (typed_set _ headerView 0) as [outputView|e] eqn:Hset.
  2:{ exfalso. unfold typed_set in Hset. rewrite length_replicate, Hhv in Hset.
      destruct (Nat.ltb_spec (off + pointCount * pointLength) (0 + off)); [lia | done]. }
  apply typed_set_take in Hset as (_ & Hlenview & _).
  rewrite length_replicate in Hlenview.
  unfold mbind at 1, lift at 1 in Hbody.
  destruct (getUint8 outputView 104) as [originalFormat|e] eqn:Hfmt.
  2:{ injection Hbody as <- <-.
      unfold mbind, read_laszip, delete_object, _free in H.
      cbn [HEAPU8 blocks brk objects nextObject laszip] in H.
      injection H as <- <-. cbn [HEAPU8 blocks brk objects nextObject laszip].
      fold filePtr. rewrite Hrestored.
      split; [done|]. split; [apply lookup_delete_eq|].
      left. split; [|done]. intros o e1 Hst.
      apply Hinv in Hst as (_ & _ & H104 & _).
      destruct (getUint8_ok outputView 104) as (x & _ & Hx);
        [unfold byteLength; lia|].
      congruence. }
  assert (H104 : (104 < off + pointCount * pointLength)%nat).
  { apply getUint8_inv in Hfmt as [Hin _]. unfold byteLength in Hin. lia. }
  unfold mbind at 1, _malloc at 1 in Hbody.
  cbn [HEAPU8 blocks brk objects nextObject laszip] in Hbody.
  fold filePtr pointPtr in Hbody.
  unfold mbind at 1 in Hbody.
  match type of Hbody with
  | context [pointLoop ?a ?b ?c ?d ?e ?f ?g ?h ?i] =>
    destruct (pointLoop a b c d e f g h i) as [r1 m1] eqn:Hloop
  end.
  pose proof (pointLoop_frame _ _ _ _ _ _ _ _ _ _ _ Hloop) as (Hb1 & _ & _ & Hl1 & _).
  cbn [HEAPU8 blocks brk objects nextObject laszip] in Hb1, Hl1.
  destruct r1 as [out'|e'].
  - (* the loop completed *)
    unfold mbind, _free, mret in Hbody. injection Hbody as <- <-.
    unfold mbind, read_laszip, delete_object, _free in H.
    cbn [HEAPU8 blocks brk objects nextObject laszip] in H. rewrite Hl1 in H.
    injection H as <- <-. cbn [HEAPU8 blocks brk objects nextObject laszip].
    rewrite Hb1.
    assert (Hboth : delete filePtr
                      (delete pointPtr
                         (<[pointPtr := pointLength]>
                            (<[filePtr := length lazBuffer]> (blocks module m))))
                    = blocks module m).
    { rewrite delete_insert_id; [done|].
      rewrite lookup_insert_ne by (unfold pointPtr; lia). done. }
    fold filePtr. rewrite Hboth.
    split; [done|]. split; [apply lookup_delete_eq|].
    left. split; [|done]. intros o e1 Hst.
    apply Hinv in Hst as (_ & _ & _ & Hst).
    eapply pointLoop_Ok in Hloop as (recs & Hrecs & _);
      [|simpl; apply lookup_insert_eq].
    cbn [HEAPU8] in Hrecs. fold hp in Hrecs. congruence.
  - (* the loop threw *)
    injection Hbody as <- <-.
    unfold mbind, read_laszip, delete_object, _free in H. rewrite Hl1 in H.
    cbn [HEAPU8 blocks brk objects nextObject laszip] in H.
    injection H as <- <-. cbn [HEAPU8 blocks brk objects nextObject laszip].
    rewrite Hb1.
    assert (Hleft : delete filePtr
                      (<[pointPtr := pointLength]>
                         (<[filePtr := length lazBuffer]> (blocks module m)))
                    = <[pointPtr := pointLength]> (blocks module m)).
    { rewrite delete_insert_ne by (unfold pointPtr; lia). by rewrite Hrestored. }
    fold filePtr. rewrite Hleft.
    split; [rewrite lookup_insert_ne by (unfold pointPtr; lia); done|].
    split; [apply lookup_delete_eq|].
    right. exists o1, e'.
    assert (Hstaged : stagedRecords module o1 hp pointPtr pointLength pointCount
                      = Throw e').
    { destruct (stagedRecords module o1 hp pointPtr pointLength pointCount)
        as [recs|e2] eqn:Hstaged.
      - exfalso.
        match type of Hloop with
        | pointLoop ?a ?b ?c ?d ?f ?g ?i ?j ?k = _ =>
          destruct (pointLoop_complete a b c d f g i j k o1 recs) as (out2 & m2 & Hok)
        end.
        + simpl. apply lookup_insert_eq.
        + exact Hstaged.
        + rewrite length_insert. lia.
        + rewrite Hok in Hloop. discriminate.
      - match type of Hloop with
        | pointLoop ?a ?b ?c ?d ?f ?g ?i ?j ?k = _ =>
          destruct (pointLoop_Throw a b c d f g i j k o1 e2) as (m2 & Hthrow & _)
        end.
        + simpl. apply lookup_insert_eq.
        + exact Hstaged.
        + rewrite length_insert. lia.
        + rewrite Hthrow in Hloop. by injection Hloop as -> _. }
    split; [by exists h|]. split; [done|]. split; [done|].
    split; [apply lookup_insert_eq | done].
Qed.

Lemma decompress_heap_account_witness :
  exists res m',
    decompressLaz Sample.failing_engine Sample.laz_file (machine0 _) = (res, m') /\
    blocks _ m' !! 8 = None /\
    objects _ m' !! 1%nat = None /\
    blocks _ m' !! (8 + Z.of_nat (S (length Sample.laz_file))) = Some 26%nat.
Proof.
  destruct (decompressLaz Sample.failing_engine Sample.laz_file (machine0 _))
    as [res m'] eqn:Hrun.
  exists res, m'. split; [reflexivity|].
  destruct (decompress_heap_account Sample.failing_engine Sample.laz_file
              (machine0 _) m' res (machine0_fresh _) Hrun)
    as (Hfile & Hobj & [[Hno _] | (o1 & e & _ & _ & _ & Hleak & _)]).
  - exfalso.
    apply (Hno 0%nat (EngineError "chunk table is corrupt")).
    eexists. split; [vm_compute; reflexivity|].
    split; [reflexivity|].
    split; [vm_compute; lia|].
    split; [vm_compute; lia|].
    vm_compute. reflexivity.
  - split; [exact Hfile|]. split; [exact Hobj | exact Hleak].
Defined.

(** ** Loading a file into the viewer *)

(** A container whose header puts the point data past the end of the file
    is opened by the engine and then fails at the copy of the header:
    [new Uint8Array(lazBuffer, 0, offsetToPointData)] throws. *)
Lemma decompressLaz_header_past_end (module : LazPerf) (lazBuffer : buffer)
    (m : machine module) (h : LASHeader) (o1 : LASZip module) :
  let filePtr := brk module m in
  let hp := heap_set (HEAPU8 module m) lazBuffer filePtr in
  readLazHeader lazBuffer = Ok h ->
  LASZip_open module (LASZip_new module) hp filePtr (byteLength lazBuffer) = Ok o1 ->
  byteLength lazBuffer < offsetToPointData h ->
  exists m',
    decompressLaz module lazBuffer m
    = (Throw (InvalidLength (Z.to_nat (offsetToPointData h))), m').
Proof.
  intros filePtr hp Hhdr Hopen Hpast.
  unfold decompressLaz.
  unfold mbind at 1, lift at 1. rewrite Hhdr.
  unfold mbind at 1, new_LASZip at 1.
  unfold mbind at 1, _malloc at 1.
  unfold mbind at 1, HEAPU8_set at 1.
  unfold try_finally.
  unfold mbind at 1, new_LASZip at 1.
  unfold mbind at 1, assign_laszip at 1.
  cbn [HEAPU8 blocks brk objects nextObject laszip].
  unfold mbind at 1, try_catch, laszip_open, with_object.
  cbn [HEAPU8 blocks brk objects nextObject laszip].
  rewrite lookup_insert_eq. fold filePtr hp. rewrite Hopen.
  unfold update_object.
  cbn [HEAPU8 blocks brk objects nextObject laszip].
  unfold mbind at 1, laszip_getCount, with_object.
  cbn [HEAPU8 blocks brk objects nextObject laszip].
  rewrite lookup_insert_eq. unfold mret at 1.
  unfold mbind at 1, laszip_getPointLength, with_object.
  cbn [HEAPU8 blocks brk objects nextObject laszip].
  rewrite lookup_insert_eq. unfold mret at 1.
  unfold mbind at 1, lift at 1, subarray0.
  destruct (Nat.ltb_spec (length lazBuffer) (Z.to_nat (offsetToPointData h)));
    [|unfold byteLength in Hpast; lia].
  unfold mbind, read_laszip, delete_object, _free.
  cbn [HEAPU8 blocks brk objects nextObject laszip].
  eexists. reflexivity.
Qed.

Section LoadFile.

Import Slicer.

Variable toLowerCase : string -> string.
Variable module : LazPerf.
Variable Math_cos : float -> float.
Variable confirmLoad : bool.

Lemma dataBoundsLoop_running (a : list float) (n : nat) :
  forall (i : nat) (bX bY bZ : SliceBounds),
  Viewer.dataBoundsLoop a n i bX bY bZ
  = ({| bmin := running_min (map (fun k => at_ a (k * 3)) (seq i n)) (bmin bX);
        bmax := running_max (map (fun k => at_ a (k * 3)) (seq i n)) (bmax bX) |},
     {| bmin := running_min (map (fun k => at_ a (k * 3 + 1)) (seq i n)) (bmin bY);
        bmax := running_max (map (fun k => at_ a (k * 3 + 1)) (seq i n)) (bmax bY) |},
     {| bmin := running_min (map (fun k => at_ a (k * 3 + 2)) (seq i n)) (bmin bZ);
        bmax := running_max (map (fun k => at_ a (k * 3 + 2)) (seq i n)) (bmax bZ) |}).
Proof.
  induction n as [|n IH]; intros i bX bY bZ.
  - by destruct bX, bY, bZ.
  - cbn [Viewer.dataBoundsLoop seq map]. rewrite IH. reflexivity.
Qed.

(** What [loadFile] has done when it shows a cloud. *)
Lemma loadFile_shown_inv (file : FileKinds.File) (m m' : machine module)
    (data : LASData) (current : ThreeRef) (init : action) :
  Viewer.loadFile toLowerCase module Math_cos confirmLoad file m
    = (Viewer.shown data current init, m') ->
  let p := positions (LASParser.points data) in
  let c := colors (LASParser.points data) in
  (exists view : buffer, parse Math_cos (new_LASParser view None) = Ok data) /\
  current = {| points := Some {| position := Some p; color := Some c |};
               originalPositions := Some p; originalColors := c |} /\
  exists bX bY bZ,
    Viewer.dataBoundsLoop p (iterations (length p)) 0
      {| bmin := infinity; bmax := neg_infinity |}
      {| bmin := infinity; bmax := neg_infinity |}
      {| bmin := infinity; bmax := neg_infinity |} = (bX, bY, bZ) /\
    init = INITIALIZE bX bY bZ.
Proof.
  unfold Viewer.loadFile.
  destruct (negb (FileKinds.isSupportedFile _ _)); [done|].
  destruct (_ && negb confirmLoad); [done|].
  destruct (if FileKinds.isLazFile _ _ then _ else _) as [[view|e] m1]; [|done].
  destruct (negb (valid _)); [done|].
  destruct (parse Math_cos (new_LASParser view None)) as [data'|e] eqn:Hparse;
    [|done].
  destruct (Viewer.dataBoundsLoop _ _ _ _ _ _) as [[bX bY] bZ] eqn:Hloop.
  intros H. injection H as <- <- <- <-.
  split; [by exists view|]. split; [done|].
  by exists bX, bY, bZ.
Qed.

(** X22: a cloud that [loadFile] shows is set up for the slicer.  The
    geometry displays the two arrays of the parser, [3 * loadedPoints]
    entries each, and the stored originals are copies of them.  The bounds
    handed to [slicer.initialize] enclose the cloud: on each axis no point
    has a coordinate below the minimum or above the maximum.  Whatever the
    slice state was, after the initialization the slicer is off with
    ordered ranges and the new bounds, an [applySlice] at that state leaves
    the shown cloud as it is, and after any sequence of slicer updates
    [applySlice] yields position and colour buffers of equal length. *)
Theorem loaded_cloud_invariants (file : FileKinds.File) (m m' : machine module)
    (data : LASData) (current : ThreeRef) (init : action) :
  Viewer.loadFile toLowerCase module Math_cos confirmLoad file m
    = (Viewer.shown data current init, m') ->
  let p := positions (LASParser.points data) in
  let c := colors (LASParser.points data) in
  points current = Some {| position := Some p; color := Some c |} /\
  originalPositions current = Some p /\
  originalColors current = c /\
  Z.of_nat (length p) = 3 * loadedPoints (derived data) /\
  Z.of_nat (length c) = 3 * loadedPoints (derived data) /\
  exists bX bY bZ,
    init = INITIALIZE bX bY bZ /\
    (forall i : nat, Z.of_nat i < loadedPoints (derived data) ->
       (at_ p (i * 3) <? bmin bX)%float = false /\
       (bmax bX <? at_ p (i * 3))%float = false /\
       (at_ p (i * 3 + 1) <? bmin bY)%float = false /\
       (bmax bY <? at_ p (i * 3 + 1))%float = false /\
       (at_ p (i * 3 + 2) <? bmin bZ)%float = false /\
       (bmax bZ <? at_ p (i * 3 + 2))%float = false) /\
    forall state : SlicerState,
      let s := slicerReducer state init in
      enabled s = false /\ ranges_ok s /\
      boundsX s = bX /\ boundsY s = bY /\ boundsZ s = bZ /\
      forall (Math_sin : float -> float) (pointColor : PointColor)
             (rotationZ : float) (us : list update),
        applySlice Math_cos Math_sin s pointColor rotationZ current = current /\
        geometry_parallel
          (applySlice Math_cos Math_sin (run s us) pointColor rotationZ current).
Proof.
  intros Hload p c.
  destruct (loadFile_shown_inv _ _ _ _ _ _ Hload)
    as ((view & Hparse) & -> & bX & bY & bZ & Hloop & ->).
  fold p c in Hloop |- *.
  assert (Hlen : Z.of_nat (length p) = 3 * loadedPoints (derived data) /\
                 Z.of_nat (length c) = 3 * loadedPoints (derived data)).
  { unfold parse in Hparse. inv_bind Hparse. inv_bind Hparse.
    destruct v0 as [d pts].
    injection Hparse as <-. apply parsePoints_lengths in Hv0. exact Hv0. }
  destruct Hlen as [Hp Hc].
  do 3 (split; [done|]). split; [done|]. split; [done|].
  exists bX, bY, bZ. split; [done|].
  rewrite dataBoundsLoop_running in Hloop. injection Hloop as <- <- <-.
  split.
  - intros i Hi. cbn [bmin bmax].
    assert (Hin : forall f : nat -> float,
              f i ∈ map f (seq 0 (iterations (length p)))).
    { intros f. apply list_elem_of_In, in_map, in_seq.
      unfold iterations.
      assert (length p = (Z.to_nat (loadedPoints (derived data)) * 3)%nat) by lia.
      assert (Z.to_nat (loadedPoints (derived data)) <= (length p + 2) / 3)%nat
        by (apply Nat.div_le_lower_bound; lia).
      lia. }
    repeat split;
      first [ apply running_min_bound | apply running_max_bound ];
      apply (Hin (fun k => at_ p _)).
  - intros state s. subst s. cbn [slicerReducer enabled boundsX boundsY boundsZ].
    split; [done|]. split; [apply initialState_ranges_ok|].
    do 3 (split; [done|]).
    intros Math_sin pointColor rotationZ us. split.
    + unfold applySlice.
      cbn [points originalPositions originalColors enabled initialState negb
           position].
      by rewrite Nat.eqb_refl.
    + apply applySlice_parallel.
      * unfold originals_parallel. cbn [originalPositions originalColors]. lia.
      * unfold geometry_parallel. cbn [points position color]. lia.
Qed.

(** X23: what [loadFile] shows of a file.  A name that is neither
    [.las] nor [.laz] is refused, and a file over 100 MB that the user
    declines is dropped, both before anything is read or decompressed.  A
    LAS file goes to the parser as it is and the decoder is not touched:
    it is shown exactly when [parseHeader] accepts its bytes; bytes that
    [validate] rejects give the text of [validate] as the error, and bytes
    that [validate] accepts but that are shorter than the 179 bytes
    [parseHeader] reads give the bare message of the [RangeError].  A LAZ
    file whose decompression throws gives the message of that exception
    as the error, with the decoder left as [decompressLaz] left it: for a
    container that the engine opens and whose header puts the point data
    at an offset past the end of the file, the text is that of the
    [RangeError] of the typed-array constructor,
    [Invalid typed array length: ] followed by the offset. *)
Theorem loadFile_outcomes (file : FileKinds.File) (m : machine module) :
  let name := FileKinds.name file in
  let bytes := FileKinds.arrayBuffer file in
  let parser := new_LASParser bytes None in
  let load := Viewer.loadFile toLowerCase module Math_cos confirmLoad file m in
  (FileKinds.isSupportedFile toLowerCase name = false ->
   load = (Viewer.unsupported, m)) /\
  (FileKinds.isSupportedFile toLowerCase name = true ->
   100 * 1024 * 1024 < byteLength bytes -> confirmLoad = false ->
   load = (Viewer.declined, m)) /\
  (FileKinds.isLasFile toLowerCase name = true ->
   byteLength bytes <= 100 * 1024 * 1024 \/ confirmLoad = true ->
   snd load = m /\
   (forall h, parseHeader bytes = Ok h ->
      exists data current init,
        fst load = Viewer.shown data current init /\ header data = h) /\
   (valid (validate parser) = false ->
      (forall h, parseHeader bytes <> Ok h) /\
      exists text, error (validate parser) = Some text /\
                   fst load = Viewer.failed text) /\
   (valid (validate parser) = true -> byteLength bytes < 179 ->
      fst load = Viewer.failed (message RangeError))) /\
  (FileKinds.isLazFile toLowerCase name = true ->
   byteLength bytes <= 100 * 1024 * 1024 \/ confirmLoad = true ->
   (forall e m', decompressLaz module bytes m = (Throw e, m') ->
      load = (Viewer.failed (message e), m')) /\
   (forall h o1,
      readLazHeader bytes = Ok h ->
      LASZip_open module (LASZip_new module)
        (heap_set (HEAPU8 module m) bytes (brk module m)) (brk module m)
        (byteLength bytes) = Ok o1 ->
      byteLength bytes < offsetToPointData h ->
      fst load
      = Viewer.failed
          ("Invalid typed array length: "
           ++ NilZero.string_of_uint (Nat.to_uint (Z.to_nat (offsetToPointData h)))))).
Proof.
  intros name bytes parser load. subst load. unfold Viewer.loadFile.
  fold name bytes.
  assert (Hsize : byteLength bytes <= 100 * 1024 * 1024 \/ confirmLoad = true ->
                  (100 * 1024 * 1024 <? byteLength bytes) && negb confirmLoad = false).
  { intros [Hle | ->]; [|apply andb_false_r].
    apply andb_false_iff. left. apply Z.ltb_ge. exact Hle. }
  split; [|split; [|split]].
  - intros ->. done.
  - intros -> Hbig ->. cbn [negb].
    apply Z.ltb_lt in Hbig. rewrite Hbig. done.
  - intros Hlas Hok.
    assert (Hsup : FileKinds.isSupportedFile toLowerCase name = true).
    { unfold FileKinds.isSupportedFile. unfold FileKinds.isLasFile in Hlas.
      by rewrite Hlas. }
    assert (Hlaz : FileKinds.isLazFile toLowerCase name = false).
    { unfold FileKinds.isLazFile, FileKinds.isLasFile in *.
      destruct (FileKinds.endsWith (toLowerCase name) ".laz") eqn:E; [|done].
      apply endsWith_suffix in Hlas, E. simpl String.length in *. congruence. }
    rewrite Hsup, (Hsize Hok), Hlaz. cbn [negb]. fold parser.
    assert (Hbuf : buffer_of parser = bytes) by done.
    split; [|split; [|split]].
    + destruct (negb (valid (validate parser))); [done|].
      destruct (parse Math_cos parser); [|done].
      by destruct (Viewer.dataBoundsLoop _ _ _ _ _ _) as [[bX bY] bZ].
    + intros h Hhdr. rewrite <- Hbuf in Hhdr.
      rewrite (validate_of_parseHeader parser h Hhdr). cbn [valid negb].
      pose proof (parseHeader_wf _ _ Hhdr) as [Hoff Hrec].
      destruct (parsePoints_spec Math_cos parser h Hoff Hrec ltac:(simpl; lia))
        as (d & pts & Hrun & _).
      unfold parse. rewrite Hhdr. cbn [rbind]. rewrite Hrun. cbn [rbind].
      destruct (Viewer.dataBoundsLoop _ _ _ _ _ _) as [[bX bY] bZ].
      by eexists _, _, _.
    + intros Hinvalid. rewrite Hinvalid. cbn [negb fst]. split.
      * intros h Hhdr. rewrite <- Hbuf in Hhdr.
        rewrite (validate_of_parseHeader parser h Hhdr) in Hinvalid. discriminate.
      * revert Hinvalid. unfold validate.
        destruct (readSignature (buffer_of parser)) as [sig|e]; cbn [rbind].
        2:{ intros _. by eexists. }
        destruct (negb (String.eqb sig "LASF")).
        { intros _. by eexists. }
        repeat match goal with
               | |- context [rbind ?x _] =>
                 destruct x; cbn [rbind]; try (intros _; by eexists)
               end;
          try discriminate.
    + intros Hvalid Hshort. rewrite Hvalid. cbn [negb].
      assert (Hhdr : parseHeader (buffer_of parser) = Throw RangeError).
      { destruct (parseHeader (buffer_of parser)) as [h|e] eqn:Hhdr.
        - apply parseHeader_length in Hhdr. rewrite Hbuf in Hhdr. lia.
        - apply parseHeader_throw in Hhdr as [[-> _] | (s & Hs & Hne & _)]; [done|].
          apply validate_valid_inv in Hvalid as [Hsig _]. congruence. }
      unfold parse. rewrite Hhdr. reflexivity.
  - intros Hlaz Hok.
    assert (Hsup : FileKinds.isSupportedFile toLowerCase name = true).
    { unfold FileKinds.isSupportedFile. unfold FileKinds.isLazFile in Hlaz.
      rewrite Hlaz. apply orb_true_r. }
    rewrite Hsup, (Hsize Hok), Hlaz. cbn [negb].
    unfold FileKinds.processFile. fold name bytes. rewrite Hlaz.
    unfold mbind, mret. split.
    + intros e m' Hrun. rewrite Hrun. reflexivity.
    + intros h o1 Hhdr Hopen Hpast.
      destruct (decompressLaz_header_past_end module bytes m h o1 Hhdr Hopen Hpast)
        as (m' & Hrun).
      rewrite Hrun. reflexivity.
Qed.

End LoadFile.

Section LoadFileSamples.

Import Slicer.

Lemma loaded_cloud_invariants_witness :
  exists data current init,
    Viewer.loadFile (fun s => s) Sample.failing_engine Sample.cos_at_equator false
      {| FileKinds.name := "cloud.las"; FileKinds.arrayBuffer := Sample.five_points |}
      (machine0 _)
    = (Viewer.shown data current init, machine0 _) /\
    loadedPoints (derived data) = 5 /\
    Z.of_nat (length (positions (LASParser.points data))) = 15 /\
    applySlice Sample.cos_at_equator (fun _ => 0%float)
      (slicerReducer initialState init) original 0 current = current.
Proof.
  assert (H : exists data current init,
            Viewer.loadFile (fun s => s) Sample.failing_engine
              Sample.cos_at_equator false
              {| FileKinds.name := "cloud.las";
                 FileKinds.arrayBuffer := Sample.five_points |} (machine0 _)
            = (Viewer.shown data current init, machine0 _) /\
            loadedPoints (derived data) = 5).
  { vm_compute. eexists _, _, _. split; reflexivity. }
  destruct H as (data & current & init & H & Hfive).
  exists data, current, init. split; [exact H|]. split; [exact Hfive|].
  destruct (loaded_cloud_invariants (fun s => s) Sample.failing_engine
              Sample.cos_at_equator false _ _ _ _ _ _ H)
    as (_ & _ & _ & Hp & _ & bX & bY & bZ & _ & _ & Hstate).
  split; [rewrite Hp, Hfive; reflexivity|].
  destruct (Hstate initialState) as (_ & _ & _ & _ & _ & Hslice).
  exact (proj1 (Hslice (fun _ => 0%float) original 0%float [])).
Defined.

Lemma loadFile_outcomes_witness :
  Viewer.loadFile (fun s => s) Sample.failing_engine Sample.cos_at_equator false
    {| FileKinds.name := "notes.txt"; FileKinds.arrayBuffer := Sample.five_points |}
    (machine0 _)
  = (Viewer.unsupported, machine0 _) /\
  fst (Viewer.loadFile (fun s => s) Sample.failing_engine Sample.cos_at_equator false
         {| FileKinds.name := "cloud.las";
            FileKinds.arrayBuffer := take 120 (Sample.header12 3) |}
         (machine0 _))
  = Viewer.failed "Offset is outside the bounds of the DataView" /\
  fst (Viewer.loadFile (fun s => s) Sample.failing_engine Sample.cos_at_equator false
         {| FileKinds.name := "cloud.laz";
            FileKinds.arrayBuffer := take 200 Sample.laz_file |}
         (machine0 _))
  = Viewer.failed "Invalid typed array length: 227".
Proof.
  split; [|split].
  - exact (proj1 (loadFile_outcomes (fun s => s) Sample.failing_engine
                    Sample.cos_at_equator false
                    {| FileKinds.name := "notes.txt";
                       FileKinds.arrayBuffer := Sample.five_points |} (machine0 _))
             eq_refl).
  - refine (proj2 (proj2 (proj2 (proj1 (proj2 (proj2
              (loadFile_outcomes (fun s => s) Sample.failing_engine
                 Sample.cos_at_equator false
                 {| FileKinds.name := "cloud.las";
                    FileKinds.arrayBuffer := take 120 (Sample.header12 3) |}
                 (machine0 _)))) _ _))) _ _).
    + reflexivity.
    + left. vm_compute. discriminate.
    + vm_compute. reflexivity.
    + vm_compute. reflexivity.
  - destruct (decompressLaz Sample.failing_engine (take 200 Sample.laz_file)
                (machine0 _)) as [r m'] eqn:Hrun.
    assert (Hr : r = Throw (InvalidLength 227)).
    { change r with (fst (r, m')). rewrite <- Hrun. vm_compute. reflexivity. }
    subst r.
    rewrite (proj1 (proj2 (proj2 (proj2
               (loadFile_outcomes (fun s => s) Sample.failing_engine
                  Sample.cos_at_equator false
                  {| FileKinds.name := "cloud.laz";
                     FileKinds.arrayBuffer := take 200 Sample.laz_file |}
                  (machine0 _))))
               eq_refl ltac:(left; vm_compute; discriminate)) _ _ Hrun).
    reflexivity.
Defined.

End LoadFileSamples.
